(** * Cost metering and budget enforcement: a shallow embedding

    The development follows the TypeScript sources of the cost engine:
    [pricing.ts] (catalog and lookup), [CostTracker.ts] (estimate and
    actual cost), [CostStorage.ts] (the in-memory ledger) and
    [BudgetManager.ts] (budgets, status, enforcement and alerts).

    Modelling conventions.
    - A JavaScript number is a rational ([Q]), which every finite double
      is.  The only place where the sources can leave the finite numbers
      from finite inputs is the division by a budget limit, so a
      percentage is a [JsNum]: a rational, an infinity or NaN.  The
      arithmetic of the main sections is exact; where a statement depends
      on the rounding of doubles it is made on [Rounded], which rounds
      after every operation, with [binary64] the rounding of the sources.
    - A plain object used as a table is the association list of its own
      keys; [PlainObject] adds the members that the catalog object
      inherits, and the statements on the own-key lookup are made for
      the names that are not inherited.
    - A string is a string of bytes; the string methods are modelled on
      the ASCII range.
    - A JavaScript [Map] is an association list in insertion order without
      repeated keys; [set] on a present key replaces the value in place.
    - An instant ([Date], ISO timestamp string) is its number of
      milliseconds since the epoch, a [Z].  One invocation of a method
      observes one instant [now].
    - [async] methods are run to completion; a promise is its value.
    - [console.warn] and the text of an alert's [message] are left out. *)

From Stdlib Require Import ZArith QArith List String Ascii Bool Lia.
From Stdlib Require Import Permutation DecimalString DecimalNat.
Import ListNotations.

Set Implicit Arguments.

(* ------------------------------------------------------------------ *)
(** ** JavaScript numbers *)

Definition Qlt_bool (x y : Q) : bool := negb (Qle_bool y x).

(** Truthiness of an optional number: [undefined] and [0] are falsy. *)
Definition truthy (o : option Q) : bool :=
  match o with
  | Some q => negb (Qeq_bool q 0)
  | None => false
  end.

(** [o || d] on an optional number. *)
Definition orElse (o : option Q) (d : Q) : Q :=
  match o with
  | Some q => if Qeq_bool q 0 then d else q
  | None => d
  end.

Inductive JsNum : Type :=
  | Finite (q : Q)
  | PosInf
  | NegInf
  | NaN.

(** [a / b] on finite numbers; the divisor may be zero. *)
Definition jsDiv (a b : Q) : JsNum :=
  if Qeq_bool b 0 then
    if Qeq_bool a 0 then NaN
    else if Qlt_bool 0 a then PosInf else NegInf
  else Finite (a / b).

(** [x * c] for a finite, strictly positive constant [c]. *)
Definition jsScale (x : JsNum) (c : Q) : JsNum :=
  match x with
  | Finite q => Finite (q * c)
  | other => other
  end.

(** [x >= t] and [x < t] against a finite [t]; both are false on NaN. *)
Definition jsGe (x : JsNum) (t : Q) : bool :=
  match x with
  | Finite q => Qle_bool t q
  | PosInf => true
  | NegInf => false
  | NaN => false
  end.

Definition jsLt (x : JsNum) (t : Q) : bool :=
  match x with
  | Finite q => Qlt_bool q t
  | PosInf => false
  | NegInf => true
  | NaN => false
  end.

(** [Math.max(0, x)]. *)
Definition max0 (x : Q) : Q := if Qle_bool 0 x then x else 0.

(** [xs.reduce((sum, r) => sum + f(r), 0)]. *)
Definition sumBy {A : Type} (f : A -> Q) (xs : list A) : Q :=
  fold_left (fun sum r => sum + f r) xs 0.

(* ------------------------------------------------------------------ *)
(** ** Strings *)

Definition lowerAscii (c : ascii) : ascii :=
  let n := nat_of_ascii c in
  if (65 <=? n)%nat && (n <=? 90)%nat then ascii_of_nat (n + 32) else c.

(** [s.toLowerCase()] on the ASCII range. *)
Fixpoint toLowerCase (s : string) : string :=
  match s with
  | EmptyString => EmptyString
  | String c rest => String (lowerAscii c) (toLowerCase rest)
  end.

Definition isSpace (c : ascii) : bool :=
  let n := nat_of_ascii c in
  (n =? 32)%nat || ((9 <=? n)%nat && (n <=? 13)%nat).

Fixpoint trimStart (s : string) : string :=
  match s with
  | EmptyString => EmptyString
  | String c rest => if isSpace c then trimStart rest else s
  end.

Fixpoint trimEnd (s : string) : string :=
  match s with
  | EmptyString => EmptyString
  | String c rest =>
      match trimEnd rest with
      | EmptyString => if isSpace c then EmptyString else String c EmptyString
      | kept => String c kept
      end
  end.

(** [s.trim()], for ASCII white space. *)
Definition trim (s : string) : string := trimEnd (trimStart s).

(** [s.startsWith(p)]. *)
Definition startsWith (s p : string) : bool := String.prefix p s.

(* ------------------------------------------------------------------ *)
(** ** JavaScript [Map] with string keys *)

Module JsMap.
Section Ops.
Variable V : Type.

Definition t := list (string * V).

Definition empty : t := [].

Fixpoint get (k : string) (m : t) : option V :=
    match m with
    | [] => None
    | (k', v) :: rest => if String.eqb k k' then Some v else get k rest
    end.

Fixpoint set (k : string) (v : V) (m : t) : t :=
    match m with
    | [] => [(k, v)]
    | (k', v') :: rest =>
        if String.eqb k k' then (k, v) :: rest else (k', v') :: set k v rest
    end.

Definition has (k : string) (m : t) : bool :=
    match get k m with Some _ => true | None => false end.

  (** [m.delete(k)]: the map without [k]; the method's result is [has k m]. *)
Fixpoint delete (k : string) (m : t) : t :=
    match m with
    | [] => []
    | (k', v') :: rest =>
        if String.eqb k k' then rest else (k', v') :: delete k rest
    end.

Definition keys (m : t) : list string := map fst m.
Definition values (m : t) : list V := map snd m.
Definition size (m : t) : nat := List.length m.
End Ops.
Arguments empty {V}.
End JsMap.

(* ------------------------------------------------------------------ *)
(** ** types.ts *)

Inductive ModelProvider : Type :=
  | openai | anthropic | azure_openai | google | cohere | custom.

Definition ModelProvider_eqb (a b : ModelProvider) : bool :=
  match a, b with
  | openai, openai | anthropic, anthropic | azure_openai, azure_openai
  | google, google | cohere, cohere | custom, custom => true
  | _, _ => false
  end.

Module ModelPricing.
Record t : Type := mk {
    model : string;
    provider : ModelProvider;
    inputCostPer1K : Q;
    outputCostPer1K : Q;
    imageCost : option Q;
    audioCostPerSecond : option Q;
    lastUpdated : string
  }.
End ModelPricing.

(** [Partial<ModelPricing>]: an absent field is [None]. *)
Module PartialPricing.
Record t : Type := mk {
    model : option string;
    provider : option ModelProvider;
    inputCostPer1K : option Q;
    outputCostPer1K : option Q;
    imageCost : option Q;
    audioCostPerSecond : option Q;
    lastUpdated : option string
  }.
End PartialPricing.

Module TokenUsage.
Record t : Type := mk {
    inputTokens : Q;
    outputTokens : Q;
    totalTokens : Q;
    images : option Q;
    audioDuration : option Q
  }.
End TokenUsage.

Module Breakdown.
Record t : Type := mk {
    inputCost : Q;
    outputCost : Q;
    imageCost : option Q;
    audioCost : option Q
  }.
End Breakdown.

Module CostEstimate.
Record t : Type := mk {
    estimatedCost : Q;
    model : string;
    provider : ModelProvider;
    estimatedTokens : TokenUsage.t;
    breakdown : Breakdown.t;
    timestamp : Z
  }.
End CostEstimate.

(** [Record<string, any>], kept as uninterpreted text. *)
Definition Metadata : Type := list (string * string).

Module CostRecord.
Record t : Type := mk {
    id : string;
    requestId : string;
    agentId : string;
    model : string;
    provider : ModelProvider;
    actualTokens : TokenUsage.t;
    actualCost : Q;
    breakdown : Breakdown.t;
    timestamp : Z;
    metadata : option Metadata
  }.
End CostRecord.

Inductive Period : Type := hourly | daily | weekly | monthly | total.
Inductive Action : Type := alert | block | throttle.
Inductive ScopeType : Type := agent | project | organization.

Definition ScopeType_eqb (a b : ScopeType) : bool :=
  match a, b with
  | agent, agent | project, project | organization, organization => true
  | _, _ => false
  end.

Module Scope.
Record t : Type := mk { type : ScopeType; id : string }.
End Scope.

Module BudgetConfig.
Record t : Type := mk {
    id : string;
    name : string;
    limit : Q;
    period : Period;
    alertThresholds : list Q;
    action : Action;
    scope : option Scope.t;
    enabled : bool;
    createdAt : Z;
    updatedAt : Z
  }.
End BudgetConfig.

(** [Omit<BudgetConfig, 'id' | 'createdAt' | 'updatedAt'>]. *)
Module BudgetInput.
Record t : Type := mk {
    name : string;
    limit : Q;
    period : Period;
    alertThresholds : list Q;
    action : Action;
    scope : option Scope.t;
    enabled : bool
  }.
End BudgetInput.

(** [Partial<Omit<BudgetConfig, 'id' | 'createdAt' | 'updatedAt'>>]:
    an absent field is [None]. *)
Module BudgetPatch.
Record t : Type := mk {
    name : option string;
    limit : option Q;
    period : option Period;
    alertThresholds : option (list Q);
    action : option Action;
    scope : option Scope.t;
    enabled : option bool
  }.
End BudgetPatch.

Module BudgetStatus.
Record t : Type := mk {
    budget : BudgetConfig.t;
    currentSpending : Q;
    remaining : Q;
    percentageUsed : JsNum;
    isExceeded : bool;
    activeAlerts : list Q;
    periodStart : Z;
    periodEnd : Z;
    lastUpdated : Z
  }.
End BudgetStatus.

Inductive Severity : Type := info | warning | critical.

(** The [message] text of an alert is formatting only and is left out. *)
Module CostAlert.
Record t : Type := mk {
    id : string;
    budgetId : string;
    threshold : Q;
    currentSpending : Q;
    limit : Q;
    severity : Severity;
    timestamp : Z;
    acknowledged : bool
  }.
End CostAlert.

Module TokenTotals.
Record t : Type := mk { input : Q; output : Q; total : Q }.
End TokenTotals.

Module CostSummary.
Record t : Type := mk {
    totalCost : Q;
    totalRequests : nat;
    averageCostPerRequest : Q;
    byModel : JsMap.t Q;
    byProvider : JsMap.t Q;
    byAgent : JsMap.t Q;
    periodStart : Z;
    periodEnd : Z;
    totalTokens : TokenTotals.t
  }.
End CostSummary.

Module CostTrackerConfig.
Record t : Type := mk {
    enabled : bool;
    persistRecords : bool;
    customPricing : option (list (string * PartialPricing.t));
    defaultProvider : option ModelProvider;
    enableBudgets : bool;
    enableAlerts : bool
  }.
End CostTrackerConfig.

(* ------------------------------------------------------------------ *)
(** ** utils.ts *)

(** Modelled from the spec: [generateId] of [utils.ts], a file that is not
    among the sources.  The specification asks for a fresh unique id on
    every allocation; the generator is a counter, and the id is the
    decimal numeral of the counter's value. *)
Definition IdGen : Type := nat.

Definition idOfNat (n : nat) : string :=
  NilEmpty.string_of_uint (Nat.to_uint n).

Definition generateId (g : IdGen) : string * IdGen := (idOfNat g, S g).

(* ------------------------------------------------------------------ *)
(** ** pricing.ts *)

Open Scope string_scope.
Open Scope list_scope.
Open Scope Q_scope.

(** The catalog, in the order of the object literal. *)
Definition MODEL_PRICING : JsMap.t ModelPricing.t :=
  [ ("gpt-4", ModelPricing.mk "gpt-4" openai (3 # 100) (6 # 100) None None "2026-01-31");
    ("gpt-4-32k", ModelPricing.mk "gpt-4-32k" openai (6 # 100) (12 # 100) None None "2026-01-31");
    ("gpt-4-turbo", ModelPricing.mk "gpt-4-turbo" openai (1 # 100) (3 # 100) None None "2026-01-31");
    ("gpt-4-turbo-preview", ModelPricing.mk "gpt-4-turbo-preview" openai (1 # 100) (3 # 100) None None "2026-01-31");
    ("gpt-4-vision-preview", ModelPricing.mk "gpt-4-vision-preview" openai (1 # 100) (3 # 100) (Some (765 # 100000)) None "2026-01-31");
    ("gpt-3.5-turbo", ModelPricing.mk "gpt-3.5-turbo" openai (5 # 10000) (15 # 10000) None None "2026-01-31");
    ("gpt-3.5-turbo-16k", ModelPricing.mk "gpt-3.5-turbo-16k" openai (3 # 1000) (4 # 1000) None None "2026-01-31");
    ("claude-3-opus-20240229", ModelPricing.mk "claude-3-opus-20240229" anthropic (15 # 1000) (75 # 1000) None None "2026-01-31");
    ("claude-3-sonnet-20240229", ModelPricing.mk "claude-3-sonnet-20240229" anthropic (3 # 1000) (15 # 1000) None None "2026-01-31");
    ("claude-3-haiku-20240307", ModelPricing.mk "claude-3-haiku-20240307" anthropic (25 # 100000) (125 # 100000) None None "2026-01-31");
    ("claude-2.1", ModelPricing.mk "claude-2.1" anthropic (8 # 1000) (24 # 1000) None None "2026-01-31");
    ("claude-2.0", ModelPricing.mk "claude-2.0" anthropic (8 # 1000) (24 # 1000) None None "2026-01-31");
    ("claude-instant-1.2", ModelPricing.mk "claude-instant-1.2" anthropic (8 # 10000) (24 # 10000) None None "2026-01-31");
    ("gemini-pro", ModelPricing.mk "gemini-pro" google (25 # 100000) (5 # 10000) None None "2026-01-31");
    ("gemini-pro-vision", ModelPricing.mk "gemini-pro-vision" google (25 # 100000) (5 # 10000) (Some (25 # 10000)) None "2026-01-31");
    ("palm-2", ModelPricing.mk "palm-2" google (5 # 10000) (5 # 10000) None None "2026-01-31");
    ("command", ModelPricing.mk "command" cohere (1 # 1000) (2 # 1000) None None "2026-01-31");
    ("command-light", ModelPricing.mk "command-light" cohere (3 # 10000) (6 # 10000) None None "2026-01-31");
    ("command-nightly", ModelPricing.mk "command-nightly" cohere (1 # 1000) (2 # 1000) None None "2026-01-31") ].

(** [!provider || pricing.provider === provider]. *)
Definition providerAccepts (provider : option ModelProvider)
    (p : ModelPricing.t) : bool :=
  match provider with
  | None => true
  | Some pr => ModelProvider_eqb (ModelPricing.provider p) pr
  end.

(** Lookup over a catalog: own key, then case-insensitive key, then a key
    that is a prefix of the query or has the query as a prefix.  Only the
    catalog's own keys are looked up; names inherited from
    [Object.prototype] are outside the model. *)
Definition lookupPricing (catalog : JsMap.t ModelPricing.t)
    (model : string) (provider : option ModelProvider)
    : option ModelPricing.t :=
  match JsMap.get model catalog with
  | Some p => Some p
  | None =>
      let normalizedModel := trim (toLowerCase model) in
      match find (fun kp => String.eqb (toLowerCase (fst kp)) normalizedModel)
                 catalog with
      | Some (_, pricing) => Some pricing
      | None =>
          match find (fun kp =>
                        (startsWith normalizedModel (toLowerCase (fst kp))
                         || startsWith (toLowerCase (fst kp)) normalizedModel)
                        && providerAccepts provider (snd kp))
                     catalog with
          | Some (_, pricing) => Some pricing
          | None => None
          end
      end
  end.

Definition getModelPricing (model : string) (provider : option ModelProvider)
    : option ModelPricing.t :=
  lookupPricing MODEL_PRICING model provider.

Definition getProviderModels (provider : ModelProvider)
    : list ModelPricing.t :=
  filter (fun p => ModelProvider_eqb (ModelPricing.provider p) provider)
         (JsMap.values MODEL_PRICING).

Definition isModelSupported (model : string) : bool :=
  match getModelPricing model None with Some _ => true | None => false end.

Definition getSupportedModels : list string := JsMap.keys MODEL_PRICING.

(* ------------------------------------------------------------------ *)
(** ** CostTracker.ts *)

Definition DEFAULT_CONFIG : CostTrackerConfig.t :=
  CostTrackerConfig.mk true true None None true true.

(** [Partial<CostTrackerConfig>]. *)
Module PartialConfig.
Record t : Type := mk {
    enabled : option bool;
    persistRecords : option bool;
    customPricing : option (list (string * PartialPricing.t));
    defaultProvider : option ModelProvider;
    enableBudgets : option bool;
    enableAlerts : option bool
  }.
End PartialConfig.

Definition over {A : Type} (base : A) (patch : option A) : A :=
  match patch with Some v => v | None => base end.

Definition overOpt {A : Type} (base patch : option A) : option A :=
  match patch with Some v => Some v | None => base end.

(** [{ ...base, ...config }]. *)
Definition mergeConfig (base : CostTrackerConfig.t) (config : PartialConfig.t)
    : CostTrackerConfig.t :=
  CostTrackerConfig.mk
    (over (CostTrackerConfig.enabled base) (PartialConfig.enabled config))
    (over (CostTrackerConfig.persistRecords base)
          (PartialConfig.persistRecords config))
    (overOpt (CostTrackerConfig.customPricing base)
             (PartialConfig.customPricing config))
    (overOpt (CostTrackerConfig.defaultProvider base)
             (PartialConfig.defaultProvider config))
    (over (CostTrackerConfig.enableBudgets base)
          (PartialConfig.enableBudgets config))
    (over (CostTrackerConfig.enableAlerts base)
          (PartialConfig.enableAlerts config)).

(** [{ ...basePricing, ...pricing }]. *)
Definition mergePricing (basePricing : ModelPricing.t)
    (pricing : PartialPricing.t) : ModelPricing.t :=
  ModelPricing.mk
    (over (ModelPricing.model basePricing) (PartialPricing.model pricing))
    (over (ModelPricing.provider basePricing)
          (PartialPricing.provider pricing))
    (over (ModelPricing.inputCostPer1K basePricing)
          (PartialPricing.inputCostPer1K pricing))
    (over (ModelPricing.outputCostPer1K basePricing)
          (PartialPricing.outputCostPer1K pricing))
    (overOpt (ModelPricing.imageCost basePricing)
             (PartialPricing.imageCost pricing))
    (overOpt (ModelPricing.audioCostPerSecond basePricing)
             (PartialPricing.audioCostPerSecond pricing))
    (over (ModelPricing.lastUpdated basePricing)
          (PartialPricing.lastUpdated pricing)).

Module CostTracker.
Record t : Type := mk {
    config : CostTrackerConfig.t;
    customPricing : JsMap.t ModelPricing.t
  }.
End CostTracker.

(** The constructor's loop over [Object.entries(config.customPricing)]:
    an entry is kept only when the catalog resolves its model. *)
Fixpoint loadCustomPricing (entries : list (string * PartialPricing.t))
    (acc : JsMap.t ModelPricing.t) : JsMap.t ModelPricing.t :=
  match entries with
  | [] => acc
  | (model, pricing) :: rest =>
      match getModelPricing model None with
      | Some basePricing =>
          loadCustomPricing rest
            (JsMap.set model (mergePricing basePricing pricing) acc)
      | None => loadCustomPricing rest acc
      end
  end.

Definition newCostTracker (config : PartialConfig.t) : CostTracker.t :=
  CostTracker.mk
    (mergeConfig DEFAULT_CONFIG config)
    (match PartialConfig.customPricing config with
     | Some entries => loadCustomPricing entries JsMap.empty
     | None => JsMap.empty
     end).

(** [a && b ? a * b : 0] on optional quantities. *)
Definition auxCost (units price : option Q) : Q :=
  match units, price with
  | Some u, Some p => if truthy units && truthy price then u * p else 0
  | _, _ => 0
  end.

(** [...(c > 0 && { field: c })]: the field is present only when [c > 0]. *)
Definition optField (c : Q) : option Q :=
  if Qlt_bool 0 c then Some c else None.

Definition createZeroCostEstimate (now : Z) (model : string)
    (provider : ModelProvider) (estimatedTokens : TokenUsage.t)
    : CostEstimate.t :=
  CostEstimate.mk 0 model provider estimatedTokens
    (Breakdown.mk 0 0 None None) now.

Definition createZeroCostRecord (g : IdGen) (now : Z)
    (requestId agentId model : string) (provider : ModelProvider)
    (actualTokens : TokenUsage.t) : CostRecord.t * IdGen :=
  let (id, g') := generateId g in
  (CostRecord.mk id requestId agentId model provider actualTokens 0
     (Breakdown.mk 0 0 None None) now None, g').

(** [this.customPricing.get(model) || getModelPricing(model, provider)]. *)
Definition resolvePricing (tr : CostTracker.t) (model : string)
    (provider : option ModelProvider) : option ModelPricing.t :=
  match JsMap.get model (CostTracker.customPricing tr) with
  | Some p => Some p
  | None => getModelPricing model provider
  end.

Definition estimateCost (tr : CostTracker.t) (now : Z) (model : string)
    (estimatedTokens : TokenUsage.t) (provider : option ModelProvider)
    : CostEstimate.t :=
  if negb (CostTrackerConfig.enabled (CostTracker.config tr)) then
    createZeroCostEstimate now model (over openai provider) estimatedTokens
  else
    match resolvePricing tr model provider with
    | None =>
        createZeroCostEstimate now model (over custom provider) estimatedTokens
    | Some pricing =>
        let inputCost :=
          (TokenUsage.inputTokens estimatedTokens / 1000)
          * ModelPricing.inputCostPer1K pricing in
        let outputCost :=
          (TokenUsage.outputTokens estimatedTokens / 1000)
          * ModelPricing.outputCostPer1K pricing in
        let imageCost :=
          auxCost (TokenUsage.images estimatedTokens)
                  (ModelPricing.imageCost pricing) in
        let audioCost :=
          auxCost (TokenUsage.audioDuration estimatedTokens)
                  (ModelPricing.audioCostPerSecond pricing) in
        let estimatedCost := inputCost + outputCost + imageCost + audioCost in
        CostEstimate.mk estimatedCost
          (ModelPricing.model pricing) (ModelPricing.provider pricing)
          estimatedTokens
          (Breakdown.mk inputCost outputCost
             (optField imageCost) (optField audioCost))
          now
    end.

Definition calculateActualCost (tr : CostTracker.t) (g : IdGen) (now : Z)
    (requestId agentId model : string) (actualTokens : TokenUsage.t)
    (provider : option ModelProvider) (metadata : option Metadata)
    : CostRecord.t * IdGen :=
  if negb (CostTrackerConfig.enabled (CostTracker.config tr)) then
    createZeroCostRecord g now requestId agentId model (over openai provider)
      actualTokens
  else
    match resolvePricing tr model provider with
    | None =>
        createZeroCostRecord g now requestId agentId model
          (over custom provider) actualTokens
    | Some pricing =>
        let inputCost :=
          (TokenUsage.inputTokens actualTokens / 1000)
          * ModelPricing.inputCostPer1K pricing in
        let outputCost :=
          (TokenUsage.outputTokens actualTokens / 1000)
          * ModelPricing.outputCostPer1K pricing in
        let imageCost :=
          auxCost (TokenUsage.images actualTokens)
                  (ModelPricing.imageCost pricing) in
        let audioCost :=
          auxCost (TokenUsage.audioDuration actualTokens)
                  (ModelPricing.audioCostPerSecond pricing) in
        let actualCost := inputCost + outputCost + imageCost + audioCost in
        let (id, g') := generateId g in
        (CostRecord.mk id requestId agentId
           (ModelPricing.model pricing) (ModelPricing.provider pricing)
           actualTokens actualCost
           (Breakdown.mk inputCost outputCost
              (optField imageCost) (optField audioCost))
           now metadata, g')
    end.

(** [...(v && { field: v })]: kept only when truthy. *)
Definition keepTruthy (o : option Q) : option Q :=
  if truthy o then o else None.

Definition addCustomPricing (tr : CostTracker.t) (nowIso : string)
    (model : string) (pricing : PartialPricing.t) : CostTracker.t :=
  match getModelPricing model None with
  | Some basePricing =>
      CostTracker.mk (CostTracker.config tr)
        (JsMap.set model (mergePricing basePricing pricing)
           (CostTracker.customPricing tr))
  | None =>
      CostTracker.mk (CostTracker.config tr)
        (JsMap.set model
           (ModelPricing.mk model
              (over custom (PartialPricing.provider pricing))
              (orElse (PartialPricing.inputCostPer1K pricing) 0)
              (orElse (PartialPricing.outputCostPer1K pricing) 0)
              (keepTruthy (PartialPricing.imageCost pricing))
              (keepTruthy (PartialPricing.audioCostPerSecond pricing))
              nowIso)
           (CostTracker.customPricing tr))
  end.

Definition removeCustomPricing (tr : CostTracker.t) (model : string)
    : CostTracker.t :=
  CostTracker.mk (CostTracker.config tr)
    (JsMap.delete model (CostTracker.customPricing tr)).

Definition getPricing (tr : CostTracker.t) (model : string)
    : option ModelPricing.t :=
  resolvePricing tr model None.

Definition updateConfig (tr : CostTracker.t) (config : PartialConfig.t)
    : CostTracker.t :=
  CostTracker.mk (mergeConfig (CostTracker.config tr) config)
    (CostTracker.customPricing tr).

(* ------------------------------------------------------------------ *)
(** ** CostStorage.ts *)

Module InMemoryCostStorage.
  (** [private records: Map<string, CostRecord>]. *)
Definition t : Type := JsMap.t CostRecord.t.
End InMemoryCostStorage.

Definition newStorage : InMemoryCostStorage.t := JsMap.empty.

Definition store (st : InMemoryCostStorage.t) (record : CostRecord.t)
    : InMemoryCostStorage.t :=
  JsMap.set (CostRecord.id record) record st.

Definition get (st : InMemoryCostStorage.t) (id : string)
    : option CostRecord.t :=
  JsMap.get id st.

Definition getByRequestId (st : InMemoryCostStorage.t) (requestId : string)
    : list CostRecord.t :=
  filter (fun r => String.eqb (CostRecord.requestId r) requestId)
         (JsMap.values st).

Definition getByAgentId (st : InMemoryCostStorage.t) (agentId : string)
    (startDate endDate : option Z) : list CostRecord.t :=
  let records :=
    filter (fun r => String.eqb (CostRecord.agentId r) agentId)
           (JsMap.values st) in
  let records :=
    match startDate with
    | Some s => filter (fun r => (s <=? CostRecord.timestamp r)%Z) records
    | None => records
    end in
  match endDate with
  | Some e => filter (fun r => (CostRecord.timestamp r <=? e)%Z) records
  | None => records
  end.

(** [timestamp >= startDate && timestamp <= endDate]. *)
Definition inDateRange (startDate endDate : Z) (r : CostRecord.t) : bool :=
  (startDate <=? CostRecord.timestamp r)%Z
  && (CostRecord.timestamp r <=? endDate)%Z.

Definition getByDateRange (st : InMemoryCostStorage.t)
    (startDate endDate : Z) : list CostRecord.t :=
  filter (inDateRange startDate endDate) (JsMap.values st).

(** [o[k] = (o[k] || 0) + c] on an object used as a table of sums. *)
Definition addTo (k : string) (c : Q) (o : JsMap.t Q) : JsMap.t Q :=
  JsMap.set k (orElse (JsMap.get k o) 0 + c) o.

Definition providerName (p : ModelProvider) : string :=
  match p with
  | openai => "openai"
  | anthropic => "anthropic"
  | azure_openai => "azure-openai"
  | google => "google"
  | cohere => "cohere"
  | custom => "custom"
  end.

(** [if (agentId)]: an absent or empty agent id does not filter. *)
Definition truthyString (o : option string) : option string :=
  match o with
  | Some EmptyString => None
  | other => other
  end.

Definition getSummary (st : InMemoryCostStorage.t) (startDate endDate : Z)
    (agentId : option string) : CostSummary.t :=
  let records := getByDateRange st startDate endDate in
  let records :=
    match truthyString agentId with
    | Some a => filter (fun r => String.eqb (CostRecord.agentId r) a) records
    | None => records
    end in
  let totalCost := sumBy CostRecord.actualCost records in
  let totalRequests := List.length records in
  let averageCostPerRequest :=
    if (0 <? totalRequests)%nat
    then totalCost / inject_Z (Z.of_nat totalRequests)
    else 0 in
  let byModel :=
    fold_left (fun o r => addTo (CostRecord.model r) (CostRecord.actualCost r) o)
              records JsMap.empty in
  let byProvider :=
    fold_left (fun o r => addTo (providerName (CostRecord.provider r))
                                (CostRecord.actualCost r) o)
              records JsMap.empty in
  let byAgent :=
    fold_left (fun o r => addTo (CostRecord.agentId r) (CostRecord.actualCost r) o)
              records JsMap.empty in
  let totalTokens :=
    TokenTotals.mk
      (sumBy (fun r => TokenUsage.inputTokens (CostRecord.actualTokens r)) records)
      (sumBy (fun r => TokenUsage.outputTokens (CostRecord.actualTokens r)) records)
      (sumBy (fun r => TokenUsage.totalTokens (CostRecord.actualTokens r)) records) in
  CostSummary.mk totalCost totalRequests averageCostPerRequest
    byModel byProvider byAgent startDate endDate totalTokens.

(** The number of deleted records and the remaining ledger. *)
Definition deleteOlderThan (st : InMemoryCostStorage.t) (beforeDate : Z)
    : nat * InMemoryCostStorage.t :=
  (List.length
     (filter (fun kr => (CostRecord.timestamp (snd kr) <? beforeDate)%Z) st),
   filter (fun kr => negb (CostRecord.timestamp (snd kr) <? beforeDate)%Z) st).

Definition clear (st : InMemoryCostStorage.t) : InMemoryCostStorage.t :=
  JsMap.empty.

Definition size (st : InMemoryCostStorage.t) : nat := JsMap.size st.

(* ------------------------------------------------------------------ *)
(** ** BudgetManager.ts *)

(** Local-time arithmetic of [Date], supplied by the runtime: the start of
    the hour, day, week (Sunday) and month that contain an instant. *)
Module Calendar.
Record t : Type := mk {
    startOfHour : Z -> Z;
    startOfDay : Z -> Z;
    startOfWeek : Z -> Z;
    startOfMonth : Z -> Z
  }.
End Calendar.

Definition msPerHour : Z := 3600000.
Definition msPerDay : Z := 86400000.

(** Day of the month (1..31) of a day counted from 1970-01-01, in the
    proleptic Gregorian calendar. *)
Definition dayOfMonth (days : Z) : Z :=
  let z := (days + 719468)%Z in
  let era := (z / 146097)%Z in
  let doe := (z - era * 146097)%Z in
  let yoe := ((doe - doe / 1460 + doe / 36524 - doe / 146096) / 365)%Z in
  let doy := (doe - (365 * yoe + yoe / 4 - yoe / 100))%Z in
  let mp := ((5 * doy + 2) / 153)%Z in
  (doy - (153 * mp + 2) / 5 + 1)%Z.

(** The calendar of a process whose local time is UTC. *)
Definition utc : Calendar.t :=
  Calendar.mk
    (fun now => (now - now mod msPerHour)%Z)
    (fun now => (now - now mod msPerDay)%Z)
    (fun now =>
       let days := (now / msPerDay)%Z in
       ((days - (days + 4) mod 7) * msPerDay)%Z)
    (fun now =>
       let days := (now / msPerDay)%Z in
       ((days - (dayOfMonth days - 1)) * msPerDay)%Z).

Module BudgetEnforcementResult.
Record t : Type := mk {
    allowed : bool;
    blockedBy : option BudgetConfig.t;
    alerts : list CostAlert.t;
    status : option BudgetStatus.t
  }.
End BudgetEnforcementResult.

(** The manager's own state; its [storage] field refers to the shared
    ledger, which every method below receives as [st]. *)
Module BudgetManager.
Record t : Type := mk {
    budgets : JsMap.t BudgetConfig.t;
    alerts : JsMap.t (list CostAlert.t)
  }.
End BudgetManager.

Definition newBudgetManager : BudgetManager.t :=
  BudgetManager.mk JsMap.empty JsMap.empty.

Definition createBudget (g : IdGen) (now : Z) (m : BudgetManager.t)
    (config : BudgetInput.t) : BudgetConfig.t * BudgetManager.t * IdGen :=
  let (id, g') := generateId g in
  let budget :=
    BudgetConfig.mk id
      (BudgetInput.name config) (BudgetInput.limit config)
      (BudgetInput.period config) (BudgetInput.alertThresholds config)
      (BudgetInput.action config) (BudgetInput.scope config)
      (BudgetInput.enabled config) now now in
  (budget,
   BudgetManager.mk
     (JsMap.set (BudgetConfig.id budget) budget (BudgetManager.budgets m))
     (JsMap.set (BudgetConfig.id budget) [] (BudgetManager.alerts m)),
   g').

(** [{ ...budget, ...updates, updatedAt }]. *)
Definition applyPatch (now : Z) (budget : BudgetConfig.t)
    (updates : BudgetPatch.t) : BudgetConfig.t :=
  BudgetConfig.mk
    (BudgetConfig.id budget)
    (over (BudgetConfig.name budget) (BudgetPatch.name updates))
    (over (BudgetConfig.limit budget) (BudgetPatch.limit updates))
    (over (BudgetConfig.period budget) (BudgetPatch.period updates))
    (over (BudgetConfig.alertThresholds budget)
          (BudgetPatch.alertThresholds updates))
    (over (BudgetConfig.action budget) (BudgetPatch.action updates))
    (overOpt (BudgetConfig.scope budget) (BudgetPatch.scope updates))
    (over (BudgetConfig.enabled budget) (BudgetPatch.enabled updates))
    (BudgetConfig.createdAt budget)
    now.

Definition updateBudget (now : Z) (m : BudgetManager.t) (id : string)
    (updates : BudgetPatch.t) : option BudgetConfig.t * BudgetManager.t :=
  match JsMap.get id (BudgetManager.budgets m) with
  | None => (None, m)
  | Some budget =>
      let updated := applyPatch now budget updates in
      (Some updated,
       BudgetManager.mk (JsMap.set id updated (BudgetManager.budgets m))
                        (BudgetManager.alerts m))
  end.

Definition deleteBudget (m : BudgetManager.t) (id : string)
    : bool * BudgetManager.t :=
  (JsMap.has id (BudgetManager.budgets m),
   BudgetManager.mk (JsMap.delete id (BudgetManager.budgets m))
                    (JsMap.delete id (BudgetManager.alerts m))).

Definition getBudget (m : BudgetManager.t) (id : string)
    : option BudgetConfig.t :=
  JsMap.get id (BudgetManager.budgets m).

Definition getAllBudgets (m : BudgetManager.t) : list BudgetConfig.t :=
  JsMap.values (BudgetManager.budgets m).

Definition getBudgetsByScope (m : BudgetManager.t) (scopeType : ScopeType)
    (scopeId : string) : list BudgetConfig.t :=
  filter (fun b =>
            match BudgetConfig.scope b with
            | Some sc => ScopeType_eqb (Scope.type sc) scopeType
                         && String.eqb (Scope.id sc) scopeId
            | None => false
            end)
         (JsMap.values (BudgetManager.budgets m)).

(** The filter of [getRelevantBudgets]. *)
Definition isRelevant (agentId : string) (b : BudgetConfig.t) : bool :=
  if negb (BudgetConfig.enabled b) then false
  else
    match BudgetConfig.scope b with
    | None => true
    | Some sc =>
        if ScopeType_eqb (Scope.type sc) agent && String.eqb (Scope.id sc) agentId
        then true
        else false
    end.

Definition getRelevantBudgets (m : BudgetManager.t) (agentId : string)
    : list BudgetConfig.t :=
  filter (isRelevant agentId) (JsMap.values (BudgetManager.budgets m)).

(** [{ start, end }] with [end = now]. *)
Definition getPeriodDates (cal : Calendar.t) (now : Z) (period : Period)
    : Z * Z :=
  let start :=
    match period with
    | hourly => Calendar.startOfHour cal now
    | daily => Calendar.startOfDay cal now
    | weekly => Calendar.startOfWeek cal now
    | monthly => Calendar.startOfMonth cal now
    | total => 0%Z
    end in
  (start, now).

Definition severityOf (threshold : Q) : Severity :=
  if Qle_bool 100 threshold then critical
  else if Qle_bool 90 threshold then warning
  else info.

Definition createAlert (g : IdGen) (now : Z) (budget : BudgetConfig.t)
    (threshold currentSpending : Q) : CostAlert.t * IdGen :=
  let (id, g') := generateId g in
  (CostAlert.mk id (BudgetConfig.id budget) threshold currentSpending
     (BudgetConfig.limit budget) (severityOf threshold) now false, g').

Definition getAlerts (m : BudgetManager.t) (budgetId : string)
    : list CostAlert.t :=
  match JsMap.get budgetId (BudgetManager.alerts m) with
  | Some l => l
  | None => []
  end.

Definition addAlert (m : BudgetManager.t) (budgetId : string)
    (a : CostAlert.t) : BudgetManager.t :=
  BudgetManager.mk (BudgetManager.budgets m)
    (JsMap.set budgetId (getAlerts m budgetId ++ [a]) (BudgetManager.alerts m)).

Definition clearAlerts (m : BudgetManager.t) (budgetId : string)
    : BudgetManager.t :=
  BudgetManager.mk (BudgetManager.budgets m)
    (JsMap.set budgetId [] (BudgetManager.alerts m)).

Definition getBudgetStatus (cal : Calendar.t) (now : Z)
    (m : BudgetManager.t) (st : InMemoryCostStorage.t) (budgetId : string)
    : option BudgetStatus.t :=
  match JsMap.get budgetId (BudgetManager.budgets m) with
  | None => None
  | Some budget =>
      let (start, end_) := getPeriodDates cal now (BudgetConfig.period budget) in
      let records := getByDateRange st start end_ in
      let records :=
        match BudgetConfig.scope budget with
        | Some sc =>
            if ScopeType_eqb (Scope.type sc) agent
            then filter (fun r => String.eqb (CostRecord.agentId r) (Scope.id sc))
                        records
            else records
        | None => records
        end in
      let currentSpending := sumBy CostRecord.actualCost records in
      let remaining := max0 (BudgetConfig.limit budget - currentSpending) in
      let percentageUsed :=
        jsScale (jsDiv currentSpending (BudgetConfig.limit budget)) 100 in
      let isExceeded := Qlt_bool (BudgetConfig.limit budget) currentSpending in
      let activeAlerts :=
        filter (fun t => jsGe percentageUsed t)
               (BudgetConfig.alertThresholds budget) in
      Some (BudgetStatus.mk budget currentSpending remaining percentageUsed
              isExceeded activeAlerts start end_ now)
  end.

(** Loop state of [checkBudget]: the [alerts] array of the result, the
    manager (whose alert lists grow) and the id generator. *)
Definition CheckState : Type :=
  (list CostAlert.t * BudgetManager.t * IdGen)%type.

(** [for (const threshold of budget.alertThresholds)] in [checkBudget]. *)
Fixpoint checkThresholds (now : Z) (budget : BudgetConfig.t)
    (projectedSpending : Q) (projectedPercentage percentageUsed : JsNum)
    (thresholds : list Q) (s : CheckState) : CheckState :=
  match thresholds with
  | [] => s
  | threshold :: rest =>
      let '(alerts, m, g) := s in
      if jsGe projectedPercentage threshold && jsLt percentageUsed threshold
      then
        let (a, g') := createAlert g now budget threshold projectedSpending in
        checkThresholds now budget projectedSpending projectedPercentage
          percentageUsed rest
          (alerts ++ [a], addAlert m (BudgetConfig.id budget) a, g')
      else
        checkThresholds now budget projectedSpending projectedPercentage
          percentageUsed rest s
  end.

(** [for (const budget of relevantBudgets)] in [checkBudget]; the first
    component is [blockedBy]. *)
Fixpoint checkLoop (cal : Calendar.t) (now : Z) (st : InMemoryCostStorage.t)
    (estimatedCost : Q) (relevantBudgets : list BudgetConfig.t)
    (s : CheckState) : option BudgetConfig.t * CheckState :=
  match relevantBudgets with
  | [] => (None, s)
  | budget :: rest =>
      if negb (BudgetConfig.enabled budget) then
        checkLoop cal now st estimatedCost rest s
      else
        match getBudgetStatus cal now (snd (fst s)) st (BudgetConfig.id budget) with
        | None => checkLoop cal now st estimatedCost rest s
        | Some status =>
            let projectedSpending :=
              BudgetStatus.currentSpending status + estimatedCost in
            let projectedPercentage :=
              jsScale (jsDiv projectedSpending (BudgetConfig.limit budget)) 100 in
            let s' :=
              checkThresholds now budget projectedSpending projectedPercentage
                (BudgetStatus.percentageUsed status)
                (BudgetConfig.alertThresholds budget) s in
            if Qlt_bool (BudgetConfig.limit budget) projectedSpending then
              match BudgetConfig.action budget with
              | block => (Some budget, s')
              | _ => checkLoop cal now st estimatedCost rest s'
              end
            else checkLoop cal now st estimatedCost rest s'
        end
  end.

Definition checkBudget (cal : Calendar.t) (now : Z) (g : IdGen)
    (m : BudgetManager.t) (st : InMemoryCostStorage.t)
    (agentId : string) (estimatedCost : Q)
    : BudgetEnforcementResult.t * BudgetManager.t * IdGen :=
  let relevantBudgets := getRelevantBudgets m agentId in
  let '(blockedBy, (alerts, m', g')) :=
    checkLoop cal now st estimatedCost relevantBudgets ([], m, g) in
  (BudgetEnforcementResult.mk
     (match blockedBy with Some _ => false | None => true end)
     blockedBy
     alerts
     (match blockedBy with
      | Some b => getBudgetStatus cal now m' st (BudgetConfig.id b)
      | None => None
      end),
   m', g').

(** [existingThresholds.has(threshold)]. *)
Definition hasThreshold (existingThresholds : list Q) (threshold : Q) : bool :=
  existsb (Qeq_bool threshold) existingThresholds.

(** [for (const threshold of budget.alertThresholds)] in [recordCost];
    [existingThresholds] is the set built before the loop. *)
Fixpoint recordThresholds (now : Z) (budget : BudgetConfig.t)
    (status : BudgetStatus.t) (existingThresholds : list Q)
    (thresholds : list Q) (s : BudgetManager.t * IdGen)
    : BudgetManager.t * IdGen :=
  match thresholds with
  | [] => s
  | threshold :: rest =>
      let (m, g) := s in
      if jsGe (BudgetStatus.percentageUsed status) threshold
         && negb (hasThreshold existingThresholds threshold)
      then
        let (a, g') :=
          createAlert g now budget threshold
            (BudgetStatus.currentSpending status) in
        recordThresholds now budget status existingThresholds rest
          (addAlert m (BudgetConfig.id budget) a, g')
      else recordThresholds now budget status existingThresholds rest s
  end.

(** [for (const budget of relevantBudgets)] in [recordCost]. *)
Fixpoint recordLoop (cal : Calendar.t) (now : Z) (st : InMemoryCostStorage.t)
    (relevantBudgets : list BudgetConfig.t) (s : BudgetManager.t * IdGen)
    : BudgetManager.t * IdGen :=
  match relevantBudgets with
  | [] => s
  | budget :: rest =>
      if negb (BudgetConfig.enabled budget) then recordLoop cal now st rest s
      else
        match getBudgetStatus cal now (fst s) st (BudgetConfig.id budget) with
        | None => recordLoop cal now st rest s
        | Some status =>
            let existingAlerts := getAlerts (fst s) (BudgetConfig.id budget) in
            let existingThresholds := map CostAlert.threshold existingAlerts in
            recordLoop cal now st rest
              (recordThresholds now budget status existingThresholds
                 (BudgetConfig.alertThresholds budget) s)
        end
  end.

Definition recordCost (cal : Calendar.t) (now : Z) (g : IdGen)
    (m : BudgetManager.t) (st : InMemoryCostStorage.t)
    (record : CostRecord.t) : BudgetManager.t * IdGen :=
  recordLoop cal now st (getRelevantBudgets m (CostRecord.agentId record)) (m, g).

Definition acknowledge (a : CostAlert.t) : CostAlert.t :=
  CostAlert.mk (CostAlert.id a) (CostAlert.budgetId a) (CostAlert.threshold a)
    (CostAlert.currentSpending a) (CostAlert.limit a) (CostAlert.severity a)
    (CostAlert.timestamp a) true.

(** [alerts.find(a => a.id === alertId)] followed by the assignment. *)
Fixpoint ackFirst (alertId : string) (l : list CostAlert.t)
    : option (list CostAlert.t) :=
  match l with
  | [] => None
  | a :: rest =>
      if String.eqb (CostAlert.id a) alertId then Some (acknowledge a :: rest)
      else
        match ackFirst alertId rest with
        | Some rest' => Some (a :: rest')
        | None => None
        end
  end.

Fixpoint ackInLists (alertId : string) (ls : JsMap.t (list CostAlert.t))
    : option (JsMap.t (list CostAlert.t)) :=
  match ls with
  | [] => None
  | (k, l) :: rest =>
      match ackFirst alertId l with
      | Some l' => Some ((k, l') :: rest)
      | None =>
          match ackInLists alertId rest with
          | Some rest' => Some ((k, l) :: rest')
          | None => None
          end
      end
  end.

Definition acknowledgeAlert (m : BudgetManager.t) (alertId : string)
    : bool * BudgetManager.t :=
  match ackInLists alertId (BudgetManager.alerts m) with
  | Some ls => (true, BudgetManager.mk (BudgetManager.budgets m) ls)
  | None => (false, m)
  end.

(* ------------------------------------------------------------------ *)
(** ** Vocabulary of the properties *)

(** The arguments of one call of [calculateActualCost]. *)
Module FinalizeCall.
Record t : Type := mk {
    now : Z;
    requestId : string;
    agentId : string;
    model : string;
    actualTokens : TokenUsage.t;
    provider : option ModelProvider;
    metadata : option Metadata
  }.
End FinalizeCall.

(** Successive calls of [calculateActualCost] on one tracker, threading
    the id generator from each call to the next. *)
Fixpoint finalizeAll (tr : CostTracker.t) (g : IdGen)
    (calls : list FinalizeCall.t) : list CostRecord.t * IdGen :=
  match calls with
  | [] => ([], g)
  | c :: rest =>
      let (r, g') :=
        calculateActualCost tr g (FinalizeCall.now c)
          (FinalizeCall.requestId c) (FinalizeCall.agentId c)
          (FinalizeCall.model c) (FinalizeCall.actualTokens c)
          (FinalizeCall.provider c) (FinalizeCall.metadata c) in
      let (rs, g'') := finalizeAll tr g' rest in
      (r :: rs, g'')
  end.

(** The sum of the fields of a breakdown, an absent field counting zero. *)
Definition breakdownSum (b : Breakdown.t) : Q :=
  Breakdown.inputCost b + Breakdown.outputCost b
  + match Breakdown.imageCost b with Some c => c | None => 0 end
  + match Breakdown.audioCost b with Some c => c | None => 0 end.

Definition zeroBreakdown : Breakdown.t := Breakdown.mk 0 0 None None.

Definition isBlock (a : Action) : bool :=
  match a with block => true | _ => false end.

(** The condition under which the loop of [checkBudget] stops at
    [budget]: it is enabled, its status resolves, the projected spending
    is strictly above its limit, and its action is [block]. *)
Definition blocksAt (cal : Calendar.t) (now : Z) (m : BudgetManager.t)
    (st : InMemoryCostStorage.t) (estimatedCost : Q)
    (budget : BudgetConfig.t) : bool :=
  BudgetConfig.enabled budget
  && match getBudgetStatus cal now m st (BudgetConfig.id budget) with
     | Some status =>
         Qlt_bool (BudgetConfig.limit budget)
                  (BudgetStatus.currentSpending status + estimatedCost)
         && isBlock (BudgetConfig.action budget)
     | None => false
     end.

(** One iteration of the loop of [checkBudget] without the decision to
    stop: the state after the threshold alerts of [budget]. *)
Definition evalBudget (cal : Calendar.t) (now : Z)
    (st : InMemoryCostStorage.t) (estimatedCost : Q)
    (budget : BudgetConfig.t) (s : CheckState) : CheckState :=
  if negb (BudgetConfig.enabled budget) then s
  else
    match getBudgetStatus cal now (snd (fst s)) st (BudgetConfig.id budget) with
    | None => s
    | Some status =>
        let projectedSpending :=
          BudgetStatus.currentSpending status + estimatedCost in
        checkThresholds now budget projectedSpending
          (jsScale (jsDiv projectedSpending (BudgetConfig.limit budget)) 100)
          (BudgetStatus.percentageUsed status)
          (BudgetConfig.alertThresholds budget) s
    end.

(** The budget map is keyed by budget id, without repeated keys. *)
Definition keyedById (m : BudgetManager.t) : Prop :=
  NoDup (JsMap.keys (BudgetManager.budgets m))
  /\ forall k b, In (k, b) (BudgetManager.budgets m) -> BudgetConfig.id b = k.

(** The manager states that the public methods can produce from a new
    manager. *)
Inductive reachable : BudgetManager.t -> Prop :=
  | reach_new : reachable newBudgetManager
  | reach_create g now m config :
      reachable m -> reachable (snd (fst (createBudget g now m config)))
  | reach_update now m id updates :
      reachable m -> reachable (snd (updateBudget now m id updates))
  | reach_delete m id :
      reachable m -> reachable (snd (deleteBudget m id))
  | reach_check cal now g m st agentId estimatedCost :
      reachable m ->
      reachable (snd (fst (checkBudget cal now g m st agentId estimatedCost)))
  | reach_record cal now g m st record :
      reachable m -> reachable (fst (recordCost cal now g m st record))
  | reach_acknowledge m alertId :
      reachable m -> reachable (snd (acknowledgeAlert m alertId))
  | reach_clear m budgetId :
      reachable m -> reachable (clearAlerts m budgetId).

(** A budget scoped to a project or to an organization. *)
Definition projectOrOrganization (b : BudgetConfig.t) : bool :=
  match BudgetConfig.scope b with
  | Some sc =>
      match Scope.type sc with
      | project | organization => true
      | agent => false
      end
  | None => false
  end.

(* ------------------------------------------------------------------ *)
(** ** Concrete scenarios *)

(** 2026-11-02T00:00:00Z. *)
Definition t0 : Z := 1793577600000.

Definition noPatch : PartialConfig.t :=
  PartialConfig.mk None None None None None None.

Definition defaultTracker : CostTracker.t := newCostTracker noPatch.

Definition usage1 : TokenUsage.t := TokenUsage.mk 1000 500 1500 None None.

Definition mockRecord (id agentId : string) (actualCost : Q) (timestamp : Z)
    : CostRecord.t :=
  CostRecord.mk id "req-123" agentId "gpt-4" openai usage1 actualCost
    (Breakdown.mk (3 # 100) (3 # 100) None None) timestamp None.

(** An operator-supplied price entry whose per-image price is negative. *)
Definition rebatePatch : PartialPricing.t :=
  PartialPricing.mk None None (Some (1 # 100)) (Some (3 # 100))
    (Some (-1 # 100)) None None.

Definition rebateTracker : CostTracker.t :=
  addCustomPricing defaultTracker "2026-11-02T00:00:00.000Z" "my-vision"
    rebatePatch.

Definition imageUsage : TokenUsage.t :=
  TokenUsage.mk 1000 500 1500 (Some 1) None.

(** A budget input with a negative limit and no alert threshold. *)
Definition badInput : BudgetInput.t :=
  BudgetInput.mk "bad" (-5) daily [] block None true.

(** Scenario: three budgets created in this order, all unscoped with a
    limit of 1: an alert-only one, then two blocking ones; the ledger
    holds one record of 0.95 in the current day. *)
Definition threeBudgets : BudgetManager.t * IdGen :=
  let '(_, m1, g1) :=
    createBudget 0%nat t0 newBudgetManager
      (BudgetInput.mk "Soft" 1 daily [100] alert None true) in
  let '(_, m2, g2) :=
    createBudget g1 t0 m1
      (BudgetInput.mk "Hard" 1 daily [100] block None true) in
  let '(_, m3, g3) :=
    createBudget g2 t0 m2
      (BudgetInput.mk "Harder" 1 daily [100] block None true) in
  (m3, g3).

Definition ledger095 : InMemoryCostStorage.t :=
  store newStorage (mockRecord "r1" "agent-123" (95 # 100) (t0 + 1000)%Z).

Definition softBudget : BudgetConfig.t :=
  BudgetConfig.mk "0" "Soft" 1 daily [100] alert None true t0 t0.

Definition hardBudget : BudgetConfig.t :=
  BudgetConfig.mk "1" "Hard" 1 daily [100] block None true t0 t0.

Definition harderBudget : BudgetConfig.t :=
  BudgetConfig.mk "2" "Harder" 1 daily [100] block None true t0 t0.

(** The status of [hardBudget] over [ledger095] at [t0 + 2000]. *)
Definition hardStatus : BudgetStatus.t :=
  BudgetStatus.mk hardBudget (0 + (95 # 100))
    (max0 (1 - (0 + (95 # 100))))
    (jsScale (jsDiv (0 + (95 # 100)) 1) 100)
    false [] t0 (t0 + 2000)%Z (t0 + 2000)%Z.

(** Scenario: the alert-only budget alone. *)
Definition softOnly : BudgetManager.t * IdGen :=
  let '(_, m1, g1) :=
    createBudget 0%nat t0 newBudgetManager
      (BudgetInput.mk "Soft" 1 daily [100] alert None true) in
  (m1, g1).

(** Scenario: one budget scoped to agent "agent-1"; two ledgers that
    differ in a record of agent "agent-2". *)
Definition agentBudget : BudgetManager.t * IdGen :=
  let '(_, m1, g1) :=
    createBudget 0%nat t0 newBudgetManager
      (BudgetInput.mk "Agent Budget" 10 daily [100] alert
         (Some (Scope.mk agent "agent-1")) true) in
  (m1, g1).

Definition ledgerA : InMemoryCostStorage.t :=
  store newStorage (mockRecord "r1" "agent-1" 3 (t0 + 1000)%Z).

Definition ledgerAB : InMemoryCostStorage.t :=
  store (store newStorage (mockRecord "r0" "agent-2" 5 (t0 + 500)%Z))
        (mockRecord "r1" "agent-1" 3 (t0 + 1000)%Z).

(** Scenario: one blocking budget scoped to a project, limit 0.01. *)
Definition projectBudget : BudgetManager.t * IdGen :=
  let '(_, m1, g1) :=
    createBudget 0%nat t0 newBudgetManager
      (BudgetInput.mk "Project Budget" (1 # 100) daily [50; 100] block
         (Some (Scope.mk project "agent-123")) true) in
  (m1, g1).

Definition projBudget : BudgetConfig.t :=
  BudgetConfig.mk "0" "Project Budget" (1 # 100) daily [50; 100] block
    (Some (Scope.mk project "agent-123")) true t0 t0.

Definition agentScoped : BudgetConfig.t :=
  BudgetConfig.mk "0" "Agent Budget" 10 daily [100] alert
    (Some (Scope.mk agent "agent-1")) true t0 t0.

(** Scenario of the test 'should generate alerts at thresholds', with the
    check made twice: a daily alert-only budget of limit 1 with the
    single threshold 50, and 0.45 already spent. *)
Definition alertBudget : BudgetManager.t * IdGen :=
  let '(_, m1, g1) :=
    createBudget 0%nat t0 newBudgetManager
      (BudgetInput.mk "Test Budget" 1 daily [50] alert None true) in
  (m1, g1).

Definition ledger045 : InMemoryCostStorage.t :=
  store newStorage (mockRecord "r1" "agent-123" (45 # 100) (t0 + 1000)%Z).

Definition checkedOnce : BudgetEnforcementResult.t * BudgetManager.t * IdGen :=
  checkBudget utc (t0 + 2000)%Z (snd alertBudget) (fst alertBudget)
    ledger045 "agent-123" (10 # 100).

Definition checkedTwice : BudgetEnforcementResult.t * BudgetManager.t * IdGen :=
  checkBudget utc (t0 + 3000)%Z (snd checkedOnce) (snd (fst checkedOnce))
    ledger045 "agent-123" (10 # 100).

(** The same budget when the spending has reached 0.55 and [recordCost]
    is called twice for the last record. *)
Definition ledger055 : InMemoryCostStorage.t :=
  store ledger045 (mockRecord "r2" "agent-123" (10 # 100) (t0 + 1500)%Z).

Definition recordedOnce : BudgetManager.t * IdGen :=
  recordCost utc (t0 + 2000)%Z (snd alertBudget) (fst alertBudget) ledger055
    (mockRecord "r2" "agent-123" (10 # 100) (t0 + 1500)%Z).

Definition recordedTwice : BudgetManager.t * IdGen :=
  recordCost utc (t0 + 3000)%Z (snd recordedOnce) (fst recordedOnce) ledger055
    (mockRecord "r2" "agent-123" (10 # 100) (t0 + 1500)%Z).

(* ------------------------------------------------------------------ *)
(** ** Vocabulary of the further properties *)


(** The property names every object literal inherits from
    [Object.prototype].  Reading one of them from a plain object
    ([MODEL_PRICING[model]], [byModel[r.model]]) yields the inherited
    member, a truthy value that is neither a price entry nor a number.
    The association lists of this development hold the objects' own keys,
    so the properties of the price lookup and of the summary tables are
    stated for the other names. *)
Definition objectPrototypeNames : list string :=
  [ "constructor"; "toString"; "toLocaleString"; "valueOf";
    "hasOwnProperty"; "isPrototypeOf"; "propertyIsEnumerable";
    "__proto__"; "__defineGetter__"; "__defineSetter__";
    "__lookupGetter__"; "__lookupSetter__" ].

Definition ownName (name : string) : bool :=
  negb (existsb (String.eqb name) objectPrototypeNames).


(** A catalog whose keys are pairwise distinct, in lower case and without
    blanks around them, as those of [MODEL_PRICING] are. *)
Definition catalogNormal (catalog : JsMap.t ModelPricing.t) : Prop :=
  NoDup (JsMap.keys catalog)
  /\ forall k, In k (JsMap.keys catalog) -> toLowerCase k = k /\ trim k = k.

(** A decision procedure for pairwise distinct strings. *)
Fixpoint distinct (l : list string) : bool :=
  match l with
  | [] => true
  | k :: rest => negb (existsb (String.eqb k) rest) && distinct rest
  end.

(** The first entry of the catalog. *)
Definition gpt4Pricing : ModelPricing.t :=
  ModelPricing.mk "gpt-4" openai (3 # 100) (6 # 100) None None "2026-01-31".

(** A price entry without negative prices. *)
Definition nonnegOpt (o : option Q) : Prop :=
  match o with Some q => 0 <= q | None => True end.

Definition nonnegPricing (p : ModelPricing.t) : Prop :=
  0 <= ModelPricing.inputCostPer1K p
  /\ 0 <= ModelPricing.outputCostPer1K p
  /\ nonnegOpt (ModelPricing.imageCost p)
  /\ nonnegOpt (ModelPricing.audioCostPerSecond p).

Definition nonnegUsage (u : TokenUsage.t) : Prop :=
  0 <= TokenUsage.inputTokens u
  /\ 0 <= TokenUsage.outputTokens u
  /\ nonnegOpt (TokenUsage.images u)
  /\ nonnegOpt (TokenUsage.audioDuration u).

(** A decision procedure for [nonnegPricing]. *)
Definition nonnegOptb (o : option Q) : bool :=
  match o with Some q => Qle_bool 0 q | None => true end.

Definition nonnegPricingb (p : ModelPricing.t) : bool :=
  Qle_bool 0 (ModelPricing.inputCostPer1K p)
  && Qle_bool 0 (ModelPricing.outputCostPer1K p)
  && nonnegOptb (ModelPricing.imageCost p)
  && nonnegOptb (ModelPricing.audioCostPerSecond p).

(** Both maps of the manager have pairwise distinct keys, and the budget
    map is keyed by budget id. *)
Definition wellKeyed (m : BudgetManager.t) : Prop :=
  keyedById m /\ NoDup (JsMap.keys (BudgetManager.alerts m)).

(** The alerts of a list that belong to budget [k]. *)
Definition alertsFor (k : string) (l : list CostAlert.t) : list CostAlert.t :=
  filter (fun a => String.eqb (CostAlert.budgetId a) k) l.

(** An alert without its acknowledgement flag. *)
Definition alertCore (a : CostAlert.t)
    : string * string * Q * Q * Q * Severity * Z :=
  (CostAlert.id a, CostAlert.budgetId a, CostAlert.threshold a,
   CostAlert.currentSpending a, CostAlert.limit a, CostAlert.severity a,
   CostAlert.timestamp a).

(** What is known of an alert created for [budget] at [now]. *)
Definition freshAlertOf (now : Z) (budget : BudgetConfig.t)
    (a : CostAlert.t) : Prop :=
  CostAlert.budgetId a = BudgetConfig.id budget
  /\ In (CostAlert.threshold a) (BudgetConfig.alertThresholds budget)
  /\ CostAlert.limit a = BudgetConfig.limit budget
  /\ CostAlert.acknowledged a = false
  /\ CostAlert.timestamp a = now.

(** One iteration of the loop of [recordCost]. *)
Definition recordBudget (cal : Calendar.t) (now : Z)
    (st : InMemoryCostStorage.t) (budget : BudgetConfig.t)
    (s : BudgetManager.t * IdGen) : BudgetManager.t * IdGen :=
  if negb (BudgetConfig.enabled budget) then s
  else
    match getBudgetStatus cal now (fst s) st (BudgetConfig.id budget) with
    | None => s
    | Some status =>
        recordThresholds now budget status
          (map CostAlert.threshold (getAlerts (fst s) (BudgetConfig.id budget)))
          (BudgetConfig.alertThresholds budget) s
    end.

(** Every threshold of [b] that the current percentage has reached has an
    alert in the list of [b]. *)
Definition saturated (cal : Calendar.t) (now : Z)
    (st : InMemoryCostStorage.t) (m : BudgetManager.t)
    (b : BudgetConfig.t) : Prop :=
  forall status t,
    getBudgetStatus cal now m st (BudgetConfig.id b) = Some status ->
    In t (BudgetConfig.alertThresholds b) ->
    jsGe (BudgetStatus.percentageUsed status) t = true ->
    hasThreshold (map CostAlert.threshold (getAlerts m (BudgetConfig.id b))) t
    = true.

(** Further scenarios. *)
(** Scenario: a budget created with a limit of 0. *)
Definition zeroLimit : BudgetManager.t * IdGen :=
  let '(_, m1, g1) :=
    createBudget 0%nat t0 newBudgetManager
      (BudgetInput.mk "Zero" 0 daily [50; 100] block None true) in
  (m1, g1).

Definition zeroBudget : BudgetConfig.t :=
  BudgetConfig.mk "0" "Zero" 0 daily [50; 100] block None true t0 t0.

(** Its status over [ledger045] at [t0 + 2000]. *)
Definition zeroStatus : BudgetStatus.t :=
  BudgetStatus.mk zeroBudget (0 + (45 # 100))
    (max0 (0 - (0 + (45 # 100))))
    (jsScale (jsDiv (0 + (45 # 100)) 0) 100)
    true [50; 100] t0 (t0 + 2000)%Z (t0 + 2000)%Z.

(** A patch that raises the limit and switches to blocking. *)
Definition raiseAndBlock : BudgetPatch.t :=
  BudgetPatch.mk None (Some 20) None None (Some block) None None.


Definition ledgerOld : InMemoryCostStorage.t :=
  store (store newStorage (mockRecord "r0" "agent-2" 5 (t0 - 5000)%Z))
        (mockRecord "r1" "agent-1" 3 (t0 + 1000)%Z).

(* ------------------------------------------------------------------ *)
(** ** Names, sums and ranges of the further statements *)

(** A string of ASCII characters.  On these [toLowerCase] and [trim]
    above are the methods of [String.prototype]; outside the ASCII range
    the methods also fold Unicode letters and strip Unicode spaces. *)
Fixpoint isAscii (s : string) : bool :=
  match s with
  | EmptyString => true
  | String c rest => (nat_of_ascii c <? 128)%nat && isAscii rest
  end.



(* ------------------------------------------------------------------ *)
(** ** Arithmetic of doubles *)

(** A finite double is a rational, and an arithmetic operation on
    doubles is the exact operation followed by a rounding to the nearest
    double.  [binary64 q] is that rounding (IEEE 754 binary64, round to
    nearest, ties to even, gradual underflow) for the magnitudes below
    the overflow threshold; a decimal literal [0.1] of the sources
    denotes [binary64 (1 # 10)]. *)
Definition roundHalfEven (n d : Z) : Z :=
  let q := (n / d)%Z in
  let r := (n mod d)%Z in
  match (2 * r ?= d)%Z with
  | Lt => q
  | Gt => (q + 1)%Z
  | Eq => if Z.even q then q else (q + 1)%Z
  end.

(** The integer part of the binary logarithm of [n / d], for positive
    [n] and [d]. *)
Definition floorLog2 (n d : Z) : Z :=
  let e := (Z.log2 n - Z.log2 d)%Z in
  if (if (0 <=? e)%Z then (d * 2 ^ e <=? n)%Z else (d <=? n * 2 ^ (- e))%Z)
  then e
  else (e - 1)%Z.

Definition binary64 (q : Q) : Q :=
  let n := Z.abs (Qnum q) in
  let d := Zpos (Qden q) in
  if (n =? 0)%Z then 0
  else
    let s := Z.min (52 - floorLog2 n d) 1074 in
    let m :=
      if (0 <=? s)%Z then roundHalfEven (n * 2 ^ s) d
      else roundHalfEven n (d * 2 ^ (- s)) in
    let v :=
      if (0 <=? s)%Z then Qmake m (Z.to_pos (2 ^ s))
      else inject_Z (m * 2 ^ (- s)) in
    Qred (if (Qnum q <? 0)%Z then - v else v).

(** The summary of [CostStorage.ts] and the status and the projected
    check of [BudgetManager.ts] with the rounding [rnd] after each
    addition, subtraction, multiplication and division.  With the identity for [rnd] these are the definitions of
    the sections above; with [binary64] they compute what the sources
    compute on doubles (infinite and NaN arguments, the sign of zero and
    overflow apart). *)
Module Rounded.
Section WithRounding.

Variable rnd : Q -> Q.

(** [xs.reduce((sum, r) => sum + f(r), 0)]. *)
Definition sumBy {A : Type} (f : A -> Q) (xs : list A) : Q :=
  fold_left (fun sum r => rnd (sum + f r)) xs 0.

(** [a / b]. *)
Definition jsDiv (a b : Q) : JsNum :=
  if Qeq_bool b 0 then
    if Qeq_bool a 0 then NaN
    else if Qlt_bool 0 a then PosInf else NegInf
  else Finite (rnd (a / b)).

(** [x * c] for a finite, strictly positive constant [c]. *)
Definition jsScale (x : JsNum) (c : Q) : JsNum :=
  match x with
  | Finite q => Finite (rnd (q * c))
  | other => other
  end.

(** [o[k] = (o[k] || 0) + c] on an object used as a table of sums. *)
Definition addTo (k : string) (c : Q) (o : JsMap.t Q) : JsMap.t Q :=
  JsMap.set k (rnd (orElse (JsMap.get k o) 0 + c)) o.

Definition getSummary (st : InMemoryCostStorage.t) (startDate endDate : Z)
    (agentId : option string) : CostSummary.t :=
  let records := getByDateRange st startDate endDate in
  let records :=
    match truthyString agentId with
    | Some a => filter (fun r => String.eqb (CostRecord.agentId r) a) records
    | None => records
    end in
  let totalCost := sumBy CostRecord.actualCost records in
  let totalRequests := List.length records in
  let averageCostPerRequest :=
    if (0 <? totalRequests)%nat
    then rnd (totalCost / inject_Z (Z.of_nat totalRequests))
    else 0 in
  let byModel :=
    fold_left (fun o r => addTo (CostRecord.model r) (CostRecord.actualCost r) o)
              records JsMap.empty in
  let byProvider :=
    fold_left (fun o r => addTo (providerName (CostRecord.provider r))
                                (CostRecord.actualCost r) o)
              records JsMap.empty in
  let byAgent :=
    fold_left (fun o r => addTo (CostRecord.agentId r) (CostRecord.actualCost r) o)
              records JsMap.empty in
  let totalTokens :=
    TokenTotals.mk
      (sumBy (fun r => TokenUsage.inputTokens (CostRecord.actualTokens r)) records)
      (sumBy (fun r => TokenUsage.outputTokens (CostRecord.actualTokens r)) records)
      (sumBy (fun r => TokenUsage.totalTokens (CostRecord.actualTokens r)) records) in
  CostSummary.mk totalCost totalRequests averageCostPerRequest
    byModel byProvider byAgent startDate endDate totalTokens.

Definition getBudgetStatus (cal : Calendar.t) (now : Z)
    (m : BudgetManager.t) (st : InMemoryCostStorage.t) (budgetId : string)
    : option BudgetStatus.t :=
  match JsMap.get budgetId (BudgetManager.budgets m) with
  | None => None
  | Some budget =>
      let (start, end_) := getPeriodDates cal now (BudgetConfig.period budget) in
      let records := getByDateRange st start end_ in
      let records :=
        match BudgetConfig.scope budget with
        | Some sc =>
            if ScopeType_eqb (Scope.type sc) agent
            then filter (fun r => String.eqb (CostRecord.agentId r) (Scope.id sc))
                        records
            else records
        | None => records
        end in
      let currentSpending := sumBy CostRecord.actualCost records in
      let remaining :=
        max0 (rnd (BudgetConfig.limit budget - currentSpending)) in
      let percentageUsed :=
        jsScale (jsDiv currentSpending (BudgetConfig.limit budget)) 100 in
      let isExceeded := Qlt_bool (BudgetConfig.limit budget) currentSpending in
      let activeAlerts :=
        filter (fun t => jsGe percentageUsed t)
               (BudgetConfig.alertThresholds budget) in
      Some (BudgetStatus.mk budget currentSpending remaining percentageUsed
              isExceeded activeAlerts start end_ now)
  end.

(** [for (const budget of relevantBudgets)] in [checkBudget]; the first
    component is [blockedBy]. *)
Fixpoint checkLoop (cal : Calendar.t) (now : Z) (st : InMemoryCostStorage.t)
    (estimatedCost : Q) (relevantBudgets : list BudgetConfig.t)
    (s : CheckState) : option BudgetConfig.t * CheckState :=
  match relevantBudgets with
  | [] => (None, s)
  | budget :: rest =>
      if negb (BudgetConfig.enabled budget) then
        checkLoop cal now st estimatedCost rest s
      else
        match getBudgetStatus cal now (snd (fst s)) st (BudgetConfig.id budget) with
        | None => checkLoop cal now st estimatedCost rest s
        | Some status =>
            let projectedSpending :=
              rnd (BudgetStatus.currentSpending status + estimatedCost) in
            let projectedPercentage :=
              jsScale (jsDiv projectedSpending (BudgetConfig.limit budget)) 100 in
            let s' :=
              checkThresholds now budget projectedSpending projectedPercentage
                (BudgetStatus.percentageUsed status)
                (BudgetConfig.alertThresholds budget) s in
            if Qlt_bool (BudgetConfig.limit budget) projectedSpending then
              match BudgetConfig.action budget with
              | block => (Some budget, s')
              | _ => checkLoop cal now st estimatedCost rest s'
              end
            else checkLoop cal now st estimatedCost rest s'
        end
  end.

Definition checkBudget (cal : Calendar.t) (now : Z) (g : IdGen)
    (m : BudgetManager.t) (st : InMemoryCostStorage.t)
    (agentId : string) (estimatedCost : Q)
    : BudgetEnforcementResult.t * BudgetManager.t * IdGen :=
  let relevantBudgets := getRelevantBudgets m agentId in
  let '(blockedBy, (alerts, m', g')) :=
    checkLoop cal now st estimatedCost relevantBudgets ([], m, g) in
  (BudgetEnforcementResult.mk
     (match blockedBy with Some _ => false | None => true end)
     blockedBy
     alerts
     (match blockedBy with
      | Some b => getBudgetStatus cal now m' st (BudgetConfig.id b)
      | None => None
      end),
   m', g').

(** The condition under which the loop of [checkBudget] stops at
    [budget]: it is enabled, its status resolves, the projected spending
    is strictly above its limit, and its action is [block]. *)
Definition blocksAt (cal : Calendar.t) (now : Z) (m : BudgetManager.t)
    (st : InMemoryCostStorage.t) (estimatedCost : Q)
    (budget : BudgetConfig.t) : bool :=
  BudgetConfig.enabled budget
  && match getBudgetStatus cal now m st (BudgetConfig.id budget) with
     | Some status =>
         Qlt_bool (BudgetConfig.limit budget)
                  (rnd (BudgetStatus.currentSpending status + estimatedCost))
         && isBlock (BudgetConfig.action budget)
     | None => false
     end.

(** One iteration of the loop of [checkBudget] without the decision to
    stop: the state after the threshold alerts of [budget]. *)
Definition evalBudget (cal : Calendar.t) (now : Z)
    (st : InMemoryCostStorage.t) (estimatedCost : Q)
    (budget : BudgetConfig.t) (s : CheckState) : CheckState :=
  if negb (BudgetConfig.enabled budget) then s
  else
    match getBudgetStatus cal now (snd (fst s)) st (BudgetConfig.id budget) with
    | None => s
    | Some status =>
        let projectedSpending :=
          rnd (BudgetStatus.currentSpending status + estimatedCost) in
        checkThresholds now budget projectedSpending
          (jsScale (jsDiv projectedSpending (BudgetConfig.limit budget)) 100)
          (BudgetStatus.percentageUsed status)
          (BudgetConfig.alertThresholds budget) s
    end.

End WithRounding.
End Rounded.

(** Scenario on doubles: three blocking budgets created in this order,
    "Roomy" of limit 1, "Tight" of limit 0.3 and "Tighter" of limit 0.25;
    0.1 is spent in the current day and the request is estimated at
    0.2. *)
Definition tightBudgets : BudgetManager.t * IdGen :=
  let '(_, m1, g1) :=
    createBudget 0%nat t0 newBudgetManager
      (BudgetInput.mk "Roomy" 1 daily [100] block None true) in
  let '(_, m2, g2) :=
    createBudget g1 t0 m1
      (BudgetInput.mk "Tight" (binary64 (3 # 10)) daily [100] block None true) in
  let '(_, m3, g3) :=
    createBudget g2 t0 m2
      (BudgetInput.mk "Tighter" (binary64 (25 # 100)) daily [100] block None
         true) in
  (m3, g3).

Definition roomyBudget : BudgetConfig.t :=
  BudgetConfig.mk "0" "Roomy" 1 daily [100] block None true t0 t0.

Definition tightBudget : BudgetConfig.t :=
  BudgetConfig.mk "1" "Tight" (binary64 (3 # 10)) daily [100] block None true
    t0 t0.

Definition tighterBudget : BudgetConfig.t :=
  BudgetConfig.mk "2" "Tighter" (binary64 (25 # 100)) daily [100] block None
    true t0 t0.

Definition ledger01 : InMemoryCostStorage.t :=
  store newStorage
    (mockRecord "r1" "agent-123" (binary64 (1 # 10)) (t0 + 1000)%Z).

(** The status of [tightBudget] over [ledger01] at [t0 + 2000], on
    doubles. *)
Definition tightStatus : BudgetStatus.t :=
  let spent := binary64 (0 + binary64 (1 # 10)) in
  let limit := binary64 (3 # 10) in
  BudgetStatus.mk tightBudget spent
    (max0 (binary64 (limit - spent)))
    (Finite (binary64 (binary64 (spent / limit) * 100)))
    false [] t0 (t0 + 2000)%Z (t0 + 2000)%Z.

(** Scenario on doubles: a budget of limit 1 with the threshold 57, and
    0.57 spent. *)
Definition budget57 : BudgetManager.t * IdGen :=
  let '(_, m1, g1) :=
    createBudget 0%nat t0 newBudgetManager
      (BudgetInput.mk "Fifty-seven" 1 daily [57] alert None true) in
  (m1, g1).

Definition ledger057 : InMemoryCostStorage.t :=
  store newStorage
    (mockRecord "r1" "agent-123" (binary64 (57 # 100)) (t0 + 1000)%Z).

Definition status57 : BudgetStatus.t :=
  let spent := binary64 (0 + binary64 (57 # 100)) in
  BudgetStatus.mk
    (BudgetConfig.mk "0" "Fifty-seven" 1 daily [57] alert None true t0 t0)
    spent
    (max0 (binary64 (1 - spent)))
    (Finite (binary64 (binary64 (spent / 1) * 100)))
    false [] t0 (t0 + 2000)%Z (t0 + 2000)%Z.


(** Scenario on doubles: one blocking budget of limit 0.03, with 0.01
    spent and a request estimated at 0.02. *)
Definition centBudget : BudgetManager.t * IdGen :=
  let '(_, m1, g1) :=
    createBudget 0%nat t0 newBudgetManager
      (BudgetInput.mk "Cents" (binary64 (3 # 100)) daily [100] block None
         true) in
  (m1, g1).

Definition ledger001 : InMemoryCostStorage.t :=
  store newStorage
    (mockRecord "r1" "agent-123" (binary64 (1 # 100)) (t0 + 1000)%Z).

(* ------------------------------------------------------------------ *)
(** ** The catalog read as a plain object *)

(** What the read [MODEL_PRICING[key]] yields when it is not
    [undefined]: the price entry under an own key, or the member that the
    object literal inherits under that name (a function, or the
    prototype itself), which is truthy and has none of the fields of a
    price entry. *)
Inductive Member : Type :=
  | entry (p : ModelPricing.t)
  | inheritedMember (name : string).

(** [pricing.ts] and [CostTracker.ts] with that read: the lookup
    returns a [Member], the fields of an inherited member are
    [undefined], and the arithmetic on them gives NaN. *)
Module PlainObject.

Definition read (catalog : JsMap.t ModelPricing.t) (key : string)
    : option Member :=
  match JsMap.get key catalog with
  | Some p => Some (entry p)
  | None => if ownName key then None else Some (inheritedMember key)
  end.

Definition lookupPricing (catalog : JsMap.t ModelPricing.t)
    (model : string) (provider : option ModelProvider) : option Member :=
  match read catalog model with
  | Some v => Some v
  | None =>
      let normalizedModel := trim (toLowerCase model) in
      match find (fun kp => String.eqb (toLowerCase (fst kp)) normalizedModel)
                 catalog with
      | Some (_, pricing) => Some (entry pricing)
      | None =>
          match find (fun kp =>
                        (startsWith normalizedModel (toLowerCase (fst kp))
                         || startsWith (toLowerCase (fst kp)) normalizedModel)
                        && providerAccepts provider (snd kp))
                     catalog with
          | Some (_, pricing) => Some (entry pricing)
          | None => None
          end
      end
  end.

Definition getModelPricing (model : string) (provider : option ModelProvider)
    : option Member :=
  lookupPricing MODEL_PRICING model provider.

(** The fields read from the result of the lookup. *)
Definition inputCostPer1K (v : Member) : option Q :=
  match v with
  | entry p => Some (ModelPricing.inputCostPer1K p)
  | inheritedMember _ => None
  end.

Definition outputCostPer1K (v : Member) : option Q :=
  match v with
  | entry p => Some (ModelPricing.outputCostPer1K p)
  | inheritedMember _ => None
  end.

Definition imageCost (v : Member) : option Q :=
  match v with
  | entry p => ModelPricing.imageCost p
  | inheritedMember _ => None
  end.

Definition audioCostPerSecond (v : Member) : option Q :=
  match v with
  | entry p => ModelPricing.audioCostPerSecond p
  | inheritedMember _ => None
  end.

Definition model (v : Member) : option string :=
  match v with
  | entry p => Some (ModelPricing.model p)
  | inheritedMember _ => None
  end.

Definition provider (v : Member) : option ModelProvider :=
  match v with
  | entry p => Some (ModelPricing.provider p)
  | inheritedMember _ => None
  end.

(** [x * y] where [y] may be [undefined]. *)
Definition jsTimes (x : Q) (y : option Q) : JsNum :=
  match y with
  | Some q => Finite (x * q)
  | None => NaN
  end.

(** [x + y]. *)
Definition jsPlus (x y : JsNum) : JsNum :=
  match x, y with
  | NaN, _ | _, NaN => NaN
  | Finite a, Finite b => Finite (a + b)
  | PosInf, NegInf | NegInf, PosInf => NaN
  | PosInf, _ | _, PosInf => PosInf
  | NegInf, _ | _, NegInf => NegInf
  end.

Module Breakdown.
Record t : Type := mk {
    inputCost : JsNum;
    outputCost : JsNum;
    imageCost : option Q;
    audioCost : option Q
  }.
End Breakdown.

Module CostEstimate.
Record t : Type := mk {
    estimatedCost : JsNum;
    model : option string;
    provider : option ModelProvider;
    estimatedTokens : TokenUsage.t;
    breakdown : Breakdown.t;
    timestamp : Z
  }.
End CostEstimate.

Module CostRecord.
Record t : Type := mk {
    id : string;
    requestId : string;
    agentId : string;
    model : option string;
    provider : option ModelProvider;
    actualTokens : TokenUsage.t;
    actualCost : JsNum;
    breakdown : Breakdown.t;
    timestamp : Z;
    metadata : option Metadata
  }.
End CostRecord.

Definition createZeroCostEstimate (now : Z) (model : string)
    (provider : ModelProvider) (estimatedTokens : TokenUsage.t)
    : CostEstimate.t :=
  CostEstimate.mk (Finite 0) (Some model) (Some provider) estimatedTokens
    (Breakdown.mk (Finite 0) (Finite 0) None None) now.

Definition createZeroCostRecord (g : IdGen) (now : Z)
    (requestId agentId model : string) (provider : ModelProvider)
    (actualTokens : TokenUsage.t) : CostRecord.t * IdGen :=
  let (id, g') := generateId g in
  (CostRecord.mk id requestId agentId (Some model) (Some provider)
     actualTokens (Finite 0)
     (Breakdown.mk (Finite 0) (Finite 0) None None) now None, g').

(** [this.customPricing.get(model) || getModelPricing(model, provider)]. *)
Definition resolvePricing (tr : CostTracker.t) (model : string)
    (provider : option ModelProvider) : option Member :=
  match JsMap.get model (CostTracker.customPricing tr) with
  | Some p => Some (entry p)
  | None => getModelPricing model provider
  end.

Definition estimateCost (tr : CostTracker.t) (now : Z) (model : string)
    (estimatedTokens : TokenUsage.t) (provider : option ModelProvider)
    : CostEstimate.t :=
  if negb (CostTrackerConfig.enabled (CostTracker.config tr)) then
    createZeroCostEstimate now model (over openai provider) estimatedTokens
  else
    match resolvePricing tr model provider with
    | None =>
        createZeroCostEstimate now model (over custom provider) estimatedTokens
    | Some pricing =>
        let inputCost :=
          jsTimes (TokenUsage.inputTokens estimatedTokens / 1000)
                  (inputCostPer1K pricing) in
        let outputCost :=
          jsTimes (TokenUsage.outputTokens estimatedTokens / 1000)
                  (outputCostPer1K pricing) in
        let imageCost :=
          auxCost (TokenUsage.images estimatedTokens) (imageCost pricing) in
        let audioCost :=
          auxCost (TokenUsage.audioDuration estimatedTokens)
                  (audioCostPerSecond pricing) in
        let estimatedCost :=
          jsPlus (jsPlus (jsPlus inputCost outputCost) (Finite imageCost))
                 (Finite audioCost) in
        CostEstimate.mk estimatedCost
          (PlainObject.model pricing) (PlainObject.provider pricing)
          estimatedTokens
          (Breakdown.mk inputCost outputCost
             (optField imageCost) (optField audioCost))
          now
    end.

Definition calculateActualCost (tr : CostTracker.t) (g : IdGen) (now : Z)
    (requestId agentId model : string) (actualTokens : TokenUsage.t)
    (provider : option ModelProvider) (metadata : option Metadata)
    : CostRecord.t * IdGen :=
  if negb (CostTrackerConfig.enabled (CostTracker.config tr)) then
    createZeroCostRecord g now requestId agentId model (over openai provider)
      actualTokens
  else
    match resolvePricing tr model provider with
    | None =>
        createZeroCostRecord g now requestId agentId model
          (over custom provider) actualTokens
    | Some pricing =>
        let inputCost :=
          jsTimes (TokenUsage.inputTokens actualTokens / 1000)
                  (inputCostPer1K pricing) in
        let outputCost :=
          jsTimes (TokenUsage.outputTokens actualTokens / 1000)
                  (outputCostPer1K pricing) in
        let imageCost :=
          auxCost (TokenUsage.images actualTokens) (imageCost pricing) in
        let audioCost :=
          auxCost (TokenUsage.audioDuration actualTokens)
                  (audioCostPerSecond pricing) in
        let actualCost :=
          jsPlus (jsPlus (jsPlus inputCost outputCost) (Finite imageCost))
                 (Finite audioCost) in
        let (id, g') := generateId g in
        (CostRecord.mk id requestId agentId
           (PlainObject.model pricing) (PlainObject.provider pricing)
           actualTokens actualCost
           (Breakdown.mk inputCost outputCost
              (optField imageCost) (optField audioCost))
           now metadata, g')
    end.

End PlainObject.

(** An estimate and a record of the sections above, as values of the
    plain-object reading. *)
Definition plainBreakdown (b : Breakdown.t) : PlainObject.Breakdown.t :=
  PlainObject.Breakdown.mk
    (Finite (Breakdown.inputCost b)) (Finite (Breakdown.outputCost b))
    (Breakdown.imageCost b) (Breakdown.audioCost b).

Definition plainEstimate (e : CostEstimate.t) : PlainObject.CostEstimate.t :=
  PlainObject.CostEstimate.mk
    (Finite (CostEstimate.estimatedCost e))
    (Some (CostEstimate.model e)) (Some (CostEstimate.provider e))
    (CostEstimate.estimatedTokens e)
    (plainBreakdown (CostEstimate.breakdown e))
    (CostEstimate.timestamp e).

Definition plainRecord (r : CostRecord.t) : PlainObject.CostRecord.t :=
  PlainObject.CostRecord.mk
    (CostRecord.id r) (CostRecord.requestId r) (CostRecord.agentId r)
    (Some (CostRecord.model r)) (Some (CostRecord.provider r))
    (CostRecord.actualTokens r) (Finite (CostRecord.actualCost r))
    (plainBreakdown (CostRecord.breakdown r))
    (CostRecord.timestamp r) (CostRecord.metadata r).

(* ================================================================== *)
(** * Properties *)

(** ** Association lists as maps *)

Lemma get_set_same (V : Type) (k : string) (v : V) (m : JsMap.t V) :
  JsMap.get k (JsMap.set k v m) = Some v.
Proof.
  induction m as [|[k' v'] rest IH]; simpl.
  - now rewrite String.eqb_refl.
  - destruct (String.eqb k k') eqn:E; simpl.
    + now rewrite String.eqb_refl.
    + now rewrite E.
Qed.

Lemma get_set_other (V : Type) (k k0 : string) (v : V) (m : JsMap.t V) :
  k0 <> k -> JsMap.get k0 (JsMap.set k v m) = JsMap.get k0 m.
Proof.
  intros Hne. induction m as [|[k' v'] rest IH]; simpl.
  - destruct (String.eqb k0 k) eqn:E; auto.
    apply String.eqb_eq in E. contradiction.
  - destruct (String.eqb k k') eqn:E; simpl.
    + apply String.eqb_eq in E. subst k'.
      destruct (String.eqb k0 k) eqn:E0; auto.
      apply String.eqb_eq in E0. contradiction.
    + destruct (String.eqb k0 k'); auto.
Qed.

Lemma keys_set_in (V : Type) (k k0 : string) (v : V) (m : JsMap.t V) :
  In k0 (JsMap.keys (JsMap.set k v m)) <-> k0 = k \/ In k0 (JsMap.keys m).
Proof.
  unfold JsMap.keys.
  induction m as [|[k' v'] rest IH]; simpl.
  - intuition.
  - destruct (String.eqb k k') eqn:E; simpl.
    + apply String.eqb_eq in E. subst k'. intuition.
    + rewrite IH. intuition.
Qed.

Lemma keys_set_NoDup (V : Type) (k : string) (v : V) (m : JsMap.t V) :
  NoDup (JsMap.keys m) -> NoDup (JsMap.keys (JsMap.set k v m)).
Proof.
  unfold JsMap.keys.
  induction m as [|[k' v'] rest IH]; simpl; intros Hnd.
  - constructor; [intros [] | constructor].
  - inversion Hnd as [|? ? Hnotin Hrest]; subst.
    destruct (String.eqb k k') eqn:E; simpl.
    + apply String.eqb_eq in E. subst k'. now constructor.
    + constructor; auto.
      intros Hin. apply (keys_set_in k k' v rest) in Hin.
      destruct Hin as [->|Hin]; [|contradiction].
      now rewrite String.eqb_refl in E.
Qed.

Lemma in_set_inv (V : Type) (k k0 : string) (v v0 : V) (m : JsMap.t V) :
  In (k0, v0) (JsMap.set k v m) -> (k0 = k /\ v0 = v) \/ In (k0, v0) m.
Proof.
  induction m as [|[k' v'] rest IH]; simpl.
  - intros [H|[]]. inversion H. auto.
  - destruct (String.eqb k k') eqn:E; simpl.
    + intros [H|H]; [inversion H; auto | auto].
    + intros [H|H]; [auto | destruct (IH H); auto].
Qed.

Lemma in_delete_inv (V : Type) (k k0 : string) (v0 : V) (m : JsMap.t V) :
  In (k0, v0) (JsMap.delete k m) -> In (k0, v0) m.
Proof.
  induction m as [|[k' v'] rest IH]; simpl; auto.
  destruct (String.eqb k k'); simpl; intuition.
Qed.

Lemma keys_delete_NoDup (V : Type) (k : string) (m : JsMap.t V) :
  NoDup (JsMap.keys m) -> NoDup (JsMap.keys (JsMap.delete k m)).
Proof.
  unfold JsMap.keys.
  induction m as [|[k' v'] rest IH]; simpl; intros Hnd; auto.
  inversion Hnd as [|? ? Hnotin Hrest]; subst.
  destruct (String.eqb k k'); simpl; auto.
  constructor; auto.
  intros Hin. apply Hnotin.
  apply in_map_iff in Hin. destruct Hin as [[k1 v1] [Hk Hin]].
  simpl in Hk. subst k1.
  apply in_delete_inv in Hin.
  apply in_map_iff. now exists (k', v1).
Qed.

Lemma NoDup_keys_functional (V : Type) (k : string) (v v' : V) (m : JsMap.t V) :
  NoDup (JsMap.keys m) -> In (k, v) m -> In (k, v') m -> v = v'.
Proof.
  unfold JsMap.keys.
  induction m as [|[k1 v1] rest IH]; simpl; intros Hnd H1 H2; [contradiction|].
  inversion Hnd as [|? ? Hnotin Hrest]; subst.
  assert (Hfst : forall w, In (k1, w) rest -> False).
  { intros w Hw. apply Hnotin. apply in_map_iff. now exists (k1, w). }
  destruct H1 as [H1|H1], H2 as [H2|H2].
  - congruence.
  - inversion H1; subst. destruct (Hfst _ H2).
  - inversion H2; subst. destruct (Hfst _ H1).
  - auto.
Qed.

(** ** Identifiers *)

Lemma idOfNat_inj (n n' : nat) : idOfNat n = idOfNat n' -> n = n'.
Proof.
  unfold idOfNat. intros H.
  apply DecimalNat.Unsigned.to_uint_inj.
  assert (Hs : Some (Nat.to_uint n) = Some (Nat.to_uint n')).
  { rewrite <- !NilEmpty.usu. now rewrite H. }
  now inversion Hs.
Qed.

(** ** Cost calculator *)

(** The catalog lookup on an exact key, a key in another case with blanks
    around it, a versioned name, and an unknown name. *)
Example getModelPricing_examples :
  option_map ModelPricing.model (getModelPricing "gpt-4" None) = Some "gpt-4"
  /\ option_map ModelPricing.model (getModelPricing " Claude-2.1 " None)
     = Some "claude-2.1"
  /\ option_map ModelPricing.model (getModelPricing "gpt-4-0613" None)
     = Some "gpt-4"
  /\ option_map ModelPricing.model (getModelPricing "command-r" (Some openai))
     = None
  /\ getModelPricing "llama-3" None = None.
Proof. repeat split. Qed.

(** 1000 input and 500 output tokens of gpt-4 cost 0.03 + 0.03. *)
Example estimateCost_gpt4 :
  CostEstimate.estimatedCost (estimateCost defaultTracker t0 "gpt-4" usage1 None)
  == 6 # 100.
Proof. reflexivity. Qed.

Lemma calculateActualCost_id (tr : CostTracker.t) (g : IdGen) (now : Z)
    (requestId agentId model : string) (actualTokens : TokenUsage.t)
    (provider : option ModelProvider) (metadata : option Metadata) :
  let (r, g') :=
    calculateActualCost tr g now requestId agentId model actualTokens
      provider metadata in
  CostRecord.id r = idOfNat g /\ g' = S g.
Proof.
  unfold calculateActualCost, createZeroCostRecord, generateId.
  destruct (negb (CostTrackerConfig.enabled (CostTracker.config tr))); simpl; auto.
  destruct (resolvePricing tr model provider); simpl; auto.
Qed.

Lemma finalizeAll_ids (tr : CostTracker.t) (calls : list FinalizeCall.t) :
  forall g : IdGen,
    map CostRecord.id (fst (finalizeAll tr g calls))
    = map idOfNat (seq g (List.length calls)).
Proof.
  induction calls as [|c rest IH]; intros g; simpl; auto.
  pose proof (calculateActualCost_id tr g (FinalizeCall.now c)
                (FinalizeCall.requestId c) (FinalizeCall.agentId c)
                (FinalizeCall.model c) (FinalizeCall.actualTokens c)
                (FinalizeCall.provider c) (FinalizeCall.metadata c)) as Hid.
  destruct (calculateActualCost tr g _ _ _ _ _ _ _) as [r g'].
  destruct Hid as [Hr Hg]. subst g'.
  specialize (IH (S g)).
  destruct (finalizeAll tr (S g) rest) as [rs g'']. simpl in *.
  now rewrite Hr, IH.
Qed.

Lemma NoDup_map_idOfNat (l : list nat) : NoDup l -> NoDup (map idOfNat l).
Proof.
  induction 1 as [|x l Hnotin Hnd IH]; simpl; constructor; auto.
  intros Hin. apply in_map_iff in Hin. destruct Hin as [y [Hy Hin]].
  apply idOfNat_inj in Hy. now subst y.
Qed.

(** C7.  On identical (model, usage, provider) inputs [estimateCost] and
    [calculateActualCost] compute the same total and the same breakdown;
    and the records of any sequence of [calculateActualCost] calls carry
    pairwise distinct ids, whatever their other arguments. *)
Theorem estimate_and_actual_agree_and_ids_fresh
    (tr : CostTracker.t) (g : IdGen) (now now' : Z)
    (requestId agentId model : string) (usage : TokenUsage.t)
    (provider : option ModelProvider) (metadata : option Metadata)
    (calls : list FinalizeCall.t) :
  let e := estimateCost tr now model usage provider in
  let r := fst (calculateActualCost tr g now' requestId agentId model usage
                  provider metadata) in
  CostEstimate.estimatedCost e = CostRecord.actualCost r
  /\ CostEstimate.breakdown e = CostRecord.breakdown r
  /\ NoDup (map CostRecord.id (fst (finalizeAll tr g calls))).
Proof.
  cbv zeta. repeat split.
  - unfold estimateCost, calculateActualCost, createZeroCostEstimate,
      createZeroCostRecord, generateId.
    destruct (negb (CostTrackerConfig.enabled (CostTracker.config tr)));
      [reflexivity|].
    destruct (resolvePricing tr model provider); reflexivity.
  - unfold estimateCost, calculateActualCost, createZeroCostEstimate,
      createZeroCostRecord, generateId.
    destruct (negb (CostTrackerConfig.enabled (CostTracker.config tr)));
      [reflexivity|].
    destruct (resolvePricing tr model provider); reflexivity.
  - rewrite finalizeAll_ids. apply NoDup_map_idOfNat, seq_NoDup.
Qed.

Lemma optField_sum (c : Q) :
  0 <= c -> match optField c with Some x => x | None => 0 end == c.
Proof.
  intros Hc. unfold optField, Qlt_bool.
  destruct (Qle_bool c 0) eqn:E; simpl.
  - apply Qle_bool_iff in E. apply Qle_antisym; assumption.
  - reflexivity.
Qed.

(** C6, as the code has it.  For a resolved price entry whose computed
    image cost and audio cost are not negative, the total of the estimate
    equals the sum of the breakdown fields (an absent field counting
    zero), the input cost is (inputTokens / 1000) * inputCostPer1K and
    the output cost is (outputTokens / 1000) * outputCostPer1K. *)
Theorem estimate_total_is_breakdown_sum
    (tr : CostTracker.t) (now : Z) (model : string) (usage : TokenUsage.t)
    (provider : option ModelProvider) (pricing : ModelPricing.t) :
  CostTrackerConfig.enabled (CostTracker.config tr) = true ->
  resolvePricing tr model provider = Some pricing ->
  0 <= auxCost (TokenUsage.images usage) (ModelPricing.imageCost pricing) ->
  0 <= auxCost (TokenUsage.audioDuration usage)
               (ModelPricing.audioCostPerSecond pricing) ->
  let e := estimateCost tr now model usage provider in
  CostEstimate.estimatedCost e == breakdownSum (CostEstimate.breakdown e)
  /\ Breakdown.inputCost (CostEstimate.breakdown e)
     = (TokenUsage.inputTokens usage / 1000) * ModelPricing.inputCostPer1K pricing
  /\ Breakdown.outputCost (CostEstimate.breakdown e)
     = (TokenUsage.outputTokens usage / 1000) * ModelPricing.outputCostPer1K pricing.
Proof.
  intros En Hp Himg Haud. cbv zeta.
  unfold estimateCost. rewrite En, Hp. simpl.
  repeat split.
  unfold breakdownSum. simpl.
  rewrite (optField_sum Himg), (optField_sum Haud). reflexivity.
Qed.

Lemma estimate_total_is_breakdown_sum_witness :
  let pricing :=
    ModelPricing.mk "gpt-4-vision-preview" openai (1 # 100) (3 # 100)
      (Some (765 # 100000)) None "2026-01-31" in
  let e := estimateCost defaultTracker t0 "gpt-4-vision-preview" imageUsage None in
  CostEstimate.estimatedCost e == breakdownSum (CostEstimate.breakdown e)
  /\ Breakdown.inputCost (CostEstimate.breakdown e)
     = (TokenUsage.inputTokens imageUsage / 1000) * ModelPricing.inputCostPer1K pricing
  /\ Breakdown.outputCost (CostEstimate.breakdown e)
     = (TokenUsage.outputTokens imageUsage / 1000) * ModelPricing.outputCostPer1K pricing.
Proof.
  intros pricing.
  apply (@estimate_total_is_breakdown_sum defaultTracker t0
           "gpt-4-vision-preview" imageUsage None pricing).
  - reflexivity.
  - reflexivity.
  - vm_compute. discriminate.
  - vm_compute. discriminate.
Defined.

(** C6 fails as stated: with a negative per-image price the image cost
    enters the total but not the breakdown. *)
Lemma estimate_total_differs_from_breakdown_sum :
  let e := estimateCost rebateTracker t0 "my-vision" imageUsage None in
  CostTrackerConfig.enabled (CostTracker.config rebateTracker) = true
  /\ resolvePricing rebateTracker "my-vision" None
     = Some (ModelPricing.mk "my-vision" custom (1 # 100) (3 # 100)
               (Some (-1 # 100)) None "2026-11-02T00:00:00.000Z")
  /\ CostEstimate.estimatedCost e == 15 # 1000
  /\ breakdownSum (CostEstimate.breakdown e) == 25 # 1000
  /\ ~ CostEstimate.estimatedCost e == breakdownSum (CostEstimate.breakdown e).
Proof.
  cbv zeta. repeat split; try reflexivity.
  vm_compute. discriminate.
Qed.

(** C4, as the code has it.  [createBudget] validates nothing: whatever
    the limit and the threshold list, the configuration is stored under
    the generated id with an empty alert list, and returned. *)
Theorem createBudget_stores_every_config
    (g : IdGen) (now : Z) (m : BudgetManager.t) (config : BudgetInput.t) :
  let '(b, m', g') := createBudget g now m config in
  getBudget m' (BudgetConfig.id b) = Some b
  /\ getAlerts m' (BudgetConfig.id b) = []
  /\ BudgetConfig.limit b = BudgetInput.limit config
  /\ BudgetConfig.alertThresholds b = BudgetInput.alertThresholds config
  /\ BudgetConfig.action b = BudgetInput.action config
  /\ BudgetConfig.scope b = BudgetInput.scope config
  /\ BudgetConfig.enabled b = BudgetInput.enabled config.
Proof.
  unfold createBudget, generateId, getBudget, getAlerts. simpl.
  rewrite !get_set_same. repeat split.
Qed.

(** C4 fails as stated: a limit of -5 with no threshold is stored. *)
Lemma createBudget_stores_invalid_config :
  let '(b, m', _) := createBudget 0%nat t0 newBudgetManager badInput in
  BudgetInput.limit badInput <= 0
  /\ BudgetInput.alertThresholds badInput = []
  /\ getBudget m' (BudgetConfig.id b) = Some b
  /\ BudgetConfig.limit b = -5
  /\ BudgetConfig.alertThresholds b = [].
Proof.
  simpl. repeat split. vm_compute. discriminate.
Qed.

(** ** Budget status and the enforcement loop *)

Lemma getBudgetStatus_budgets (cal : Calendar.t) (now : Z)
    (m m' : BudgetManager.t) (st : InMemoryCostStorage.t) (k : string) :
  BudgetManager.budgets m = BudgetManager.budgets m' ->
  getBudgetStatus cal now m st k = getBudgetStatus cal now m' st k.
Proof. intros H. unfold getBudgetStatus. now rewrite H. Qed.

Lemma blocksAt_budgets (cal : Calendar.t) (now : Z)
    (m m' : BudgetManager.t) (st : InMemoryCostStorage.t) (cost : Q)
    (b : BudgetConfig.t) :
  BudgetManager.budgets m = BudgetManager.budgets m' ->
  blocksAt cal now m st cost b = blocksAt cal now m' st cost b.
Proof.
  intros H. unfold blocksAt.
  now rewrite (getBudgetStatus_budgets cal now m m' st _ H).
Qed.

Lemma getAlerts_addAlert_other (m : BudgetManager.t) (k k' : string)
    (a : CostAlert.t) :
  k <> k' -> getAlerts (addAlert m k' a) k = getAlerts m k.
Proof.
  intros Hne. unfold getAlerts, addAlert. simpl.
  now rewrite get_set_other.
Qed.

Lemma checkThresholds_budgets (now : Z) (budget : BudgetConfig.t)
    (ps : Q) (pp pu : JsNum) (ts : list Q) :
  forall s : CheckState,
    BudgetManager.budgets (snd (fst (checkThresholds now budget ps pp pu ts s)))
    = BudgetManager.budgets (snd (fst s)).
Proof.
  induction ts as [|t rest IH]; intros [[al m] g]; simpl; auto.
  destruct (jsGe pp t && jsLt pu t); [|apply IH].
  rewrite IH. reflexivity.
Qed.

Lemma checkThresholds_alerts_other (now : Z) (budget : BudgetConfig.t)
    (ps : Q) (pp pu : JsNum) (ts : list Q) (k : string) :
  k <> BudgetConfig.id budget ->
  forall s : CheckState,
    getAlerts (snd (fst (checkThresholds now budget ps pp pu ts s))) k
    = getAlerts (snd (fst s)) k.
Proof.
  intros Hne.
  induction ts as [|t rest IH]; intros [[al m] g]; simpl; auto.
  destruct (jsGe pp t && jsLt pu t); [|apply IH].
  rewrite IH. simpl. now apply getAlerts_addAlert_other.
Qed.

Lemma checkThresholds_emitted (now : Z) (budget : BudgetConfig.t)
    (ps : Q) (pp pu : JsNum) (ts : list Q) :
  forall (s : CheckState) (a : CostAlert.t),
    In a (fst (fst (checkThresholds now budget ps pp pu ts s))) ->
    In a (fst (fst s)) \/ CostAlert.budgetId a = BudgetConfig.id budget.
Proof.
  induction ts as [|t rest IH]; intros [[al m] g] a; simpl; auto.
  destruct (jsGe pp t && jsLt pu t); [|apply IH].
  intros Hin. apply IH in Hin. simpl in Hin.
  destruct Hin as [Hin|Hin]; auto.
  apply in_app_or in Hin. destruct Hin as [Hin|[<-|[]]]; auto.
Qed.

Lemma evalBudget_budgets (cal : Calendar.t) (now : Z)
    (st : InMemoryCostStorage.t) (cost : Q) (b : BudgetConfig.t)
    (s : CheckState) :
  BudgetManager.budgets (snd (fst (evalBudget cal now st cost b s)))
  = BudgetManager.budgets (snd (fst s)).
Proof.
  unfold evalBudget.
  destruct (negb (BudgetConfig.enabled b)); auto.
  destruct (getBudgetStatus cal now (snd (fst s)) st (BudgetConfig.id b)); auto.
  apply checkThresholds_budgets.
Qed.

Lemma evalBudget_alerts_other (cal : Calendar.t) (now : Z)
    (st : InMemoryCostStorage.t) (cost : Q) (b : BudgetConfig.t)
    (s : CheckState) (k : string) :
  k <> BudgetConfig.id b ->
  getAlerts (snd (fst (evalBudget cal now st cost b s))) k
  = getAlerts (snd (fst s)) k.
Proof.
  intros Hne. unfold evalBudget.
  destruct (negb (BudgetConfig.enabled b)); auto.
  destruct (getBudgetStatus cal now (snd (fst s)) st (BudgetConfig.id b)); auto.
  now apply checkThresholds_alerts_other.
Qed.

Lemma evalBudget_emitted (cal : Calendar.t) (now : Z)
    (st : InMemoryCostStorage.t) (cost : Q) (b : BudgetConfig.t)
    (s : CheckState) (a : CostAlert.t) :
  In a (fst (fst (evalBudget cal now st cost b s))) ->
  In a (fst (fst s)) \/ CostAlert.budgetId a = BudgetConfig.id b.
Proof.
  unfold evalBudget.
  destruct (negb (BudgetConfig.enabled b)); auto.
  destruct (getBudgetStatus cal now (snd (fst s)) st (BudgetConfig.id b)); auto.
  apply checkThresholds_emitted.
Qed.

Lemma find_pointwise (A : Type) (f f' : A -> bool) (l : list A) :
  (forall x, f x = f' x) -> find f l = find f' l.
Proof.
  intros H. induction l as [|x l IH]; simpl; auto.
  rewrite H, IH. reflexivity.
Qed.

(** The loop of [checkBudget], one budget at a time. *)
Lemma checkLoop_cons (cal : Calendar.t) (now : Z)
    (st : InMemoryCostStorage.t) (cost : Q) (b : BudgetConfig.t)
    (rest : list BudgetConfig.t) (s : CheckState) :
  checkLoop cal now st cost (b :: rest) s
  = if blocksAt cal now (snd (fst s)) st cost b
    then (Some b, evalBudget cal now st cost b s)
    else checkLoop cal now st cost rest (evalBudget cal now st cost b s).
Proof.
  simpl. unfold blocksAt, evalBudget.
  destruct (BudgetConfig.enabled b); simpl; auto.
  destruct (getBudgetStatus cal now (snd (fst s)) st (BudgetConfig.id b));
    auto.
  destruct (Qlt_bool _ _); simpl; auto.
  destruct (BudgetConfig.action b); reflexivity.
Qed.

Lemma checkLoop_find (cal : Calendar.t) (now : Z)
    (st : InMemoryCostStorage.t) (cost : Q) (bs : list BudgetConfig.t) :
  forall s : CheckState,
    fst (checkLoop cal now st cost bs s)
    = find (blocksAt cal now (snd (fst s)) st cost) bs.
Proof.
  induction bs as [|b rest IH]; intros s; [reflexivity|].
  rewrite checkLoop_cons. cbn [find].
  destruct (blocksAt cal now (snd (fst s)) st cost b); [reflexivity|].
  rewrite IH. apply find_pointwise. intros x.
  apply blocksAt_budgets, evalBudget_budgets.
Qed.

Lemma checkLoop_stops (cal : Calendar.t) (now : Z)
    (st : InMemoryCostStorage.t) (cost : Q) (b : BudgetConfig.t)
    (pre post : list BudgetConfig.t) :
  forall s : CheckState,
    (forall x, In x pre -> blocksAt cal now (snd (fst s)) st cost x = false) ->
    blocksAt cal now (snd (fst s)) st cost b = true ->
    checkLoop cal now st cost (pre ++ b :: post) s
    = checkLoop cal now st cost (pre ++ [b]) s.
Proof.
  induction pre as [|x pre IH]; intros s Hpre Hb.
  - simpl app. rewrite !checkLoop_cons, Hb. reflexivity.
  - simpl app. rewrite !checkLoop_cons.
    rewrite (Hpre x (or_introl eq_refl)).
    apply IH.
    + intros y Hy.
      rewrite (blocksAt_budgets cal now _ (snd (fst s)) st cost y
                 (evalBudget_budgets cal now st cost x s)).
      apply Hpre. now right.
    + now rewrite (blocksAt_budgets cal now _ (snd (fst s)) st cost b
                     (evalBudget_budgets cal now st cost x s)).
Qed.

Lemma checkLoop_budgets (cal : Calendar.t) (now : Z)
    (st : InMemoryCostStorage.t) (cost : Q) (bs : list BudgetConfig.t) :
  forall s : CheckState,
    BudgetManager.budgets (snd (fst (snd (checkLoop cal now st cost bs s))))
    = BudgetManager.budgets (snd (fst s)).
Proof.
  induction bs as [|b rest IH]; intros s; [reflexivity|].
  rewrite checkLoop_cons.
  destruct (blocksAt cal now (snd (fst s)) st cost b); simpl.
  - apply evalBudget_budgets.
  - rewrite IH. apply evalBudget_budgets.
Qed.

Lemma checkLoop_alerts_other (cal : Calendar.t) (now : Z)
    (st : InMemoryCostStorage.t) (cost : Q) (k : string)
    (bs : list BudgetConfig.t) :
  (forall b, In b bs -> k <> BudgetConfig.id b) ->
  forall s : CheckState,
    getAlerts (snd (fst (snd (checkLoop cal now st cost bs s)))) k
    = getAlerts (snd (fst s)) k.
Proof.
  induction bs as [|b rest IH]; intros Hk s; [reflexivity|].
  rewrite checkLoop_cons.
  assert (Hb : k <> BudgetConfig.id b) by (apply Hk; now left).
  destruct (blocksAt cal now (snd (fst s)) st cost b); simpl.
  - now apply evalBudget_alerts_other.
  - rewrite IH.
    + now apply evalBudget_alerts_other.
    + intros b' Hb'. apply Hk. now right.
Qed.

Lemma checkLoop_emitted (cal : Calendar.t) (now : Z)
    (st : InMemoryCostStorage.t) (cost : Q) (bs : list BudgetConfig.t) :
  forall (s : CheckState) (a : CostAlert.t),
    In a (fst (fst (snd (checkLoop cal now st cost bs s)))) ->
    In a (fst (fst s))
    \/ exists b, In b bs /\ CostAlert.budgetId a = BudgetConfig.id b.
Proof.
  induction bs as [|b rest IH]; intros s a; [simpl; auto|].
  rewrite checkLoop_cons.
  destruct (blocksAt cal now (snd (fst s)) st cost b); simpl.
  - intros Hin. apply evalBudget_emitted in Hin.
    destruct Hin as [Hin|Hin]; auto. right. exists b. split; simpl; auto.
  - intros Hin. apply IH in Hin. destruct Hin as [Hin|[b' [Hb' Hid]]].
    + apply evalBudget_emitted in Hin.
      destruct Hin as [Hin|Hin]; auto. right. exists b. split; simpl; auto.
    + right. exists b'. split; simpl; auto.
Qed.

Lemma Qlt_bool_iff (x y : Q) : Qlt_bool x y = true <-> x < y.
Proof.
  unfold Qlt_bool. rewrite negb_true_iff. split.
  - intros H. apply Qnot_le_lt. intros Hle.
    apply Qle_bool_iff in Hle. congruence.
  - intros H. destruct (Qle_bool y x) eqn:E; auto.
    apply Qle_bool_iff in E. exfalso. exact (Qlt_not_le _ _ H E).
Qed.

Lemma blocksAt_spec (cal : Calendar.t) (now : Z) (m : BudgetManager.t)
    (st : InMemoryCostStorage.t) (cost : Q) (b : BudgetConfig.t) :
  blocksAt cal now m st cost b = true <->
  BudgetConfig.enabled b = true
  /\ exists status,
       getBudgetStatus cal now m st (BudgetConfig.id b) = Some status
       /\ BudgetConfig.limit b < BudgetStatus.currentSpending status + cost
       /\ BudgetConfig.action b = block.
Proof.
  unfold blocksAt. rewrite andb_true_iff. split.
  - intros [En H]. split; auto.
    destruct (getBudgetStatus cal now m st (BudgetConfig.id b)) as [status|];
      [|discriminate].
    apply andb_true_iff in H. destruct H as [Hlt Hact].
    exists status. repeat split.
    + now apply Qlt_bool_iff.
    + destruct (BudgetConfig.action b); try discriminate; reflexivity.
  - intros [En [status [Hs [Hlt Hact]]]]. split; auto.
    rewrite Hs, Hact. apply andb_true_iff. split; auto.
    now apply Qlt_bool_iff.
Qed.

Lemma find_first (A : Type) (f : A -> bool) (pre post : list A) (b : A) :
  (forall x, In x pre -> f x = false) -> f b = true ->
  find f (pre ++ b :: post) = Some b.
Proof.
  induction pre as [|x pre IH]; simpl; intros Hpre Hb.
  - now rewrite Hb.
  - rewrite (Hpre x (or_introl eq_refl)). apply IH; auto.
Qed.

(** C3.  Whatever the agent and the estimated cost, a budget reported in
    [blockedBy] has action [block]; a refusal always names such a budget
    among the relevant ones; and when every relevant budget has action
    [alert] or [throttle] the request is allowed. *)
Theorem alert_and_throttle_never_block
    (cal : Calendar.t) (now : Z) (g : IdGen) (m : BudgetManager.t)
    (st : InMemoryCostStorage.t) (agentId : string) (cost : Q) :
  let r := fst (fst (checkBudget cal now g m st agentId cost)) in
  (forall b, BudgetEnforcementResult.blockedBy r = Some b ->
             BudgetConfig.action b = block)
  /\ (BudgetEnforcementResult.allowed r = false ->
      exists b, BudgetEnforcementResult.blockedBy r = Some b
                /\ BudgetConfig.action b = block
                /\ In b (getRelevantBudgets m agentId))
  /\ ((forall b, In b (getRelevantBudgets m agentId) ->
                 BudgetConfig.action b = alert
                 \/ BudgetConfig.action b = throttle) ->
      BudgetEnforcementResult.allowed r = true).
Proof.
  cbv zeta.
  pose proof (checkLoop_find cal now st cost (getRelevantBudgets m agentId)
                ([], m, g)) as Hfind.
  unfold checkBudget.
  destruct (checkLoop cal now st cost (getRelevantBudgets m agentId) ([], m, g))
    as [blk [[al m'] g']].
  simpl in *.
  assert (Hblk : forall b, blk = Some b ->
                 In b (getRelevantBudgets m agentId)
                 /\ BudgetConfig.action b = block).
  { intros b ->. symmetry in Hfind. apply find_some in Hfind.
    destruct Hfind as [Hin Hb]. split; auto.
    apply blocksAt_spec in Hb. destruct Hb as [_ [s [_ [_ Hact]]]]. exact Hact. }
  repeat split.
  - intros b Hb. now apply Hblk.
  - intros Hal. destruct blk as [b|]; [|discriminate].
    exists b. destruct (Hblk b eq_refl). auto.
  - intros Hsoft. destruct blk as [b|]; [|reflexivity].
    destruct (Hblk b eq_refl) as [Hin Hact].
    destruct (Hsoft b Hin) as [H|H]; congruence.
Qed.

Lemma alert_and_throttle_never_block_witness :
  BudgetEnforcementResult.allowed
    (fst (fst (checkBudget utc (t0 + 2000)%Z (snd softOnly) (fst softOnly)
                 ledger095 "agent-123" (10 # 100)))) = true.
Proof.
  apply (proj2 (proj2 (alert_and_throttle_never_block utc (t0 + 2000)%Z
                         (snd softOnly) (fst softOnly) ledger095
                         "agent-123" (10 # 100)))).
  intros b [<-|[]]. left. reflexivity.
Defined.

(** ** Recording costs *)

Lemma recordThresholds_budgets (now : Z) (budget : BudgetConfig.t)
    (status : BudgetStatus.t) (ex ts : list Q) :
  forall s : BudgetManager.t * IdGen,
    BudgetManager.budgets (fst (recordThresholds now budget status ex ts s))
    = BudgetManager.budgets (fst s).
Proof.
  induction ts as [|t rest IH]; intros [m g]; simpl; auto.
  destruct (jsGe (BudgetStatus.percentageUsed status) t
            && negb (hasThreshold ex t)); [|apply IH].
  rewrite IH. reflexivity.
Qed.

Lemma recordThresholds_alerts_other (now : Z) (budget : BudgetConfig.t)
    (status : BudgetStatus.t) (ex ts : list Q) (k : string) :
  k <> BudgetConfig.id budget ->
  forall s : BudgetManager.t * IdGen,
    getAlerts (fst (recordThresholds now budget status ex ts s)) k
    = getAlerts (fst s) k.
Proof.
  intros Hne.
  induction ts as [|t rest IH]; intros [m g]; simpl; auto.
  destruct (jsGe (BudgetStatus.percentageUsed status) t
            && negb (hasThreshold ex t)); [|apply IH].
  rewrite IH. simpl. now apply getAlerts_addAlert_other.
Qed.

(** The retrospective path skips every threshold that already has an
    alert in the budget's list. *)
Lemma recordThresholds_skips_existing (now : Z) (budget : BudgetConfig.t)
    (status : BudgetStatus.t) (ex ts : list Q) (s : BudgetManager.t * IdGen) :
  (forall t, In t ts -> hasThreshold ex t = true) ->
  recordThresholds now budget status ex ts s = s.
Proof.
  induction ts as [|t rest IH]; intros Hex; destruct s as [m g]; simpl; auto.
  rewrite (Hex t (or_introl eq_refl)). rewrite andb_false_r.
  apply IH. intros t' Ht'. apply Hex. now right.
Qed.

Lemma recordLoop_budgets (cal : Calendar.t) (now : Z)
    (st : InMemoryCostStorage.t) (bs : list BudgetConfig.t) :
  forall s : BudgetManager.t * IdGen,
    BudgetManager.budgets (fst (recordLoop cal now st bs s))
    = BudgetManager.budgets (fst s).
Proof.
  induction bs as [|b rest IH]; intros s; simpl; auto.
  destruct (negb (BudgetConfig.enabled b)); [apply IH|].
  destruct (getBudgetStatus cal now (fst s) st (BudgetConfig.id b));
    [|apply IH].
  rewrite IH. apply recordThresholds_budgets.
Qed.

Lemma recordLoop_alerts_other (cal : Calendar.t) (now : Z)
    (st : InMemoryCostStorage.t) (k : string) (bs : list BudgetConfig.t) :
  (forall b, In b bs -> k <> BudgetConfig.id b) ->
  forall s : BudgetManager.t * IdGen,
    getAlerts (fst (recordLoop cal now st bs s)) k = getAlerts (fst s) k.
Proof.
  induction bs as [|b rest IH]; intros Hk s; simpl; auto.
  assert (Hb : k <> BudgetConfig.id b) by (apply Hk; now left).
  assert (Hrest : forall b', In b' rest -> k <> BudgetConfig.id b')
    by (intros b' Hb'; apply Hk; now right).
  destruct (negb (BudgetConfig.enabled b)); [now apply IH|].
  destruct (getBudgetStatus cal now (fst s) st (BudgetConfig.id b));
    [|now apply IH].
  rewrite IH by assumption. now apply recordThresholds_alerts_other.
Qed.

(** ** The budget map stays keyed by id *)

Lemma keyedById_new : keyedById newBudgetManager.
Proof. split; [constructor | intros k b []]. Qed.

Lemma keyedById_set (m : BudgetManager.t) (b : BudgetConfig.t)
    (al : JsMap.t (list CostAlert.t)) :
  keyedById m ->
  keyedById (BudgetManager.mk
               (JsMap.set (BudgetConfig.id b) b (BudgetManager.budgets m)) al).
Proof.
  intros [Hnd Hid]. split; simpl.
  - now apply keys_set_NoDup.
  - intros k b' Hin. apply in_set_inv in Hin.
    destruct Hin as [[-> ->]|Hin]; auto.
Qed.

Lemma keyedById_createBudget (g : IdGen) (now : Z) (m : BudgetManager.t)
    (config : BudgetInput.t) :
  keyedById m -> keyedById (snd (fst (createBudget g now m config))).
Proof.
  intros H. unfold createBudget, generateId. simpl.
  match goal with
  | |- keyedById (BudgetManager.mk (JsMap.set _ ?b _) ?al) =>
      exact (keyedById_set b al H)
  end.
Qed.

Lemma get_In (V : Type) (k : string) (v : V) (m : JsMap.t V) :
  JsMap.get k m = Some v -> In (k, v) m.
Proof.
  induction m as [|[k' v'] rest IH]; simpl; [discriminate|].
  destruct (String.eqb k k') eqn:E.
  - apply String.eqb_eq in E. intros H. inversion H. subst. now left.
  - intros H. right. auto.
Qed.

Lemma keyedById_updateBudget (now : Z) (m : BudgetManager.t) (id : string)
    (updates : BudgetPatch.t) :
  keyedById m -> keyedById (snd (updateBudget now m id updates)).
Proof.
  intros H. unfold updateBudget.
  destruct (JsMap.get id (BudgetManager.budgets m)) as [b|] eqn:E; simpl; auto.
  destruct H as [Hnd Hid].
  pose proof (Hid _ _ (get_In _ _ E)) as Hb.
  split; simpl.
  - now apply keys_set_NoDup.
  - intros k b' Hin. apply in_set_inv in Hin.
    destruct Hin as [[-> ->]|Hin]; auto.
Qed.

Lemma keyedById_deleteBudget (m : BudgetManager.t) (id : string) :
  keyedById m -> keyedById (snd (deleteBudget m id)).
Proof.
  intros [Hnd Hid]. split; simpl.
  - now apply keys_delete_NoDup.
  - intros k b Hin. apply in_delete_inv in Hin. auto.
Qed.

Lemma keyedById_same_budgets (m m' : BudgetManager.t) :
  BudgetManager.budgets m' = BudgetManager.budgets m ->
  keyedById m -> keyedById m'.
Proof. unfold keyedById. intros ->. auto. Qed.

Lemma keyedById_checkBudget (cal : Calendar.t) (now : Z) (g : IdGen)
    (m : BudgetManager.t) (st : InMemoryCostStorage.t) (agentId : string)
    (cost : Q) :
  keyedById m ->
  keyedById (snd (fst (checkBudget cal now g m st agentId cost))).
Proof.
  apply keyedById_same_budgets.
  pose proof (checkLoop_budgets cal now st cost (getRelevantBudgets m agentId)
                ([], m, g)) as H.
  unfold checkBudget.
  destruct (checkLoop cal now st cost (getRelevantBudgets m agentId) ([], m, g))
    as [blk [[al m'] g']].
  exact H.
Qed.

Lemma keyedById_recordCost (cal : Calendar.t) (now : Z) (g : IdGen)
    (m : BudgetManager.t) (st : InMemoryCostStorage.t) (record : CostRecord.t) :
  keyedById m -> keyedById (fst (recordCost cal now g m st record)).
Proof.
  apply keyedById_same_budgets. unfold recordCost.
  apply (recordLoop_budgets cal now st _ (m, g)).
Qed.

(** Every state reachable through the public methods is keyed by id. *)
Lemma reachable_keyedById (m : BudgetManager.t) : reachable m -> keyedById m.
Proof.
  induction 1 as [ | g now m config _ IH | now m id updates _ IH | m id _ IH
                 | cal now g m st agentId cost _ IH
                 | cal now g m st record _ IH
                 | m alertId _ IH | m budgetId _ IH ].
  - exact keyedById_new.
  - now apply keyedById_createBudget.
  - now apply keyedById_updateBudget.
  - now apply keyedById_deleteBudget.
  - now apply keyedById_checkBudget.
  - now apply keyedById_recordCost.
  - unfold acknowledgeAlert.
    destruct (ackInLists alertId (BudgetManager.alerts m)); simpl; auto.
  - exact IH.
Qed.

Lemma In_values (V : Type) (v : V) (m : JsMap.t V) :
  In v (JsMap.values m) -> exists k, In (k, v) m.
Proof.
  unfold JsMap.values. intros H. apply in_map_iff in H.
  destruct H as [[k v'] [Hv Hin]]. simpl in Hv. subst v'. now exists k.
Qed.

Lemma projectOrOrganization_not_relevant (agentId : string)
    (b : BudgetConfig.t) :
  projectOrOrganization b = true -> isRelevant agentId b = false.
Proof.
  unfold projectOrOrganization, isRelevant.
  destruct (BudgetConfig.enabled b); simpl; auto.
  destruct (BudgetConfig.scope b) as [sc|]; [|discriminate].
  destruct (Scope.type sc); simpl; auto. discriminate.
Qed.

Lemma relevant_has_other_id (m : BudgetManager.t) (agentId : string)
    (b b' : BudgetConfig.t) :
  keyedById m ->
  In b (getAllBudgets m) ->
  isRelevant agentId b = false ->
  In b' (getRelevantBudgets m agentId) ->
  BudgetConfig.id b <> BudgetConfig.id b'.
Proof.
  intros [Hnd Hid] Hb Hrel Hb' Heq.
  unfold getRelevantBudgets in Hb'. apply filter_In in Hb'.
  destruct Hb' as [Hin' Hrel'].
  apply In_values in Hb. destruct Hb as [k Hk].
  apply In_values in Hin'. destruct Hin' as [k' Hk'].
  pose proof (Hid _ _ Hk) as E. pose proof (Hid _ _ Hk') as E'.
  assert (b = b').
  { rewrite <- E in Hk. rewrite <- E', <- Heq in Hk'.
    eapply NoDup_keys_functional; [exact Hnd | exact Hk | exact Hk']. }
  subst b'. congruence.
Qed.

(** C10.  In a manager whose budget map is keyed by id, a budget scoped
    to a project or to an organization is relevant for no agent id;
    [checkBudget] never reports it in [blockedBy], returns no alert for
    it and leaves its alert list as it was, and so does [recordCost]. *)
Theorem project_and_organization_budgets_never_selected
    (cal : Calendar.t) (now : Z) (g : IdGen) (m : BudgetManager.t)
    (st : InMemoryCostStorage.t) (agentId : string) (cost : Q)
    (record : CostRecord.t) (b : BudgetConfig.t) :
  keyedById m ->
  In b (getAllBudgets m) ->
  projectOrOrganization b = true ->
  (forall a, ~ In b (getRelevantBudgets m a))
  /\ (let '(r, m1, _) := checkBudget cal now g m st agentId cost in
      BudgetEnforcementResult.blockedBy r <> Some b
      /\ (forall al, In al (BudgetEnforcementResult.alerts r) ->
                     CostAlert.budgetId al <> BudgetConfig.id b)
      /\ getAlerts m1 (BudgetConfig.id b) = getAlerts m (BudgetConfig.id b))
  /\ getAlerts (fst (recordCost cal now g m st record)) (BudgetConfig.id b)
     = getAlerts m (BudgetConfig.id b).
Proof.
  intros Hkey Hin Hout.
  assert (Hnot : forall a, ~ In b (getRelevantBudgets m a)).
  { intros a Hrel. unfold getRelevantBudgets in Hrel.
    apply filter_In in Hrel. destruct Hrel as [_ Hrel].
    rewrite (projectOrOrganization_not_relevant a b Hout) in Hrel.
    discriminate. }
  assert (Hids : forall a b', In b' (getRelevantBudgets m a) ->
                              BudgetConfig.id b <> BudgetConfig.id b').
  { intros a b' Hb'.
    apply (@relevant_has_other_id m a b b' Hkey Hin); auto.
    now apply projectOrOrganization_not_relevant. }
  split; [exact Hnot|]. split.
  - pose proof (checkLoop_find cal now st cost (getRelevantBudgets m agentId)
                  ([], m, g)) as Hfind.
    pose proof (checkLoop_emitted cal now st cost
                  (getRelevantBudgets m agentId) ([], m, g)) as Hem.
    pose proof (checkLoop_alerts_other cal now st cost
                  (getRelevantBudgets m agentId) (Hids agentId) ([], m, g))
      as Hal.
    unfold checkBudget.
    destruct (checkLoop cal now st cost (getRelevantBudgets m agentId)
                ([], m, g)) as [blk [[al m'] g']].
    simpl in *. repeat split.
    + intros Hblk. rewrite Hblk in Hfind. symmetry in Hfind.
      apply find_some in Hfind.
      destruct Hfind as [Hrel _]. exact (Hnot agentId Hrel).
    + intros a Ha Hid. destruct (Hem a Ha) as [[]|[b' [Hb' Hid']]].
      apply (Hids agentId b' Hb'). congruence.
    + exact Hal.
  - unfold recordCost.
    apply (recordLoop_alerts_other cal now st
             (getRelevantBudgets m (CostRecord.agentId record))
             (Hids (CostRecord.agentId record)) (m, g)).
Qed.

Lemma project_and_organization_budgets_never_selected_witness :
  (forall a, ~ In projBudget (getRelevantBudgets (fst projectBudget) a))
  /\ (let '(r, m1, _) :=
        checkBudget utc (t0 + 2000)%Z (snd projectBudget) (fst projectBudget)
          ledger095 "agent-123" (10 # 100) in
      BudgetEnforcementResult.blockedBy r <> Some projBudget
      /\ (forall al, In al (BudgetEnforcementResult.alerts r) ->
                     CostAlert.budgetId al <> BudgetConfig.id projBudget)
      /\ getAlerts m1 (BudgetConfig.id projBudget)
         = getAlerts (fst projectBudget) (BudgetConfig.id projBudget))
  /\ getAlerts
       (fst (recordCost utc (t0 + 2000)%Z (snd projectBudget)
               (fst projectBudget) ledger095
               (mockRecord "r1" "agent-123" (95 # 100) (t0 + 1000)%Z)))
       (BudgetConfig.id projBudget)
     = getAlerts (fst projectBudget) (BudgetConfig.id projBudget).
Proof.
  apply (@project_and_organization_budgets_never_selected utc (t0 + 2000)%Z
           (snd projectBudget) (fst projectBudget) ledger095 "agent-123"
           (10 # 100) (mockRecord "r1" "agent-123" (95 # 100) (t0 + 1000)%Z)
           projBudget).
  - split.
    + simpl. constructor; [intros [] | constructor].
    + simpl. intros k b [H|[]]. inversion H. reflexivity.
  - simpl. left. reflexivity.
  - reflexivity.
Defined.

(** ** Scope isolation of the status *)

Lemma filter_filter_comm (A : Type) (p q : A -> bool) (l : list A) :
  filter p (filter q l) = filter q (filter p l).
Proof.
  induction l as [|x l IH]; simpl; auto.
  destruct (q x) eqn:Eq, (p x) eqn:Ep; simpl;
    rewrite ?Eq, ?Ep, IH; reflexivity.
Qed.

(** Storing a record of another agent, under a new id or over a record of
    another agent, does not change what agent [A] has in the ledger. *)
Lemma store_other_agent_keeps_view (st : InMemoryCostStorage.t)
    (r : CostRecord.t) (A : string) :
  CostRecord.agentId r <> A ->
  (forall r0, get st (CostRecord.id r) = Some r0 -> CostRecord.agentId r0 <> A) ->
  filter (fun x => String.eqb (CostRecord.agentId x) A) (JsMap.values (store st r))
  = filter (fun x => String.eqb (CostRecord.agentId x) A) (JsMap.values st).
Proof.
  intros Hr. unfold store, get.
  induction st as [|[k v] rest IH]; simpl; intros Hold.
  - apply String.eqb_neq in Hr. now rewrite Hr.
  - destruct (String.eqb (CostRecord.id r) k) eqn:E; simpl.
    + apply String.eqb_neq in Hr. rewrite Hr.
      assert (Hv : CostRecord.agentId v <> A) by (now apply Hold).
      apply String.eqb_neq in Hv. now rewrite Hv.
    + rewrite IH by assumption. reflexivity.
Qed.

(** C8.  For a budget scoped to agent [A], two ledgers that hold the same
    records of [A] (and differ, if at all, in records of other agents)
    give the same status, at the same instant. *)
Theorem agent_budget_ignores_other_agents
    (cal : Calendar.t) (now : Z) (m : BudgetManager.t)
    (st1 st2 : InMemoryCostStorage.t) (budgetId A : string)
    (b : BudgetConfig.t) :
  getBudget m budgetId = Some b ->
  BudgetConfig.scope b = Some (Scope.mk agent A) ->
  filter (fun r => String.eqb (CostRecord.agentId r) A) (JsMap.values st1)
  = filter (fun r => String.eqb (CostRecord.agentId r) A) (JsMap.values st2) ->
  getBudgetStatus cal now m st1 budgetId = getBudgetStatus cal now m st2 budgetId.
Proof.
  intros Hb Hsc Hsame. unfold getBudget in Hb.
  unfold getBudgetStatus. rewrite Hb, Hsc. simpl.
  unfold getByDateRange.
  rewrite !(filter_filter_comm
              (fun r => String.eqb (CostRecord.agentId r) A)).
  rewrite Hsame. reflexivity.
Qed.

(** Storing a record of another agent leaves the status of a budget
    scoped to [A] as it was. *)
Lemma getBudgetStatus_store_other_agent
    (cal : Calendar.t) (now : Z) (m : BudgetManager.t)
    (st : InMemoryCostStorage.t) (r : CostRecord.t) (budgetId A : string)
    (b : BudgetConfig.t) :
  getBudget m budgetId = Some b ->
  BudgetConfig.scope b = Some (Scope.mk agent A) ->
  CostRecord.agentId r <> A ->
  (forall r0, get st (CostRecord.id r) = Some r0 -> CostRecord.agentId r0 <> A) ->
  getBudgetStatus cal now m (store st r) budgetId
  = getBudgetStatus cal now m st budgetId.
Proof.
  intros Hb Hsc Hr Hold. unfold getBudget in Hb.
  unfold getBudgetStatus. rewrite Hb, Hsc. simpl.
  unfold getByDateRange.
  rewrite !(filter_filter_comm
              (fun x => String.eqb (CostRecord.agentId x) A)).
  now rewrite store_other_agent_keeps_view.
Qed.

Lemma agent_budget_ignores_other_agents_witness :
  getBudgetStatus utc (t0 + 2000)%Z (fst agentBudget) ledgerA "0"
  = getBudgetStatus utc (t0 + 2000)%Z (fst agentBudget) ledgerAB "0".
Proof.
  apply (@agent_budget_ignores_other_agents utc (t0 + 2000)%Z
           (fst agentBudget) ledgerA ledgerAB "0" "agent-1" agentScoped).
  - reflexivity.
  - reflexivity.
  - reflexivity.
Defined.

(** ** Ledger summaries *)


Lemma inDateRange_true (from to : Z) (r : CostRecord.t) :
  inDateRange from to r = true <->
  (from <= CostRecord.timestamp r <= to)%Z.
Proof.
  unfold inDateRange. rewrite andb_true_iff, !Z.leb_le. reflexivity.
Qed.

Lemma inDateRange_false (from to : Z) (r : CostRecord.t) :
  inDateRange from to r = false <->
  (CostRecord.timestamp r < from \/ to < CostRecord.timestamp r)%Z.
Proof.
  unfold inDateRange. rewrite andb_false_iff, !Z.leb_gt. reflexivity.
Qed.

(** Records stamped at [from] and at [to] are counted; one instant
    before [from] or after [to] they are not. *)
Example getSummary_bounds_inclusive :
  let ledger :=
    store (store (store (store newStorage
      (mockRecord "a" "agent-1" 1 (t0 - 1)%Z))
      (mockRecord "b" "agent-1" 2 t0))
      (mockRecord "c" "agent-1" 4 (t0 + 2000)%Z))
      (mockRecord "d" "agent-1" 8 (t0 + 2001)%Z) in
  let s := getSummary ledger t0 (t0 + 2000)%Z None in
  CostSummary.totalRequests s = 2%nat
  /\ CostSummary.totalCost s == 6
  /\ CostSummary.averageCostPerRequest s == 3.
Proof. repeat split. Qed.

(** ** Alerts of the projected check *)

(** C1 fails on the code.  Two successive calls of [checkBudget], with
    the same ledger and in the same daily window, leave two alerts for
    the one threshold 50 in the alert list of the same budget.  The
    retrospective path does not: [recordCost] called twice on a spending
    of 55% leaves a single alert for the threshold. *)
Theorem checkBudget_twice_duplicates_alert :
  BudgetManager.budgets (fst alertBudget)
  = [("0", BudgetConfig.mk "0" "Test Budget" 1 daily [50] alert None true t0 t0)]
  /\ fst (getPeriodDates utc (t0 + 2000)%Z daily)
     = fst (getPeriodDates utc (t0 + 3000)%Z daily)
  /\ map CostAlert.threshold (getAlerts (snd (fst checkedOnce)) "0") = [50]
  /\ map CostAlert.threshold (getAlerts (snd (fst checkedTwice)) "0") = [50; 50]
  /\ map CostAlert.budgetId (getAlerts (snd (fst checkedTwice)) "0") = ["0"; "0"]
  /\ map CostAlert.threshold (getAlerts (fst recordedOnce) "0") = [50]
  /\ map CostAlert.threshold (getAlerts (fst recordedTwice) "0") = [50].
Proof.
  repeat split; vm_compute; reflexivity.
Qed.

(* ================================================================== *)
(** * Further properties of the ledger *)

Lemma sumBy_acc (A : Type) (f : A -> Q) (l : list A) :
  forall a : Q, fold_left (fun sum r => sum + f r) l a == a + sumBy f l.
Proof.
  unfold sumBy.
  induction l as [|x l IH]; intros a; simpl.
  - ring.
  - rewrite (IH (a + f x)), (IH (0 + f x)). ring.
Qed.

Lemma sumBy_cons (A : Type) (f : A -> Q) (x : A) (l : list A) :
  sumBy f (x :: l) == f x + sumBy f l.
Proof.
  unfold sumBy at 1. simpl. rewrite sumBy_acc. ring.
Qed.

Lemma sumBy_app (A : Type) (f : A -> Q) (l l' : list A) :
  sumBy f (l ++ l') == sumBy f l + sumBy f l'.
Proof.
  induction l as [|x l IH]; simpl.
  - unfold sumBy at 2. simpl. ring.
  - rewrite !sumBy_cons, IH. ring.
Qed.

Lemma get_None_not_key (V : Type) (k : string) (m : JsMap.t V) :
  JsMap.get k m = None -> ~ In k (JsMap.keys m).
Proof.
  unfold JsMap.keys.
  induction m as [|[k' v'] rest IH]; simpl; auto.
  destruct (String.eqb k k') eqn:E; [discriminate|].
  intros H [Hk|Hin]; [|now apply IH].
  subst k'. now rewrite String.eqb_refl in E.
Qed.

Lemma set_absent (V : Type) (k : string) (v : V) (m : JsMap.t V) :
  JsMap.get k m = None -> JsMap.set k v m = m ++ [(k, v)].
Proof.
  induction m as [|[k' v'] rest IH]; simpl; auto.
  destruct (String.eqb k k'); [discriminate|].
  intros H. now rewrite IH.
Qed.

Lemma set_present (V : Type) (k : string) (v old : V) (m : JsMap.t V) :
  JsMap.get k m = Some old ->
  JsMap.keys (JsMap.set k v m) = JsMap.keys m
  /\ JsMap.size (JsMap.set k v m) = JsMap.size m.
Proof.
  unfold JsMap.keys, JsMap.size.
  induction m as [|[k' v'] rest IH]; simpl; [discriminate|].
  destruct (String.eqb k k') eqn:E; simpl.
  - apply String.eqb_eq in E. subst k'. auto.
  - intros H. destruct (IH H) as [Hk Hs]. now rewrite Hk, Hs.
Qed.

(** X1.  A stored record is read back under its id, and storing it leaves
    the record read under every other id as it was. *)
Theorem store_get_roundtrip
    (st : InMemoryCostStorage.t) (r : CostRecord.t) (id : string) :
  get (store st r) (CostRecord.id r) = Some r
  /\ (id <> CostRecord.id r -> get (store st r) id = get st id).
Proof.
  unfold get, store. split.
  - apply get_set_same.
  - intros Hne. now apply get_set_other.
Qed.

Lemma store_get_roundtrip_witness :
  get (store ledgerA (mockRecord "r9" "agent-9" 1 t0)) "r1" = get ledgerA "r1".
Proof.
  apply (proj2 (store_get_roundtrip ledgerA (mockRecord "r9" "agent-9" 1 t0) "r1")).
  discriminate.
Defined.

(** X2.  [store] is an upsert: under a new id the record is appended after
    all stored records; under a stored id it takes the place of the old
    record, the number of records and the order of ids staying the same. *)
Theorem store_upsert (st : InMemoryCostStorage.t) (r : CostRecord.t) :
  (get st (CostRecord.id r) = None ->
   JsMap.values (store st r) = JsMap.values st ++ [r]
   /\ size (store st r) = S (size st))
  /\ (forall old, get st (CostRecord.id r) = Some old ->
      size (store st r) = size st
      /\ JsMap.keys (store st r) = JsMap.keys st).
Proof.
  unfold get, store, size. split.
  - intros H. rewrite (set_absent _ _ _ H). unfold JsMap.values, JsMap.size.
    rewrite map_app, length_app. simpl. split; [reflexivity|].
    apply Nat.add_1_r.
  - intros old H. destruct (set_present _ r _ H). auto.
Qed.

Lemma store_upsert_witness :
  size (store ledgerA (mockRecord "r1" "agent-1" 7 t0)) = size ledgerA
  /\ JsMap.keys (store ledgerA (mockRecord "r1" "agent-1" 7 t0))
     = JsMap.keys ledgerA.
Proof.
  apply (proj2 (store_upsert ledgerA (mockRecord "r1" "agent-1" 7 t0))
           (mockRecord "r1" "agent-1" 3 (t0 + 1000)%Z)).
  reflexivity.
Defined.

Lemma filter_length_split (A : Type) (p : A -> bool) (l : list A) :
  (List.length (filter p l)
   + List.length (filter (fun x => negb (p x)) l))%nat = List.length l.
Proof.
  induction l as [|x l IH]; simpl; auto.
  destruct (p x); simpl; lia.
Qed.

Lemma filter_all (A : Type) (p : A -> bool) (l : list A) :
  (forall x, In x l -> p x = true) -> filter p l = l.
Proof.
  induction l as [|x l IH]; simpl; intros H; auto.
  rewrite (H x (or_introl eq_refl)). f_equal. apply IH. auto.
Qed.

Lemma filter_none (A : Type) (p : A -> bool) (l : list A) :
  (forall x, In x l -> p x = false) -> filter p l = [].
Proof.
  induction l as [|x l IH]; simpl; intros H; auto.
  rewrite (H x (or_introl eq_refl)). apply IH. auto.
Qed.

(** X3.  [deleteOlderThan] removes exactly the records stamped strictly
    before the date: the returned count and the records left add up to
    the former size, every record left is stamped at or after the date,
    every such record is still there, and a second call deletes nothing. *)
Theorem deleteOlderThan_partition
    (st : InMemoryCostStorage.t) (beforeDate : Z) :
  let (n, st') := deleteOlderThan st beforeDate in
  (n + size st')%nat = size st
  /\ Forall (fun r => (beforeDate <= CostRecord.timestamp r)%Z) (JsMap.values st')
  /\ (forall k r, In (k, r) st -> (beforeDate <= CostRecord.timestamp r)%Z ->
                  In (k, r) st')
  /\ (forall k r, In (k, r) st' -> In (k, r) st)
  /\ deleteOlderThan st' beforeDate = (0%nat, st').
Proof.
  unfold deleteOlderThan, size, JsMap.size.
  set (old := fun kr : string * CostRecord.t =>
                (CostRecord.timestamp (snd kr) <? beforeDate)%Z).
  repeat split.
  - apply filter_length_split.
  - apply Forall_forall. intros r Hr. unfold JsMap.values in Hr.
    apply in_map_iff in Hr. destruct Hr as [[k r'] [Hk Hin]]. simpl in Hk.
    subst r'. apply filter_In in Hin. destruct Hin as [_ Hin].
    unfold old in Hin. simpl in Hin.
    apply negb_true_iff, Z.ltb_ge in Hin. exact Hin.
  - intros k r Hin Hts. apply filter_In. split; auto.
    unfold old. simpl. apply negb_true_iff, Z.ltb_ge. exact Hts.
  - intros k r Hin. apply filter_In in Hin. tauto.
  - f_equal.
    + rewrite filter_none; auto.
      intros x Hx. apply filter_In in Hx. destruct Hx as [_ Hx].
      now apply negb_true_iff in Hx.
    + apply filter_all. intros x Hx. apply filter_In in Hx. tauto.
Qed.

Lemma deleteOlderThan_partition_witness :
  In ("r1", mockRecord "r1" "agent-1" 3 (t0 + 1000)%Z)
     (snd (deleteOlderThan ledgerOld t0))
  /\ ~ In ("r0", mockRecord "r0" "agent-2" 5 (t0 - 5000)%Z)
          (snd (deleteOlderThan ledgerOld t0)).
Proof.
  pose proof (deleteOlderThan_partition ledgerOld t0) as H.
  destruct (deleteOlderThan ledgerOld t0) as [n st'] eqn:E.
  destruct H as [_ [Hfa [Hkeep _]]]. simpl. split.
  - apply Hkeep.
    + simpl. right. left. reflexivity.
    + vm_compute. discriminate.
  - intros Hin. rewrite Forall_forall in Hfa.
    assert (Hts : (t0 <= CostRecord.timestamp
                            (mockRecord "r0" "agent-2" 5 (t0 - 5000)%Z))%Z).
    { apply Hfa. unfold JsMap.values. apply in_map_iff.
      exists ("r0", mockRecord "r0" "agent-2" 5 (t0 - 5000)%Z). auto. }
    vm_compute in Hts. apply Hts. reflexivity.
Defined.

Lemma filter_andb (A : Type) (p q : A -> bool) (l : list A) :
  filter (fun x => p x && q x) l = filter q (filter p l).
Proof.
  induction l as [|x l IH]; simpl; auto.
  destruct (p x); simpl; [|exact IH].
  destruct (q x); now rewrite IH.
Qed.

Lemma getByAgentId_bounded (st : InMemoryCostStorage.t) (a : string)
    (from to : Z) :
  getByAgentId st a (Some from) (Some to)
  = filter (fun r => String.eqb (CostRecord.agentId r) a)
           (getByDateRange st from to).
Proof.
  unfold getByAgentId, getByDateRange.
  rewrite (filter_filter_comm
             (fun r => String.eqb (CostRecord.agentId r) a)
             (inDateRange from to)).
  unfold inDateRange. now rewrite filter_andb.
Qed.

(** X4.  The summary restricted to an agent and the agent query bounded by
    the same dates select the same records, in the same order: the
    summary's count and total are those of [getByAgentId]; an empty agent
    id restricts nothing. *)
Theorem summary_by_agent_matches_agent_query
    (st : InMemoryCostStorage.t) (from to : Z) (a : string) :
  a <> "" ->
  CostSummary.totalRequests (getSummary st from to (Some a))
  = List.length (getByAgentId st a (Some from) (Some to))
  /\ CostSummary.totalCost (getSummary st from to (Some a))
     = sumBy CostRecord.actualCost (getByAgentId st a (Some from) (Some to))
  /\ getSummary st from to (Some "") = getSummary st from to None.
Proof.
  intros Ha. rewrite getByAgentId_bounded.
  unfold getSummary.
  destruct a as [|c a']; [contradiction|]. simpl. auto.
Qed.

Lemma summary_by_agent_matches_agent_query_witness :
  CostSummary.totalRequests
    (getSummary ledgerAB t0 (t0 + 2000)%Z (Some "agent-1"))
  = List.length (getByAgentId ledgerAB "agent-1" (Some t0) (Some (t0 + 2000)%Z)).
Proof.
  apply (summary_by_agent_matches_agent_query ledgerAB t0 (t0 + 2000)%Z
           (a := "agent-1")).
  discriminate.
Defined.


Lemma orElse_zero (o : option Q) :
  orElse o 0 == match o with Some q => q | None => 0 end.
Proof.
  destruct o as [q|]; simpl; [|reflexivity].
  destruct (Qeq_bool q 0) eqn:E; [|reflexivity].
  apply Qeq_bool_iff in E. now rewrite E.
Qed.





(** X6.  A range whose end is before its start selects nothing: the
    summary counts no request, totals 0 with an average of 0, has the
    three tables (by model, by provider, by agent) empty and the token
    totals at 0. *)
Theorem summary_of_inverted_range
    (st : InMemoryCostStorage.t) (from to : Z) (agentId : option string) :
  (to < from)%Z ->
  getByDateRange st from to = []
  /\ CostSummary.totalRequests (getSummary st from to agentId) = 0%nat
  /\ CostSummary.totalCost (getSummary st from to agentId) = 0
  /\ CostSummary.averageCostPerRequest (getSummary st from to agentId) = 0
  /\ CostSummary.byModel (getSummary st from to agentId) = []
  /\ CostSummary.byProvider (getSummary st from to agentId) = []
  /\ CostSummary.byAgent (getSummary st from to agentId) = []
  /\ CostSummary.totalTokens (getSummary st from to agentId)
     = TokenTotals.mk 0 0 0.
Proof.
  intros Hlt.
  assert (Hnil : getByDateRange st from to = []).
  { unfold getByDateRange. apply filter_none. intros r _.
    apply inDateRange_false. lia. }
  split; [exact Hnil|].
  unfold getSummary. rewrite Hnil.
  destruct (truthyString agentId); simpl; repeat split.
Qed.

Lemma summary_of_inverted_range_witness :
  getByDateRange ledgerAB (t0 + 2000)%Z t0 = []
  /\ CostSummary.totalRequests (getSummary ledgerAB (t0 + 2000)%Z t0 None) = 0%nat
  /\ CostSummary.totalCost (getSummary ledgerAB (t0 + 2000)%Z t0 None) = 0
  /\ CostSummary.averageCostPerRequest
       (getSummary ledgerAB (t0 + 2000)%Z t0 None) = 0
  /\ CostSummary.byModel (getSummary ledgerAB (t0 + 2000)%Z t0 None) = []
  /\ CostSummary.byProvider (getSummary ledgerAB (t0 + 2000)%Z t0 None) = []
  /\ CostSummary.byAgent (getSummary ledgerAB (t0 + 2000)%Z t0 None) = []
  /\ CostSummary.totalTokens (getSummary ledgerAB (t0 + 2000)%Z t0 None)
     = TokenTotals.mk 0 0 0.
Proof.
  apply (summary_of_inverted_range ledgerAB (from := (t0 + 2000)%Z) (to := t0) None).
  reflexivity.
Defined.

(* ================================================================== *)
(** * Further properties of the price lookup *)

Lemma distinct_NoDup (l : list string) : distinct l = true -> NoDup l.
Proof.
  induction l as [|k rest IH]; simpl; intros H; [constructor|].
  apply andb_true_iff in H. destruct H as [Hk Hrest].
  constructor; auto.
  intros Hin. apply negb_true_iff in Hk.
  assert (existsb (String.eqb k) rest = true); [|congruence].
  apply existsb_exists. exists k. split; auto. apply String.eqb_refl.
Qed.

Lemma MODEL_PRICING_normal : catalogNormal MODEL_PRICING.
Proof.
  split.
  - apply distinct_NoDup. reflexivity.
  - assert (H : forallb (fun k => String.eqb (toLowerCase k) k
                                  && String.eqb (trim k) k)
                        (JsMap.keys MODEL_PRICING) = true) by reflexivity.
    rewrite forallb_forall in H. intros k Hk.
    specialize (H k Hk). apply andb_true_iff in H.
    destruct H as [H1 H2]. split; now apply String.eqb_eq.
Qed.

Lemma In_get (V : Type) (k : string) (v : V) (m : JsMap.t V) :
  NoDup (JsMap.keys m) -> In (k, v) m -> JsMap.get k m = Some v.
Proof.
  intros Hnd Hin.
  destruct (JsMap.get k m) as [v'|] eqn:E.
  - f_equal. exact (@NoDup_keys_functional _ _ _ _ _ Hnd (get_In _ _ E) Hin).
  - exfalso. apply (get_None_not_key _ _ E).
    unfold JsMap.keys. apply in_map_iff. now exists (k, v).
Qed.

Lemma not_key_get_None (V : Type) (k : string) (m : JsMap.t V) :
  ~ In k (JsMap.keys m) -> JsMap.get k m = None.
Proof.
  intros Hk. destruct (JsMap.get k m) as [v|] eqn:E; auto.
  exfalso. apply Hk. unfold JsMap.keys. apply in_map_iff.
  exists (k, v). split; auto. now apply get_In.
Qed.

Lemma find_all_false (A : Type) (f : A -> bool) (l : list A) :
  (forall x, In x l -> f x = false) -> find f l = None.
Proof.
  induction l as [|x l IH]; simpl; intros H; auto.
  rewrite (H x (or_introl eq_refl)). apply IH. auto.
Qed.

Lemma in_keys (V : Type) (k : string) (v : V) (m : JsMap.t V) :
  In (k, v) m -> In k (JsMap.keys m).
Proof.
  intros H. unfold JsMap.keys. apply in_map_iff. now exists (k, v).
Qed.

(** X7.  On a catalog with distinct, lower-case, blank-free keys the
    lookup of a name that is not inherited from [Object.prototype]
    ignores case, surrounding blanks and the provider argument as soon as
    the normalised name is a key: it returns the entry of that key. *)
Theorem lookup_ignores_case_blanks_and_provider
    (catalog : JsMap.t ModelPricing.t) (model k : string)
    (provider : option ModelProvider) (p : ModelPricing.t) :
  ownName model = true ->
  catalogNormal catalog ->
  In (k, p) catalog ->
  trim (toLowerCase model) = k ->
  lookupPricing catalog model provider = Some p.
Proof.
  intros _ [Hnd Hnorm] Hin Hk. unfold lookupPricing.
  destruct (Hnorm _ (in_keys _ _ _ Hin)) as [Hlow _].
  destruct (JsMap.get model catalog) as [q|] eqn:E.
  - pose proof (get_In _ _ E) as Hq.
    destruct (Hnorm _ (in_keys _ _ _ Hq)) as [Hm1 Hm2].
    assert (model = k) by congruence. subst model.
    f_equal. exact (@NoDup_keys_functional _ _ _ _ _ Hnd Hq Hin).
  - rewrite Hk.
    destruct (find (fun kp => String.eqb (toLowerCase (fst kp)) k) catalog)
      as [[k' p']|] eqn:F.
    + apply find_some in F. destruct F as [Hin' Heq]. simpl in Heq.
      apply String.eqb_eq in Heq.
      destruct (Hnorm _ (in_keys _ _ _ Hin')) as [Hlow' _].
      assert (Hk' : k' = k) by congruence.
      subst k'. f_equal. exact (@NoDup_keys_functional _ _ _ _ _ Hnd Hin' Hin).
    + exfalso.
      pose proof (find_none _ _ F (k, p) Hin) as Hf. simpl in Hf.
      apply String.eqb_neq in Hf. now apply Hf.
Qed.

Lemma lookup_ignores_case_blanks_and_provider_witness :
  getModelPricing "  Claude-3-Opus-20240229 " (Some openai)
  = Some (ModelPricing.mk "claude-3-opus-20240229" anthropic
            (15 # 1000) (75 # 1000) None None "2026-01-31").
Proof.
  apply (@lookup_ignores_case_blanks_and_provider MODEL_PRICING
           "  Claude-3-Opus-20240229 " "claude-3-opus-20240229" (Some openai)).
  - reflexivity.
  - exact MODEL_PRICING_normal.
  - unfold MODEL_PRICING. simpl. tauto.
  - reflexivity.
Defined.

Lemma lookupPricing_stages (catalog : JsMap.t ModelPricing.t)
    (model : string) (provider : option ModelProvider) (p : ModelPricing.t) :
  lookupPricing catalog model provider = Some p ->
  JsMap.get model catalog = Some p
  \/ (JsMap.get model catalog = None
      /\ exists k, In (k, p) catalog
                   /\ toLowerCase k = trim (toLowerCase model))
  \/ (JsMap.get model catalog = None
      /\ find (fun kp => String.eqb (toLowerCase (fst kp))
                                    (trim (toLowerCase model))) catalog = None
      /\ exists k,
           In (k, p) catalog
           /\ (startsWith (trim (toLowerCase model)) (toLowerCase k)
               || startsWith (toLowerCase k) (trim (toLowerCase model))) = true
           /\ providerAccepts provider p = true).
Proof.
  unfold lookupPricing.
  destruct (JsMap.get model catalog) as [q|] eqn:E.
  - intros H. left. exact H.
  - destruct (find (fun kp => String.eqb (toLowerCase (fst kp))
                                         (trim (toLowerCase model))) catalog)
      as [[k q]|] eqn:F.
    + intros H. inversion H; subst. right. left. split; auto.
      apply find_some in F. destruct F as [Hin Heq]. simpl in Heq.
      exists k. split; auto. now apply String.eqb_eq.
    + match goal with
      | |- context [find ?f catalog] =>
          destruct (find f catalog) as [[k q]|] eqn:G
      end.
      * intros H. inversion H; subst. right. right.
        apply find_some in G. destruct G as [Hin Hacc]. simpl in Hacc.
        apply andb_true_iff in Hacc. destruct Hacc as [Hpre Hacc].
        repeat split; auto. exists k. auto.
      * intros H. discriminate H.
Qed.

(** X8.  For a name that is not inherited from [Object.prototype],
    whatever the lookup returns is an entry of the catalog, and the
    provider argument can only narrow the lookup: a name that resolves
    with a provider resolves without one.  When the name is no key, even
    after normalisation, the entry returned has the requested provider. *)
Theorem lookup_sound_and_provider_narrows
    (catalog : JsMap.t ModelPricing.t) (model : string)
    (provider : option ModelProvider) (p : ModelPricing.t) :
  ownName model = true ->
  lookupPricing catalog model provider = Some p ->
  In p (JsMap.values catalog)
  /\ lookupPricing catalog model None <> None
  /\ ((forall k, In k (JsMap.keys catalog) ->
                 k <> model /\ toLowerCase k <> trim (toLowerCase model)) ->
      forall pr, provider = Some pr -> ModelPricing.provider p = pr).
Proof.
  intros _ H. pose proof (lookupPricing_stages _ _ _ H) as Hst.
  assert (Hval : forall k, In (k, p) catalog -> In p (JsMap.values catalog)).
  { intros k Hin. unfold JsMap.values. apply in_map_iff. now exists (k, p). }
  repeat split.
  - destruct Hst as [Hg|[[_ [k [Hin _]]]|[_ [_ [k [Hin _]]]]]]; eauto.
    apply get_In in Hg. eauto.
  - unfold lookupPricing.
    destruct Hst as [Hg|[[Hg [k [Hin Hk]]]|[Hg [Hf [k [Hin [Hpre _]]]]]]];
      rewrite Hg; [discriminate| |].
    + destruct (find (fun kp => String.eqb (toLowerCase (fst kp))
                                           (trim (toLowerCase model))) catalog)
        as [[k' q']|] eqn:F; [discriminate|].
      pose proof (find_none _ _ F (k, p) Hin) as Hno. simpl in Hno.
      apply String.eqb_neq in Hno. contradiction.
    + rewrite Hf.
      match goal with
      | |- context [find ?f catalog] =>
          destruct (find f catalog) as [[k' q']|] eqn:G; [discriminate|]
      end.
      pose proof (find_none _ _ G (k, p) Hin) as Hno.
      cbn [fst snd providerAccepts] in Hno.
      rewrite Hpre in Hno. discriminate Hno.
  - intros Hnokey pr Hpr. subst provider.
    destruct Hst as [Hg|[[_ [k [Hin Hk]]]|[_ [_ [k [Hin [_ Hacc]]]]]]].
    + apply get_In in Hg. destruct (Hnokey _ (in_keys _ _ _ Hg)). congruence.
    + destruct (Hnokey _ (in_keys _ _ _ Hin)). congruence.
    + simpl in Hacc.
      destruct (ModelPricing.provider p), pr; try discriminate; reflexivity.
Qed.

Lemma lookup_sound_and_provider_narrows_witness :
  In (ModelPricing.mk "command" cohere (1 # 1000) (2 # 1000) None None
        "2026-01-31") (JsMap.values MODEL_PRICING)
  /\ lookupPricing MODEL_PRICING "command-r" None <> None.
Proof.
  pose proof (@lookup_sound_and_provider_narrows MODEL_PRICING "command-r"
                (Some cohere)
                (ModelPricing.mk "command" cohere (1 # 1000) (2 # 1000)
                   None None "2026-01-31") eq_refl eq_refl) as H.
  split; [exact (proj1 H) | exact (proj1 (proj2 H))].
Defined.

Lemma prefix_empty (s : string) : String.prefix "" s = true.
Proof. destruct s; reflexivity. Qed.

(** X9.  A model name that is empty or blank is not refused: it matches
    every key as a prefix, so the lookup answers the first catalog entry,
    or with a provider the first entry of that provider, and nothing when
    the provider has no entry. *)
Theorem blank_model_resolves_to_first_entry
    (model : string) (provider : option ModelProvider) :
  trim (toLowerCase model) = "" ->
  getModelPricing model provider
  = match provider with
    | None => Some gpt4Pricing
    | Some pr => hd_error (getProviderModels pr)
    end.
Proof.
  intros Hblank. unfold getModelPricing, lookupPricing.
  destruct MODEL_PRICING_normal as [Hnd Hnorm].
  assert (Hempty : ~ In "" (JsMap.keys MODEL_PRICING)).
  { intros Hin. vm_compute in Hin.
    repeat (destruct Hin as [Hin|Hin]; [discriminate|]). exact Hin. }
  assert (Hnokey : JsMap.get model MODEL_PRICING = None).
  { apply not_key_get_None. intros Hin.
    destruct (Hnorm _ Hin) as [H1 H2]. apply Hempty. congruence. }
  rewrite Hnokey, Hblank.
  rewrite (find_all_false
             (fun kp : string * ModelPricing.t =>
                String.eqb (toLowerCase (fst kp)) "") MODEL_PRICING).
  - rewrite (find_pointwise
               (fun kp : string * ModelPricing.t =>
                  (startsWith "" (toLowerCase (fst kp))
                   || startsWith (toLowerCase (fst kp)) "")
                  && providerAccepts provider (snd kp))
               (fun kp => providerAccepts provider (snd kp))).
    + destruct provider as [[]|]; reflexivity.
    + intros kp. unfold startsWith at 2. rewrite prefix_empty.
      now rewrite orb_true_r.
  - intros [k p] Hin. simpl. apply String.eqb_neq. intros Hk.
    destruct (Hnorm _ (in_keys _ _ _ Hin)) as [H1 _].
    apply Hempty. rewrite <- Hk, H1. exact (in_keys _ _ _ Hin).
Qed.

Lemma blank_model_resolves_to_first_entry_witness :
  getModelPricing "   " (Some anthropic)
  = hd_error (getProviderModels anthropic).
Proof.
  apply (@blank_model_resolves_to_first_entry "   " (Some anthropic)).
  reflexivity.
Defined.

(** X10.  The prefix stage returns the first matching entry in catalog
    order, not the longest match: every name of ASCII characters that
    starts with "gpt-4" and is no key, even after normalisation, is
    priced as "gpt-4" (with no provider or with openai), also when it
    starts with "gpt-4-turbo". *)
Theorem versioned_gpt4_names_price_as_gpt4
    (model : string) (provider : option ModelProvider) :
  isAscii model = true ->
  startsWith (trim (toLowerCase model)) "gpt-4" = true ->
  ~ In model (JsMap.keys MODEL_PRICING) ->
  ~ In (trim (toLowerCase model)) (JsMap.keys MODEL_PRICING) ->
  providerAccepts provider gpt4Pricing = true ->
  getModelPricing model provider = Some gpt4Pricing.
Proof.
  intros _ Hpre Hk Hn Hacc. unfold getModelPricing, lookupPricing.
  destruct MODEL_PRICING_normal as [Hnd Hnorm].
  rewrite (not_key_get_None _ _ Hk).
  rewrite (find_all_false
             (fun kp : string * ModelPricing.t =>
                String.eqb (toLowerCase (fst kp))
                           (trim (toLowerCase model))) MODEL_PRICING).
  - unfold MODEL_PRICING. cbn [find fst snd].
    change (toLowerCase "gpt-4") with "gpt-4".
    rewrite Hpre. fold gpt4Pricing. simpl orb. cbn [andb].
    now rewrite Hacc.
  - intros [k p] Hin. simpl. apply String.eqb_neq. intros Heq.
    destruct (Hnorm _ (in_keys _ _ _ Hin)) as [H1 _].
    apply Hn. rewrite <- Heq, H1. exact (in_keys _ _ _ Hin).
Qed.

Lemma versioned_gpt4_names_price_as_gpt4_witness :
  getModelPricing "gpt-4-turbo-2024-04-09" None = Some gpt4Pricing.
Proof.
  apply (@versioned_gpt4_names_price_as_gpt4 "gpt-4-turbo-2024-04-09" None).
  - reflexivity.
  - reflexivity.
  - intros Hin. vm_compute in Hin.
    repeat (destruct Hin as [Hin|Hin]; [discriminate|]). exact Hin.
  - intros Hin. vm_compute in Hin.
    repeat (destruct Hin as [Hin|Hin]; [discriminate|]). exact Hin.
  - reflexivity.
Defined.

(* ================================================================== *)
(** * Further properties of the cost tracker *)

Lemma get_delete_same (V : Type) (k : string) (m : JsMap.t V) :
  NoDup (JsMap.keys m) -> JsMap.get k (JsMap.delete k m) = None.
Proof.
  unfold JsMap.keys.
  induction m as [|[k' v'] rest IH]; simpl; intros Hnd; auto.
  inversion Hnd as [|? ? Hnotin Hrest]; subst.
  destruct (String.eqb k k') eqn:E; simpl.
  - apply String.eqb_eq in E. subst k'. now apply not_key_get_None.
  - rewrite E. auto.
Qed.

Lemma get_delete_other (V : Type) (k k0 : string) (m : JsMap.t V) :
  k0 <> k -> JsMap.get k0 (JsMap.delete k m) = JsMap.get k0 m.
Proof.
  intros Hne. induction m as [|[k' v'] rest IH]; simpl; auto.
  destruct (String.eqb k k') eqn:E; simpl.
  - apply String.eqb_eq in E. subst k'.
    destruct (String.eqb k0 k) eqn:E0; auto.
    apply String.eqb_eq in E0. contradiction.
  - now rewrite IH.
Qed.

Lemma customPricing_add_NoDup (tr : CostTracker.t) (nowIso model : string)
    (pricing : PartialPricing.t) :
  NoDup (JsMap.keys (CostTracker.customPricing tr)) ->
  NoDup (JsMap.keys
           (CostTracker.customPricing (addCustomPricing tr nowIso model pricing))).
Proof.
  intros H. unfold addCustomPricing.
  destruct (getModelPricing model None); simpl; now apply keys_set_NoDup.
Qed.

Lemma loadCustomPricing_NoDup (entries : list (string * PartialPricing.t)) :
  forall acc, NoDup (JsMap.keys acc) ->
              NoDup (JsMap.keys (loadCustomPricing entries acc)).
Proof.
  induction entries as [|[model pricing] rest IH]; intros acc H; simpl; auto.
  destruct (getModelPricing model None); apply IH; auto.
  now apply keys_set_NoDup.
Qed.

Lemma customPricing_new_NoDup (config : PartialConfig.t) :
  NoDup (JsMap.keys (CostTracker.customPricing (newCostTracker config))).
Proof.
  unfold newCostTracker. simpl.
  destruct (PartialConfig.customPricing config).
  - apply loadCustomPricing_NoDup. constructor.
  - constructor.
Qed.

(** X11.  A custom price entry shadows the catalog for its model whatever
    provider is passed, carries the patched input and output prices,
    leaves every other model's pricing alone, and removing it brings the
    model back to the catalog's answer. *)
Theorem custom_pricing_roundtrip
    (tr : CostTracker.t) (nowIso model other : string)
    (patch : PartialPricing.t) (provider : option ModelProvider) :
  NoDup (JsMap.keys (CostTracker.customPricing tr)) ->
  let tr' := addCustomPricing tr nowIso model patch in
  (exists p,
      resolvePricing tr' model provider = Some p
      /\ getPricing tr' model = Some p
      /\ (forall c, PartialPricing.inputCostPer1K patch = Some c ->
                    ModelPricing.inputCostPer1K p == c)
      /\ (forall c, PartialPricing.outputCostPer1K patch = Some c ->
                    ModelPricing.outputCostPer1K p == c))
  /\ (other <> model ->
      resolvePricing tr' other provider = resolvePricing tr other provider)
  /\ getPricing (removeCustomPricing tr' model) model
     = getModelPricing model None.
Proof.
  intros Hnd tr'.
  assert (Hnd' : NoDup (JsMap.keys (CostTracker.customPricing tr')))
    by (now apply customPricing_add_NoDup).
  split; [|split].
  - unfold tr', addCustomPricing, getPricing, resolvePricing.
    destruct (getModelPricing model None) as [base|]; simpl;
      rewrite get_set_same; eexists; repeat split; simpl.
    + intros c Hc. rewrite Hc. simpl. reflexivity.
    + intros c Hc. rewrite Hc. simpl. reflexivity.
    + intros c Hc. rewrite Hc. apply orElse_zero.
    + intros c Hc. rewrite Hc. apply orElse_zero.
  - intros Hne. unfold tr', addCustomPricing, resolvePricing.
    destruct (getModelPricing model None); simpl;
      now rewrite get_set_other.
  - unfold getPricing, resolvePricing, removeCustomPricing. simpl.
    now rewrite get_delete_same.
Qed.

Lemma custom_pricing_roundtrip_witness :
  getPricing
    (removeCustomPricing
       (addCustomPricing defaultTracker "2026-11-02T00:00:00.000Z" "gpt-4"
          rebatePatch) "gpt-4") "gpt-4"
  = getModelPricing "gpt-4" None.
Proof.
  apply (proj2 (proj2 (@custom_pricing_roundtrip defaultTracker
                         "2026-11-02T00:00:00.000Z" "gpt-4" "gpt-4-32k"
                         rebatePatch None (customPricing_new_NoDup noPatch)))).
Defined.

Lemma loadCustomPricing_keys (entries : list (string * PartialPricing.t)) :
  forall acc k,
    In k (JsMap.keys (loadCustomPricing entries acc)) ->
    In k (JsMap.keys acc)
    \/ (In k (map fst entries) /\ getModelPricing k None <> None).
Proof.
  induction entries as [|[model pricing] rest IH]; intros acc k; simpl; auto.
  destruct (getModelPricing model None) as [base|] eqn:E; intros Hin.
  - apply IH in Hin. destruct Hin as [Hin|[Hin Hres]]; [|tauto].
    apply keys_set_in in Hin. destruct Hin as [->|Hin]; auto.
    right. split; auto. congruence.
  - apply IH in Hin. tauto.
Qed.

(** X12.  The constructor keeps a configured override only for a model
    the catalog resolves: for any other model (not a name inherited from
    [Object.prototype]) the new tracker has no pricing, whereas
    [addCustomPricing] on the same tracker creates one. *)
Theorem constructor_drops_unresolved_overrides
    (config : PartialConfig.t) (nowIso model : string)
    (patch : PartialPricing.t) :
  ownName model = true ->
  getModelPricing model None = None ->
  getPricing (newCostTracker config) model = None
  /\ getPricing (addCustomPricing (newCostTracker config) nowIso model patch)
                model <> None.
Proof.
  intros _ Hun. split.
  - unfold getPricing, resolvePricing. rewrite Hun.
    rewrite not_key_get_None; auto.
    unfold newCostTracker. simpl.
    destruct (PartialConfig.customPricing config) as [entries|]; simpl; auto.
    intros Hin. apply loadCustomPricing_keys in Hin.
    destruct Hin as [[]|[_ Hres]]. contradiction.
  - unfold getPricing, resolvePricing, addCustomPricing. rewrite Hun. simpl.
    rewrite get_set_same. discriminate.
Qed.

Lemma constructor_drops_unresolved_overrides_witness :
  getPricing
    (newCostTracker
       (PartialConfig.mk None None (Some [("my-vision", rebatePatch)])
          None None None)) "my-vision" = None.
Proof.
  apply (proj1 (@constructor_drops_unresolved_overrides
                  (PartialConfig.mk None None (Some [("my-vision", rebatePatch)])
                     None None None)
                  "2026-11-02T00:00:00.000Z" "my-vision" rebatePatch
                  eq_refl eq_refl)).
Defined.

Lemma truthy_false_auxCost (units price : option Q) :
  truthy units = false -> auxCost units price = 0.
Proof.
  intros H. unfold auxCost.
  destruct units as [u|]; [|reflexivity].
  destruct price as [p|]; [|reflexivity].
  now rewrite H.
Qed.

(** X13.  An empty request costs nothing: with zero input and output
    tokens and no image or audio quantity (absent or zero), the estimate
    is 0 for every tracker, provider and model name not inherited from
    [Object.prototype], priced or not. *)
Theorem zero_usage_costs_zero
    (tr : CostTracker.t) (now : Z) (model : string) (usage : TokenUsage.t)
    (provider : option ModelProvider) :
  ownName model = true ->
  TokenUsage.inputTokens usage == 0 ->
  TokenUsage.outputTokens usage == 0 ->
  truthy (TokenUsage.images usage) = false ->
  truthy (TokenUsage.audioDuration usage) = false ->
  CostEstimate.estimatedCost (estimateCost tr now model usage provider) == 0
  /\ breakdownSum
       (CostEstimate.breakdown (estimateCost tr now model usage provider)) == 0.
Proof.
  intros _ Hin Hout Himg Haud. unfold estimateCost.
  destruct (negb (CostTrackerConfig.enabled (CostTracker.config tr)));
    [split; reflexivity|].
  destruct (resolvePricing tr model provider) as [pricing|];
    [|split; reflexivity].
  unfold breakdownSum. simpl.
  rewrite (@truthy_false_auxCost _ _ Himg), (@truthy_false_auxCost _ _ Haud).
  simpl. rewrite Hin, Hout. split.
  - unfold Qdiv. ring.
  - unfold optField. simpl. unfold Qdiv. ring.
Qed.

Lemma zero_usage_costs_zero_witness :
  CostEstimate.estimatedCost
    (estimateCost defaultTracker t0 "gpt-4"
       (TokenUsage.mk 0 0 0 None (Some 0)) None) == 0.
Proof.
  apply (@zero_usage_costs_zero defaultTracker t0 "gpt-4"
           (TokenUsage.mk 0 0 0 None (Some 0)) None);
    reflexivity.
Defined.

Lemma nonnegOptb_sound (o : option Q) : nonnegOptb o = true -> nonnegOpt o.
Proof.
  destruct o as [q|]; simpl; auto. apply Qle_bool_iff.
Qed.

Lemma nonnegPricingb_sound (p : ModelPricing.t) :
  nonnegPricingb p = true -> nonnegPricing p.
Proof.
  unfold nonnegPricingb, nonnegPricing. rewrite !andb_true_iff.
  intros [[[H1 H2] H3] H4].
  repeat split; auto using nonnegOptb_sound; now apply Qle_bool_iff.
Qed.

Lemma MODEL_PRICING_nonneg (p : ModelPricing.t) :
  In p (JsMap.values MODEL_PRICING) -> nonnegPricing p.
Proof.
  assert (H : forallb nonnegPricingb (JsMap.values MODEL_PRICING) = true)
    by reflexivity.
  rewrite forallb_forall in H. intros Hin.
  now apply nonnegPricingb_sound, H.
Qed.

Lemma auxCost_nonneg (units price : option Q) :
  nonnegOpt units -> nonnegOpt price -> 0 <= auxCost units price.
Proof.
  unfold auxCost. destruct units as [u|]; [|intros; apply Qle_refl].
  destruct price as [p|]; [|intros; apply Qle_refl].
  simpl. intros Hu Hp.
  destruct (negb (Qeq_bool u 0) && negb (Qeq_bool p 0));
    [now apply Qmult_le_0_compat | apply Qle_refl].
Qed.

Lemma Qplus_nonneg (a b : Q) : 0 <= a -> 0 <= b -> 0 <= a + b.
Proof.
  intros Ha Hb. change (0 + 0 <= a + b). now apply Qplus_le_compat.
Qed.

Lemma per1K_nonneg (tokens price : Q) :
  0 <= tokens -> 0 <= price -> 0 <= (tokens / 1000) * price.
Proof.
  intros Ht Hp. apply Qmult_le_0_compat; auto.
  unfold Qdiv. apply Qmult_le_0_compat; auto. discriminate.
Qed.

Lemma lookupPricing_sound (catalog : JsMap.t ModelPricing.t)
    (model : string) (provider : option ModelProvider) (p : ModelPricing.t) :
  lookupPricing catalog model provider = Some p ->
  In p (JsMap.values catalog).
Proof.
  intros H.
  assert (Hval : forall k, In (k, p) catalog -> In p (JsMap.values catalog)).
  { intros k Hin. unfold JsMap.values. apply in_map_iff. now exists (k, p). }
  destruct (lookupPricing_stages _ _ _ H)
    as [Hg|[[_ [k [Hin _]]]|[_ [_ [k [Hin _]]]]]]; eauto.
  apply get_In in Hg. eauto.
Qed.

(** X14.  Costs are never negative when usage and prices are not: if the
    custom entries of the tracker carry no negative price (the catalog
    carries none), every estimate for a non-negative usage and a model
    name not inherited from [Object.prototype] is at least 0, as is every
    field of its breakdown. *)
Theorem estimate_is_nonnegative
    (tr : CostTracker.t) (now : Z) (model : string) (usage : TokenUsage.t)
    (provider : option ModelProvider) :
  ownName model = true ->
  (forall k p, In (k, p) (CostTracker.customPricing tr) -> nonnegPricing p) ->
  nonnegUsage usage ->
  let e := estimateCost tr now model usage provider in
  0 <= CostEstimate.estimatedCost e
  /\ 0 <= Breakdown.inputCost (CostEstimate.breakdown e)
  /\ 0 <= Breakdown.outputCost (CostEstimate.breakdown e)
  /\ nonnegOpt (Breakdown.imageCost (CostEstimate.breakdown e))
  /\ nonnegOpt (Breakdown.audioCost (CostEstimate.breakdown e)).
Proof.
  intros _ Hcustom [Hu1 [Hu2 [Hu3 Hu4]]]. cbv zeta. unfold estimateCost.
  destruct (negb (CostTrackerConfig.enabled (CostTracker.config tr)));
    [simpl; repeat split; apply Qle_refl|].
  destruct (resolvePricing tr model provider) as [pricing|] eqn:E;
    [|simpl; repeat split; apply Qle_refl].
  assert (Hp : nonnegPricing pricing).
  { unfold resolvePricing in E.
    destruct (JsMap.get model (CostTracker.customPricing tr)) as [q|] eqn:G.
    - inversion E; subst. exact (Hcustom _ _ (get_In _ _ G)).
    - apply MODEL_PRICING_nonneg.
      unfold getModelPricing in E.
      exact (@lookupPricing_sound _ _ _ _ E). }
  destruct Hp as [Hp1 [Hp2 [Hp3 Hp4]]]. simpl.
  pose proof (@per1K_nonneg _ _ Hu1 Hp1) as Hi.
  pose proof (@per1K_nonneg _ _ Hu2 Hp2) as Ho.
  pose proof (@auxCost_nonneg _ _ Hu3 Hp3) as Hm.
  pose proof (@auxCost_nonneg _ _ Hu4 Hp4) as Ha.
  repeat split; auto.
  - repeat apply Qplus_nonneg; assumption.
  - unfold optField. destruct (Qlt_bool 0 _); simpl; auto.
  - unfold optField. destruct (Qlt_bool 0 _); simpl; auto.
Qed.

Lemma estimate_is_nonnegative_witness :
  0 <= CostEstimate.estimatedCost
         (estimateCost defaultTracker t0 "gpt-4-vision-preview" imageUsage None).
Proof.
  apply (@estimate_is_nonnegative defaultTracker t0 "gpt-4-vision-preview"
           imageUsage None).
  - reflexivity.
  - intros k p [].
  - repeat split; vm_compute; discriminate.
Defined.

(** X15.  What a cost record carries besides the cost, for a model name
    not inherited from [Object.prototype].  The request id,
    agent id, usage and instant are always the caller's.  On a priced
    call the model and provider are those of the resolved price entry
    (not the caller's spelling) and the metadata is kept; on an unpriced
    or disabled call the model is the caller's string, the provider
    defaults to custom (unpriced) or openai (disabled), and the metadata
    is dropped. *)
Theorem actual_cost_record_fields
    (tr : CostTracker.t) (g : IdGen) (now : Z)
    (requestId agentId model : string) (usage : TokenUsage.t)
    (provider : option ModelProvider) (metadata : option Metadata) :
  ownName model = true ->
  let r := fst (calculateActualCost tr g now requestId agentId model usage
                  provider metadata) in
  CostRecord.requestId r = requestId
  /\ CostRecord.agentId r = agentId
  /\ CostRecord.actualTokens r = usage
  /\ CostRecord.timestamp r = now
  /\ (CostTrackerConfig.enabled (CostTracker.config tr) = true ->
      forall pricing, resolvePricing tr model provider = Some pricing ->
        CostRecord.model r = ModelPricing.model pricing
        /\ CostRecord.provider r = ModelPricing.provider pricing
        /\ CostRecord.metadata r = metadata)
  /\ (CostTrackerConfig.enabled (CostTracker.config tr) = true ->
      resolvePricing tr model provider = None ->
        CostRecord.model r = model
        /\ CostRecord.provider r = over custom provider
        /\ CostRecord.metadata r = None)
  /\ (CostTrackerConfig.enabled (CostTracker.config tr) = false ->
        CostRecord.model r = model
        /\ CostRecord.provider r = over openai provider
        /\ CostRecord.metadata r = None).
Proof.
  intros _. cbv zeta.
  unfold calculateActualCost, createZeroCostRecord, generateId.
  destruct (CostTrackerConfig.enabled (CostTracker.config tr)); simpl;
    [destruct (resolvePricing tr model provider) as [pricing|]; simpl|];
    repeat (split; [reflexivity|]);
    (split; [|split]); intros;
    try discriminate;
    try match goal with
        | H : Some _ = Some _ |- _ => inversion H; subst
        end;
    auto.
Qed.

Lemma actual_cost_record_fields_witness :
  let r := fst (calculateActualCost defaultTracker 0%nat t0 "req-1" "agent-1"
                  "GPT-4" usage1 None (Some [("user", "u1")])) in
  CostRecord.model r = "gpt-4"
  /\ CostRecord.provider r = openai
  /\ CostRecord.metadata r = Some [("user", "u1")].
Proof.
  pose proof (@actual_cost_record_fields defaultTracker 0%nat t0 "req-1"
                "agent-1" "GPT-4" usage1 None (Some [("user", "u1")])
                eq_refl) as H.
  destruct H as [_ [_ [_ [_ [H _]]]]].
  exact (H eq_refl gpt4Pricing eq_refl).
Defined.

(* ================================================================== *)
(** * Further properties of the budget manager *)

Lemma ackFirst_cores (alertId : string) (l l' : list CostAlert.t) :
  ackFirst alertId l = Some l' -> map alertCore l' = map alertCore l.
Proof.
  revert l'. induction l as [|a rest IH]; simpl; intros l'; [discriminate|].
  destruct (String.eqb (CostAlert.id a) alertId).
  - intros H. inversion H. reflexivity.
  - destruct (ackFirst alertId rest) as [rest'|]; [|discriminate].
    intros H. inversion H. simpl. now rewrite (IH rest').
Qed.

Lemma ackInLists_keys (alertId : string) (ls ls' : JsMap.t (list CostAlert.t)) :
  ackInLists alertId ls = Some ls' -> JsMap.keys ls' = JsMap.keys ls.
Proof.
  unfold JsMap.keys.
  revert ls'. induction ls as [|[k l] rest IH]; simpl; intros ls';
    [discriminate|].
  destruct (ackFirst alertId l) as [l'|].
  - intros H. inversion H. reflexivity.
  - destruct (ackInLists alertId rest) as [rest'|]; [|discriminate].
    intros H. inversion H. simpl. now rewrite (IH rest').
Qed.

Lemma wellKeyed_same_budgets (m m' : BudgetManager.t) :
  BudgetManager.budgets m' = BudgetManager.budgets m ->
  NoDup (JsMap.keys (BudgetManager.alerts m')) ->
  wellKeyed m -> wellKeyed m'.
Proof.
  intros Hb Ha [Hk _]. split; auto.
  exact (keyedById_same_budgets _ Hb Hk).
Qed.

Lemma addAlert_alerts_NoDup (m : BudgetManager.t) (k : string) (a : CostAlert.t) :
  NoDup (JsMap.keys (BudgetManager.alerts m)) ->
  NoDup (JsMap.keys (BudgetManager.alerts (addAlert m k a))).
Proof. intros H. unfold addAlert. simpl. now apply keys_set_NoDup. Qed.

Lemma checkThresholds_alerts_NoDup (now : Z) (budget : BudgetConfig.t)
    (ps : Q) (pp pu : JsNum) (ts : list Q) :
  forall s : CheckState,
    NoDup (JsMap.keys (BudgetManager.alerts (snd (fst s)))) ->
    NoDup (JsMap.keys (BudgetManager.alerts
             (snd (fst (checkThresholds now budget ps pp pu ts s))))).
Proof.
  induction ts as [|t rest IH]; intros [[al m] g]; simpl; auto.
  destruct (jsGe pp t && jsLt pu t); [|exact (IH (al, m, g))].
  intros H. apply IH. simpl. now apply addAlert_alerts_NoDup.
Qed.

Lemma checkLoop_alerts_NoDup (cal : Calendar.t) (now : Z)
    (st : InMemoryCostStorage.t) (cost : Q) (bs : list BudgetConfig.t) :
  forall s : CheckState,
    NoDup (JsMap.keys (BudgetManager.alerts (snd (fst s)))) ->
    NoDup (JsMap.keys (BudgetManager.alerts
             (snd (fst (snd (checkLoop cal now st cost bs s)))))).
Proof.
  induction bs as [|b rest IH]; intros s H; [exact H|].
  rewrite checkLoop_cons.
  assert (He : NoDup (JsMap.keys (BudgetManager.alerts
                        (snd (fst (evalBudget cal now st cost b s)))))).
  { unfold evalBudget.
    destruct (negb (BudgetConfig.enabled b)); auto.
    destruct (getBudgetStatus cal now (snd (fst s)) st (BudgetConfig.id b)); auto.
    now apply checkThresholds_alerts_NoDup. }
  destruct (blocksAt cal now (snd (fst s)) st cost b); simpl; auto.
Qed.

Lemma recordThresholds_alerts_NoDup (now : Z) (budget : BudgetConfig.t)
    (status : BudgetStatus.t) (ex ts : list Q) :
  forall s : BudgetManager.t * IdGen,
    NoDup (JsMap.keys (BudgetManager.alerts (fst s))) ->
    NoDup (JsMap.keys (BudgetManager.alerts
             (fst (recordThresholds now budget status ex ts s)))).
Proof.
  induction ts as [|t rest IH]; intros [m g]; simpl; auto.
  destruct (jsGe (BudgetStatus.percentageUsed status) t
            && negb (hasThreshold ex t)); [|exact (IH (m, g))].
  intros H. apply IH. simpl. now apply addAlert_alerts_NoDup.
Qed.

Lemma recordLoop_alerts_NoDup (cal : Calendar.t) (now : Z)
    (st : InMemoryCostStorage.t) (bs : list BudgetConfig.t) :
  forall s : BudgetManager.t * IdGen,
    NoDup (JsMap.keys (BudgetManager.alerts (fst s))) ->
    NoDup (JsMap.keys (BudgetManager.alerts (fst (recordLoop cal now st bs s)))).
Proof.
  induction bs as [|b rest IH]; intros s H; simpl; auto.
  destruct (negb (BudgetConfig.enabled b)); [now apply IH|].
  destruct (getBudgetStatus cal now (fst s) st (BudgetConfig.id b));
    [|now apply IH].
  apply IH. now apply recordThresholds_alerts_NoDup.
Qed.

(** Every state reachable through the public methods is well keyed. *)
Lemma reachable_wellKeyed (m : BudgetManager.t) : reachable m -> wellKeyed m.
Proof.
  intros Hr. split; [now apply reachable_keyedById|].
  induction Hr as [ | g now m config _ IH | now m id updates _ IH | m id _ IH
                  | cal now g m st agentId cost _ IH
                  | cal now g m st record _ IH
                  | m alertId _ IH | m budgetId _ IH ].
  - constructor.
  - unfold createBudget, generateId. simpl. now apply keys_set_NoDup.
  - unfold updateBudget.
    destruct (JsMap.get id (BudgetManager.budgets m)); simpl; auto.
  - simpl. now apply keys_delete_NoDup.
  - pose proof (@checkLoop_alerts_NoDup cal now st cost
                  (getRelevantBudgets m agentId) ([], m, g) IH) as H.
    unfold checkBudget.
    destruct (checkLoop cal now st cost (getRelevantBudgets m agentId)
                ([], m, g)) as [blk [[al m'] g']].
    exact H.
  - unfold recordCost.
    exact (@recordLoop_alerts_NoDup cal now st _ (m, g) IH).
  - unfold acknowledgeAlert.
    destruct (ackInLists alertId (BudgetManager.alerts m)) as [ls|] eqn:E;
      simpl; auto.
    now rewrite (ackInLists_keys _ _ E).
  - simpl. now apply keys_set_NoDup.
Qed.

Lemma map_values_set_present (V W : Type) (f : V -> W) (k : string)
    (v old : V) (m : JsMap.t V) :
  JsMap.get k m = Some old -> f v = f old ->
  map f (JsMap.values (JsMap.set k v m)) = map f (JsMap.values m).
Proof.
  unfold JsMap.values. intros Hget Hf.
  induction m as [|[k' v'] rest IH]; simpl in *; [discriminate|].
  destruct (String.eqb k k') eqn:E; simpl.
  - inversion Hget. subst. now rewrite Hf.
  - now rewrite IH.
Qed.

(** X16.  Updating a known budget returns the patched budget and stores it
    in the place of the old one: the id, the creation time and the order
    of the budgets are unchanged, the update time is the instant of the
    call, each of the seven fields a patch can carry (name, limit,
    period, alert thresholds, action, scope, enabled) takes the value of
    the patch when the patch has the field and keeps its value otherwise,
    the alert lists and all other budgets are untouched.  Updating an
    unknown id returns nothing and changes nothing. *)
Theorem updateBudget_keeps_identity
    (now : Z) (m : BudgetManager.t) (id : string) (updates : BudgetPatch.t) :
  keyedById m ->
  (getBudget m id = None -> updateBudget now m id updates = (None, m))
  /\ (forall b, getBudget m id = Some b ->
      exists b',
        fst (updateBudget now m id updates) = Some b'
        /\ getBudget (snd (updateBudget now m id updates)) id = Some b'
        /\ BudgetConfig.id b' = id
        /\ BudgetConfig.createdAt b' = BudgetConfig.createdAt b
        /\ BudgetConfig.updatedAt b' = now
        /\ BudgetConfig.name b'
           = over (BudgetConfig.name b) (BudgetPatch.name updates)
        /\ BudgetConfig.limit b'
           = over (BudgetConfig.limit b) (BudgetPatch.limit updates)
        /\ BudgetConfig.period b'
           = over (BudgetConfig.period b) (BudgetPatch.period updates)
        /\ BudgetConfig.alertThresholds b'
           = over (BudgetConfig.alertThresholds b)
                  (BudgetPatch.alertThresholds updates)
        /\ BudgetConfig.action b'
           = over (BudgetConfig.action b) (BudgetPatch.action updates)
        /\ BudgetConfig.scope b'
           = overOpt (BudgetConfig.scope b) (BudgetPatch.scope updates)
        /\ BudgetConfig.enabled b'
           = over (BudgetConfig.enabled b) (BudgetPatch.enabled updates)
        /\ map BudgetConfig.id (getAllBudgets (snd (updateBudget now m id updates)))
           = map BudgetConfig.id (getAllBudgets m)
        /\ BudgetManager.alerts (snd (updateBudget now m id updates))
           = BudgetManager.alerts m
        /\ forall k, k <> id ->
             getBudget (snd (updateBudget now m id updates)) k = getBudget m k).
Proof.
  intros [Hnd Hid]. unfold getBudget, updateBudget. split.
  - intros H. now rewrite H.
  - intros b Hb. rewrite Hb. simpl.
    pose proof (Hid _ _ (get_In _ _ Hb)) as Hbid.
    exists (applyPatch now b updates). repeat split.
    + apply get_set_same.
    + exact Hbid.
    + unfold getAllBudgets. simpl.
      eapply map_values_set_present; [exact Hb | reflexivity].
    + intros k Hk. now apply get_set_other.
Qed.

Lemma updateBudget_keeps_identity_witness :
  exists b',
    fst (updateBudget (t0 + 9)%Z (fst threeBudgets) "1" raiseAndBlock) = Some b'
    /\ BudgetConfig.name b' = "Hard"
    /\ BudgetConfig.limit b' = 20
    /\ BudgetConfig.period b' = daily
    /\ BudgetConfig.action b' = block
    /\ map BudgetConfig.id
         (getAllBudgets
            (snd (updateBudget (t0 + 9)%Z (fst threeBudgets) "1" raiseAndBlock)))
       = ["0"; "1"; "2"].
Proof.
  assert (Hk : keyedById (fst threeBudgets)).
  { apply reachable_keyedById. unfold threeBudgets.
    apply (reach_create 2%nat t0). apply (reach_create 1%nat t0).
    apply (reach_create 0%nat t0). exact reach_new. }
  destruct (proj2 (@updateBudget_keeps_identity (t0 + 9)%Z (fst threeBudgets)
                     "1" raiseAndBlock Hk) hardBudget eq_refl)
    as [b' [H1 [_ [_ [_ [_ [Hname [Hlim [Hper [_ [Hact [_ [_ [Hids _]]]]]]]]]]]]]].
  exists b'.
  split; [exact H1|]. split; [exact Hname|]. split; [exact Hlim|].
  split; [exact Hper|]. split; [exact Hact|]. exact Hids.
Defined.

Lemma delete_absent (V : Type) (k : string) (m : JsMap.t V) :
  JsMap.get k m = None -> JsMap.delete k m = m.
Proof.
  induction m as [|[k' v'] rest IH]; simpl; auto.
  destruct (String.eqb k k'); [discriminate|].
  intros H. now rewrite IH.
Qed.

(** X17.  Deleting a budget answers whether it existed; afterwards the
    budget is gone and its alert history is empty, while every other
    budget and every other alert list is as before.  Deleting an unknown
    id answers false and leaves the budgets as they were. *)
Theorem deleteBudget_discards_budget_and_alerts
    (m : BudgetManager.t) (id : string) :
  reachable m ->
  let (ok, m') := deleteBudget m id in
  (ok = true <-> getBudget m id <> None)
  /\ getBudget m' id = None
  /\ getAlerts m' id = []
  /\ (forall k, k <> id ->
        getBudget m' k = getBudget m k /\ getAlerts m' k = getAlerts m k)
  /\ (ok = false -> getAllBudgets m' = getAllBudgets m).
Proof.
  intros Hr. destruct (reachable_wellKeyed Hr) as [[Hnd _] Hal].
  unfold deleteBudget, getBudget, getAlerts, getAllBudgets, JsMap.has. simpl.
  split; [|split; [|split; [|split]]].
  - destruct (JsMap.get id (BudgetManager.budgets m)); split;
      intros H; try discriminate; auto; now destruct H.
  - now apply get_delete_same.
  - now rewrite get_delete_same.
  - intros k Hk. split.
    + now apply get_delete_other.
    + now rewrite get_delete_other.
  - destruct (JsMap.get id (BudgetManager.budgets m)) eqn:E; [discriminate|].
    intros _. now rewrite delete_absent.
Qed.

Lemma deleteBudget_discards_budget_and_alerts_witness :
  getBudget (snd (deleteBudget (snd (fst checkedOnce)) "0")) "0" = None
  /\ getAlerts (snd (deleteBudget (snd (fst checkedOnce)) "0")) "0" = [].
Proof.
  assert (Hr : reachable (snd (fst checkedOnce))).
  { unfold checkedOnce. apply reach_check. unfold alertBudget.
    apply (reach_create 0%nat t0). exact reach_new. }
  pose proof (@deleteBudget_discards_budget_and_alerts
                (snd (fst checkedOnce)) "0" Hr) as H.
  destruct (deleteBudget (snd (fst checkedOnce)) "0") as [ok m'].
  destruct H as [_ [H2 [H3 _]]]. simpl. auto.
Defined.

(** X18.  When the generated id is not in use, the new budget is placed
    after all existing budgets, so it is evaluated last for every agent;
    it starts with an empty alert list, and the other budgets and alert
    lists are unchanged. *)
Theorem createBudget_appends
    (g : IdGen) (now : Z) (m : BudgetManager.t) (config : BudgetInput.t) :
  getBudget m (fst (generateId g)) = None ->
  let '(b, m', g') := createBudget g now m config in
  getAllBudgets m' = getAllBudgets m ++ [b]
  /\ (forall a, getRelevantBudgets m' a
                = getRelevantBudgets m a ++ (if isRelevant a b then [b] else []))
  /\ getAlerts m' (BudgetConfig.id b) = []
  /\ (forall k, k <> BudgetConfig.id b ->
        getBudget m' k = getBudget m k /\ getAlerts m' k = getAlerts m k).
Proof.
  unfold createBudget, generateId, getBudget. simpl. intros Hfresh.
  assert (Hvals : forall v : BudgetConfig.t,
             JsMap.values (JsMap.set (idOfNat g) v (BudgetManager.budgets m))
             = JsMap.values (BudgetManager.budgets m) ++ [v]).
  { intros v. rewrite (set_absent _ _ _ Hfresh).
    unfold JsMap.values. now rewrite map_app. }
  repeat split.
  - unfold getAllBudgets. simpl. apply Hvals.
  - intros a. unfold getRelevantBudgets. simpl.
    rewrite Hvals, filter_app. reflexivity.
  - unfold getAlerts. simpl. now rewrite get_set_same.
  - now apply get_set_other.
  - unfold getAlerts. simpl. now rewrite get_set_other.
Qed.

Lemma createBudget_appends_witness :
  let '(b, m', g') :=
    createBudget 3%nat (t0 + 9)%Z (fst threeBudgets)
      (BudgetInput.mk "Late" 1 daily [100] block None true) in
  getAllBudgets m' = getAllBudgets (fst threeBudgets) ++ [b].
Proof.
  pose proof (@createBudget_appends 3%nat (t0 + 9)%Z (fst threeBudgets)
                (BudgetInput.mk "Late" 1 daily [100] block None true) eq_refl)
    as H.
  destruct (createBudget 3%nat (t0 + 9)%Z (fst threeBudgets)
              (BudgetInput.mk "Late" 1 daily [100] block None true))
    as [[b m'] g'].
  exact (proj1 H).
Defined.

Lemma getBudgetStatus_fields (cal : Calendar.t) (now : Z)
    (m : BudgetManager.t) (st : InMemoryCostStorage.t) (id : string)
    (s : BudgetStatus.t) :
  getBudgetStatus cal now m st id = Some s ->
  getBudget m id = Some (BudgetStatus.budget s)
  /\ BudgetStatus.remaining s
     = max0 (BudgetConfig.limit (BudgetStatus.budget s)
             - BudgetStatus.currentSpending s)
  /\ BudgetStatus.percentageUsed s
     = jsScale (jsDiv (BudgetStatus.currentSpending s)
                      (BudgetConfig.limit (BudgetStatus.budget s))) 100
  /\ BudgetStatus.isExceeded s
     = Qlt_bool (BudgetConfig.limit (BudgetStatus.budget s))
                (BudgetStatus.currentSpending s)
  /\ BudgetStatus.activeAlerts s
     = filter (fun t => jsGe (BudgetStatus.percentageUsed s) t)
              (BudgetConfig.alertThresholds (BudgetStatus.budget s))
  /\ BudgetStatus.periodEnd s = now
  /\ BudgetStatus.lastUpdated s = now.
Proof.
  unfold getBudgetStatus, getBudget.
  destruct (JsMap.get id (BudgetManager.budgets m)) as [b|]; [|discriminate].
  simpl. intros H. inversion H. simpl. repeat split.
Qed.

(** X19.  A status is returned exactly for a known budget id.  It reports
    the stored budget; the remaining amount is never negative, it is 0
    once the budget is exceeded and limit minus spending otherwise; the
    budget is exceeded exactly when the spending is strictly above the
    limit; the active thresholds are among the configured ones; and the
    window ends at the instant of the call. *)
Theorem budget_status_consistent
    (cal : Calendar.t) (now : Z) (m : BudgetManager.t)
    (st : InMemoryCostStorage.t) (id : string) :
  (getBudgetStatus cal now m st id = None <-> getBudget m id = None)
  /\ forall s, getBudgetStatus cal now m st id = Some s ->
       getBudget m id = Some (BudgetStatus.budget s)
       /\ 0 <= BudgetStatus.remaining s
       /\ (BudgetStatus.isExceeded s = true <->
           BudgetConfig.limit (BudgetStatus.budget s)
           < BudgetStatus.currentSpending s)
       /\ (BudgetStatus.isExceeded s = true -> BudgetStatus.remaining s = 0)
       /\ (BudgetStatus.isExceeded s = false ->
           BudgetStatus.remaining s
           = BudgetConfig.limit (BudgetStatus.budget s)
             - BudgetStatus.currentSpending s)
       /\ incl (BudgetStatus.activeAlerts s)
               (BudgetConfig.alertThresholds (BudgetStatus.budget s))
       /\ BudgetStatus.periodEnd s = now.
Proof.
  split.
  - unfold getBudgetStatus, getBudget.
    destruct (JsMap.get id (BudgetManager.budgets m)); simpl;
      split; intros H; try discriminate; auto.
  - intros s Hs.
    destruct (getBudgetStatus_fields _ _ _ _ _ Hs)
      as [Hb [Hrem [_ [Hex [Hact [Hend _]]]]]].
    set (l := BudgetConfig.limit (BudgetStatus.budget s)) in *.
    set (c := BudgetStatus.currentSpending s) in *.
    assert (Hcases : 0 <= l - c <-> c <= l).
    { unfold Qminus. symmetry. apply Qle_minus_iff. }
    split; [exact Hb|]. split; [|split; [|split; [|split; [|split]]]].
    + rewrite Hrem. unfold max0.
      destruct (Qle_bool 0 (l - c)) eqn:E; [now apply Qle_bool_iff|apply Qle_refl].
    + rewrite Hex. apply Qlt_bool_iff.
    + rewrite Hex, Hrem. intros H. apply Qlt_bool_iff in H.
      unfold max0. destruct (Qle_bool 0 (l - c)) eqn:E; auto.
      apply Qle_bool_iff, Hcases in E. exfalso. exact (Qlt_not_le _ _ H E).
    + rewrite Hex, Hrem. unfold Qlt_bool. intros H.
      apply negb_false_iff, Qle_bool_iff, Hcases, Qle_bool_iff in H.
      unfold max0. now rewrite H.
    + rewrite Hact. intros t Ht. apply filter_In in Ht. tauto.
    + exact Hend.
Qed.

Lemma budget_status_consistent_witness :
  BudgetStatus.remaining hardStatus
  = BudgetConfig.limit (BudgetStatus.budget hardStatus)
    - BudgetStatus.currentSpending hardStatus.
Proof.
  destruct (proj2 (@budget_status_consistent utc (t0 + 2000)%Z
                     (fst threeBudgets) ledger095 "1") hardStatus eq_refl)
    as [_ [_ [_ [_ [H _]]]]].
  apply H. reflexivity.
Defined.

(** X21.  A budget with limit 0, which [createBudget] accepts: as soon as
    anything is spent the percentage is infinite, every configured
    threshold is active and the budget is exceeded with nothing
    remaining; with nothing spent the percentage is not a number, no
    threshold is active and the budget is not exceeded. *)
Theorem zero_limit_status
    (cal : Calendar.t) (now : Z) (m : BudgetManager.t)
    (st : InMemoryCostStorage.t) (id : string) (s : BudgetStatus.t) :
  getBudgetStatus cal now m st id = Some s ->
  BudgetConfig.limit (BudgetStatus.budget s) == 0 ->
  (0 < BudgetStatus.currentSpending s ->
     BudgetStatus.percentageUsed s = PosInf
     /\ BudgetStatus.activeAlerts s
        = BudgetConfig.alertThresholds (BudgetStatus.budget s)
     /\ BudgetStatus.isExceeded s = true
     /\ BudgetStatus.remaining s = 0)
  /\ (BudgetStatus.currentSpending s == 0 ->
      BudgetStatus.percentageUsed s = NaN
      /\ BudgetStatus.activeAlerts s = []
      /\ BudgetStatus.isExceeded s = false).
Proof.
  intros Hs Hl.
  destruct (getBudgetStatus_fields _ _ _ _ _ Hs)
    as [_ [Hrem [Hpct [Hex [Hact _]]]]].
  set (l := BudgetConfig.limit (BudgetStatus.budget s)) in *.
  set (c := BudgetStatus.currentSpending s) in *.
  assert (El : Qeq_bool l 0 = true) by (now apply Qeq_bool_iff).
  split.
  - intros Hc.
    assert (Ec : Qeq_bool c 0 = false).
    { destruct (Qeq_bool c 0) eqn:E; auto. apply Qeq_bool_iff in E.
      rewrite E in Hc. exfalso. exact (Qlt_irrefl _ Hc). }
    assert (Hinf : BudgetStatus.percentageUsed s = PosInf).
    { rewrite Hpct. unfold jsDiv. rewrite El, Ec.
      now rewrite (proj2 (Qlt_bool_iff 0 c) Hc). }
    assert (Hlt : l < c) by (now rewrite Hl).
    repeat split.
    + exact Hinf.
    + rewrite Hact, Hinf. now apply filter_all.
    + rewrite Hex. now apply Qlt_bool_iff.
    + rewrite Hrem. unfold max0.
      destruct (Qle_bool 0 (l - c)) eqn:E; auto.
      apply Qle_bool_iff in E. unfold Qminus in E.
      apply Qle_minus_iff in E. exfalso. exact (Qlt_not_le _ _ Hlt E).
  - intros Hc.
    assert (Ec : Qeq_bool c 0 = true) by (now apply Qeq_bool_iff).
    assert (Hnan : BudgetStatus.percentageUsed s = NaN).
    { rewrite Hpct. unfold jsDiv. now rewrite El, Ec. }
    repeat split.
    + exact Hnan.
    + rewrite Hact, Hnan. now apply filter_none.
    + rewrite Hex. unfold Qlt_bool. apply negb_false_iff, Qle_bool_iff.
      rewrite Hc, Hl. apply Qle_refl.
Qed.

Lemma zero_limit_status_witness :
  BudgetStatus.percentageUsed zeroStatus = PosInf
  /\ BudgetStatus.activeAlerts zeroStatus
     = BudgetConfig.alertThresholds (BudgetStatus.budget zeroStatus)
  /\ BudgetStatus.isExceeded zeroStatus = true
  /\ BudgetStatus.remaining zeroStatus = 0.
Proof.
  apply (proj1 (@zero_limit_status utc (t0 + 2000)%Z (fst zeroLimit)
                  ledger045 "0" zeroStatus eq_refl (Qeq_refl 0))).
  reflexivity.
Defined.

Lemma alertsFor_app (k : string) (l l' : list CostAlert.t) :
  alertsFor k (l ++ l') = alertsFor k l ++ alertsFor k l'.
Proof. unfold alertsFor. apply filter_app. Qed.

Lemma getAlerts_addAlert (m : BudgetManager.t) (id k : string)
    (a : CostAlert.t) :
  CostAlert.budgetId a = id ->
  getAlerts (addAlert m id a) k = getAlerts m k ++ alertsFor k [a].
Proof.
  intros Ha. unfold alertsFor. simpl. rewrite Ha.
  destruct (String.eqb id k) eqn:E.
  - apply String.eqb_eq in E. subst k.
    unfold getAlerts, addAlert. simpl. now rewrite get_set_same.
  - rewrite getAlerts_addAlert_other, app_nil_r; auto.
    intros Hk. subst k. now rewrite String.eqb_refl in E.
Qed.

Lemma checkThresholds_appends (now : Z) (budget : BudgetConfig.t)
    (ps : Q) (pp pu : JsNum) (ts : list Q) :
  incl ts (BudgetConfig.alertThresholds budget) ->
  forall s : CheckState,
    exists new,
      fst (fst (checkThresholds now budget ps pp pu ts s)) = fst (fst s) ++ new
      /\ (forall k,
            getAlerts (snd (fst (checkThresholds now budget ps pp pu ts s))) k
            = getAlerts (snd (fst s)) k ++ alertsFor k new)
      /\ Forall (freshAlertOf now budget) new.
Proof.
  induction ts as [|t rest IH]; intros Hincl [[al m] g]; simpl.
  - exists []. rewrite app_nil_r. repeat split; auto.
    intros k. now rewrite app_nil_r.
  - assert (Hrest : incl rest (BudgetConfig.alertThresholds budget)).
    { intros x Hx. apply Hincl. now right. }
    destruct (jsGe pp t && jsLt pu t); [|exact (IH Hrest (al, m, g))].
    unfold createAlert, generateId. simpl.
    set (a := CostAlert.mk (idOfNat g) (BudgetConfig.id budget) t ps
                (BudgetConfig.limit budget) (severityOf t) now false).
    destruct (IH Hrest (al ++ [a], addAlert m (BudgetConfig.id budget) a, S g))
      as [new [Hal [Hget Hfresh]]].
    cbn [fst snd] in Hal, Hget.
    exists (a :: new). split; [|split].
    + rewrite <- app_assoc in Hal. exact Hal.
    + intros k. rewrite Hget, getAlerts_addAlert by reflexivity.
      rewrite <- app_assoc, <- alertsFor_app. reflexivity.
    + constructor; auto. unfold freshAlertOf. simpl.
      repeat split. apply Hincl. now left.
Qed.

Lemma evalBudget_appends (cal : Calendar.t) (now : Z)
    (st : InMemoryCostStorage.t) (cost : Q) (b : BudgetConfig.t)
    (s : CheckState) :
  exists new,
    fst (fst (evalBudget cal now st cost b s)) = fst (fst s) ++ new
    /\ (forall k,
          getAlerts (snd (fst (evalBudget cal now st cost b s))) k
          = getAlerts (snd (fst s)) k ++ alertsFor k new)
    /\ Forall (freshAlertOf now b) new.
Proof.
  unfold evalBudget.
  assert (Hnone : exists new : list CostAlert.t,
             fst (fst s) = fst (fst s) ++ new
             /\ (forall k, getAlerts (snd (fst s)) k
                           = getAlerts (snd (fst s)) k ++ alertsFor k new)
             /\ Forall (freshAlertOf now b) new).
  { exists []. rewrite app_nil_r. repeat split; auto.
    intros k. now rewrite app_nil_r. }
  destruct (negb (BudgetConfig.enabled b)); auto.
  destruct (getBudgetStatus cal now (snd (fst s)) st (BudgetConfig.id b)); auto.
  apply checkThresholds_appends. apply incl_refl.
Qed.

Lemma checkLoop_appends (cal : Calendar.t) (now : Z)
    (st : InMemoryCostStorage.t) (cost : Q) (bs : list BudgetConfig.t) :
  forall s : CheckState,
    exists new,
      fst (fst (snd (checkLoop cal now st cost bs s))) = fst (fst s) ++ new
      /\ (forall k,
            getAlerts (snd (fst (snd (checkLoop cal now st cost bs s)))) k
            = getAlerts (snd (fst s)) k ++ alertsFor k new)
      /\ Forall (fun a => exists b, In b bs /\ freshAlertOf now b a) new.
Proof.
  induction bs as [|b rest IH]; intros s.
  - exists []. simpl. rewrite app_nil_r. repeat split; auto.
    intros k. now rewrite app_nil_r.
  - rewrite checkLoop_cons.
    destruct (evalBudget_appends cal now st cost b s)
      as [new1 [Hal1 [Hget1 Hf1]]].
    assert (Hf1' : Forall (fun a => exists b0, In b0 (b :: rest)
                                               /\ freshAlertOf now b0 a) new1).
    { eapply Forall_impl; [|exact Hf1]. intros a Ha. exists b. simpl. auto. }
    destruct (blocksAt cal now (snd (fst s)) st cost b); simpl.
    + exists new1. auto.
    + destruct (IH (evalBudget cal now st cost b s))
        as [new2 [Hal2 [Hget2 Hf2]]].
      exists (new1 ++ new2). repeat split.
      * rewrite Hal2, Hal1, app_assoc. reflexivity.
      * intros k. rewrite Hget2, Hget1, alertsFor_app, app_assoc. reflexivity.
      * apply Forall_app. split; auto.
        eapply Forall_impl; [|exact Hf2].
        intros a [b0 [Hb0 Ha]]. exists b0. simpl. auto.
Qed.

(** X22.  [checkBudget] never changes a budget and only appends alerts:
    after the call the alert list of every budget is its former list
    followed by the returned alerts of that budget, in the order
    returned.  Every returned alert is unacknowledged, stamped with the
    instant of the call, and belongs to a relevant budget, for one of its
    configured thresholds and with its limit. *)
Theorem checkBudget_appends_returned_alerts
    (cal : Calendar.t) (now : Z) (g : IdGen) (m : BudgetManager.t)
    (st : InMemoryCostStorage.t) (agentId : string) (cost : Q) :
  let '(r, m', g') := checkBudget cal now g m st agentId cost in
  BudgetManager.budgets m' = BudgetManager.budgets m
  /\ (forall k, getAlerts m' k
                = getAlerts m k ++ alertsFor k (BudgetEnforcementResult.alerts r))
  /\ Forall (fun a => exists b, In b (getRelevantBudgets m agentId)
                                /\ freshAlertOf now b a)
            (BudgetEnforcementResult.alerts r).
Proof.
  pose proof (checkLoop_budgets cal now st cost (getRelevantBudgets m agentId)
                ([], m, g)) as Hbud.
  destruct (checkLoop_appends cal now st cost (getRelevantBudgets m agentId)
              ([], m, g)) as [new [Hal [Hget Hf]]].
  unfold checkBudget.
  destruct (checkLoop cal now st cost (getRelevantBudgets m agentId) ([], m, g))
    as [blk [[al m'] g']].
  simpl in *. subst al. auto.
Qed.

Lemma recordLoop_cons (cal : Calendar.t) (now : Z)
    (st : InMemoryCostStorage.t) (b : BudgetConfig.t)
    (rest : list BudgetConfig.t) (s : BudgetManager.t * IdGen) :
  recordLoop cal now st (b :: rest) s
  = recordLoop cal now st rest (recordBudget cal now st b s).
Proof.
  simpl. unfold recordBudget.
  destruct (negb (BudgetConfig.enabled b)); auto.
  destruct (getBudgetStatus cal now (fst s) st (BudgetConfig.id b)); auto.
Qed.

Lemma recordThresholds_appends (now : Z) (budget : BudgetConfig.t)
    (status : BudgetStatus.t) (ex ts : list Q) :
  incl ts (BudgetConfig.alertThresholds budget) ->
  forall s : BudgetManager.t * IdGen,
    exists new,
      (forall k,
         getAlerts (fst (recordThresholds now budget status ex ts s)) k
         = getAlerts (fst s) k ++ alertsFor k new)
      /\ Forall (fun a =>
                   freshAlertOf now budget a
                   /\ jsGe (BudgetStatus.percentageUsed status)
                           (CostAlert.threshold a) = true
                   /\ CostAlert.currentSpending a
                      = BudgetStatus.currentSpending status) new
      /\ map CostAlert.threshold new
         = filter (fun t => jsGe (BudgetStatus.percentageUsed status) t
                            && negb (hasThreshold ex t)) ts.
Proof.
  induction ts as [|t rest IH]; intros Hincl [m g]; simpl.
  - exists []. repeat split; auto. intros k. now rewrite app_nil_r.
  - assert (Hrest : incl rest (BudgetConfig.alertThresholds budget)).
    { intros x Hx. apply Hincl. now right. }
    destruct (jsGe (BudgetStatus.percentageUsed status) t
              && negb (hasThreshold ex t)) eqn:E;
      [|exact (IH Hrest (m, g))].
    unfold createAlert, generateId. simpl.
    set (a := CostAlert.mk (idOfNat g) (BudgetConfig.id budget) t
                (BudgetStatus.currentSpending status)
                (BudgetConfig.limit budget) (severityOf t) now false).
    destruct (IH Hrest (addAlert m (BudgetConfig.id budget) a, S g))
      as [new [Hget [Hfresh Hthr]]].
    cbn [fst snd] in Hget.
    exists (a :: new). split; [|split].
    + intros k. rewrite Hget, getAlerts_addAlert by reflexivity.
      rewrite <- app_assoc, <- alertsFor_app. reflexivity.
    + constructor; auto. unfold freshAlertOf. simpl.
      apply andb_true_iff in E. destruct E as [E _].
      repeat split; auto. apply Hincl. now left.
    + simpl. now rewrite Hthr.
Qed.

Lemma recordBudget_budgets (cal : Calendar.t) (now : Z)
    (st : InMemoryCostStorage.t) (b : BudgetConfig.t)
    (s : BudgetManager.t * IdGen) :
  BudgetManager.budgets (fst (recordBudget cal now st b s))
  = BudgetManager.budgets (fst s).
Proof.
  unfold recordBudget.
  destruct (negb (BudgetConfig.enabled b)); auto.
  destruct (getBudgetStatus cal now (fst s) st (BudgetConfig.id b)); auto.
  apply recordThresholds_budgets.
Qed.

Lemma recordBudget_appends (cal : Calendar.t) (now : Z)
    (st : InMemoryCostStorage.t) (b : BudgetConfig.t)
    (s : BudgetManager.t * IdGen) :
  exists new,
    (forall k, getAlerts (fst (recordBudget cal now st b s)) k
               = getAlerts (fst s) k ++ alertsFor k new)
    /\ Forall (fun a =>
                 freshAlertOf now b a
                 /\ exists status,
                      getBudgetStatus cal now (fst s) st (BudgetConfig.id b)
                      = Some status
                      /\ jsGe (BudgetStatus.percentageUsed status)
                              (CostAlert.threshold a) = true
                      /\ CostAlert.currentSpending a
                         = BudgetStatus.currentSpending status) new.
Proof.
  unfold recordBudget.
  assert (Hnone : exists new : list CostAlert.t,
      (forall k, getAlerts (fst s) k = getAlerts (fst s) k ++ alertsFor k new)
      /\ Forall (fun a =>
                   freshAlertOf now b a
                   /\ exists status,
                        getBudgetStatus cal now (fst s) st (BudgetConfig.id b)
                        = Some status
                        /\ jsGe (BudgetStatus.percentageUsed status)
                                (CostAlert.threshold a) = true
                        /\ CostAlert.currentSpending a
                           = BudgetStatus.currentSpending status) new).
  { exists []. split; auto. intros k. now rewrite app_nil_r. }
  destruct (negb (BudgetConfig.enabled b)); auto.
  destruct (getBudgetStatus cal now (fst s) st (BudgetConfig.id b))
    as [status|] eqn:E; auto.
  destruct (@recordThresholds_appends now b status
              (map CostAlert.threshold (getAlerts (fst s) (BudgetConfig.id b)))
              (BudgetConfig.alertThresholds b)
              (incl_refl (BudgetConfig.alertThresholds b)) s)
    as [new [Hget [Hf _]]].
  exists new. split; auto.
  eapply Forall_impl; [|exact Hf].
  intros a [Ha [Hge Hsp]]. split; auto. exists status. auto.
Qed.

Lemma recordLoop_appends (cal : Calendar.t) (now : Z)
    (st : InMemoryCostStorage.t) (bs : list BudgetConfig.t) :
  forall s : BudgetManager.t * IdGen,
    exists new,
      (forall k, getAlerts (fst (recordLoop cal now st bs s)) k
                 = getAlerts (fst s) k ++ alertsFor k new)
      /\ Forall (fun a =>
                   exists b, In b bs
                     /\ freshAlertOf now b a
                     /\ exists status,
                          getBudgetStatus cal now (fst s) st (BudgetConfig.id b)
                          = Some status
                          /\ jsGe (BudgetStatus.percentageUsed status)
                                  (CostAlert.threshold a) = true
                          /\ CostAlert.currentSpending a
                             = BudgetStatus.currentSpending status) new.
Proof.
  induction bs as [|b rest IH]; intros s.
  - exists []. simpl. split; auto. intros k. now rewrite app_nil_r.
  - rewrite recordLoop_cons.
    destruct (recordBudget_appends cal now st b s) as [new1 [Hget1 Hf1]].
    destruct (IH (recordBudget cal now st b s)) as [new2 [Hget2 Hf2]].
    exists (new1 ++ new2). split.
    + intros k. rewrite Hget2, Hget1, alertsFor_app, app_assoc. reflexivity.
    + apply Forall_app. split.
      * eapply Forall_impl; [|exact Hf1].
        intros a [Ha Hst]. exists b. simpl. auto.
      * eapply Forall_impl; [|exact Hf2].
        intros a [b0 [Hb0 [Ha [status [Hs Hrest]]]]].
        exists b0. split; [simpl; auto|]. split; [exact Ha|].
        exists status. split; [|exact Hrest].
        rewrite <- Hs. apply getBudgetStatus_budgets.
        symmetry. apply recordBudget_budgets.
Qed.

(** X23.  [recordCost] never changes a budget and only appends alerts: the
    alert list of every budget after the call is its former list followed
    by new alerts of that budget.  Every new alert is unacknowledged,
    stamped with the instant of the call, and belongs to a relevant
    budget, for one of its configured thresholds that the budget's
    current percentage has reached, with the current spending. *)
Theorem recordCost_appends_alerts
    (cal : Calendar.t) (now : Z) (g : IdGen) (m : BudgetManager.t)
    (st : InMemoryCostStorage.t) (record : CostRecord.t) :
  let (m', g') := recordCost cal now g m st record in
  BudgetManager.budgets m' = BudgetManager.budgets m
  /\ exists new,
       (forall k, getAlerts m' k = getAlerts m k ++ alertsFor k new)
       /\ Forall (fun a =>
                    exists b,
                      In b (getRelevantBudgets m (CostRecord.agentId record))
                      /\ freshAlertOf now b a
                      /\ exists status,
                           getBudgetStatus cal now m st (BudgetConfig.id b)
                           = Some status
                           /\ jsGe (BudgetStatus.percentageUsed status)
                                   (CostAlert.threshold a) = true
                           /\ CostAlert.currentSpending a
                              = BudgetStatus.currentSpending status) new.
Proof.
  unfold recordCost.
  pose proof (recordLoop_budgets cal now st
                (getRelevantBudgets m (CostRecord.agentId record)) (m, g))
    as Hbud.
  destruct (recordLoop_appends cal now st
              (getRelevantBudgets m (CostRecord.agentId record)) (m, g))
    as [new [Hget Hf]].
  destruct (recordLoop cal now st
              (getRelevantBudgets m (CostRecord.agentId record)) (m, g))
    as [m' g'].
  simpl in *. split; auto. exists new. auto.
Qed.

Lemma hasThreshold_app (l l' : list Q) (t : Q) :
  hasThreshold (l ++ l') t = hasThreshold l t || hasThreshold l' t.
Proof. unfold hasThreshold. apply existsb_app. Qed.

Lemma hasThreshold_In (l : list Q) (t : Q) :
  In t l -> hasThreshold l t = true.
Proof.
  intros H. unfold hasThreshold. apply existsb_exists.
  exists t. split; auto. apply Qeq_bool_refl.
Qed.

Lemma saturated_grows (cal : Calendar.t) (now : Z)
    (st : InMemoryCostStorage.t) (m m' : BudgetManager.t)
    (b : BudgetConfig.t) :
  BudgetManager.budgets m' = BudgetManager.budgets m ->
  (forall k, exists extra, getAlerts m' k = getAlerts m k ++ extra) ->
  saturated cal now st m b -> saturated cal now st m' b.
Proof.
  intros Hbud Hgrow Hsat status t Hs Ht Hge.
  rewrite (getBudgetStatus_budgets cal now m' m st _ Hbud) in Hs.
  destruct (Hgrow (BudgetConfig.id b)) as [extra ->].
  rewrite map_app, hasThreshold_app, (Hsat status t Hs Ht Hge).
  reflexivity.
Qed.

Lemma recordBudget_saturates (cal : Calendar.t) (now : Z)
    (st : InMemoryCostStorage.t) (b : BudgetConfig.t)
    (s : BudgetManager.t * IdGen) :
  BudgetConfig.enabled b = true ->
  saturated cal now st (fst (recordBudget cal now st b s)) b.
Proof.
  intros Hen status t Hs Ht Hge.
  rewrite (getBudgetStatus_budgets cal now _ (fst s) st _
             (recordBudget_budgets cal now st b s)) in Hs.
  unfold recordBudget. rewrite Hen, Hs. simpl.
  set (ex := map CostAlert.threshold (getAlerts (fst s) (BudgetConfig.id b))).
  destruct (@recordThresholds_appends now b status ex
              (BudgetConfig.alertThresholds b)
              (incl_refl (BudgetConfig.alertThresholds b)) s)
    as [new [Hget [Hf Hthr]]].
  rewrite Hget, map_app, hasThreshold_app. fold ex.
  destruct (hasThreshold ex t) eqn:E; [reflexivity|]. simpl.
  assert (Hall : alertsFor (BudgetConfig.id b) new = new).
  { unfold alertsFor. apply filter_all. intros a Ha.
    rewrite Forall_forall in Hf. destruct (Hf a Ha) as [[Hid _] _].
    rewrite Hid. apply String.eqb_refl. }
  rewrite Hall, Hthr. apply hasThreshold_In.
  apply filter_In. split; auto. now rewrite Hge, E.
Qed.

Lemma recordLoop_grows (cal : Calendar.t) (now : Z)
    (st : InMemoryCostStorage.t) (bs : list BudgetConfig.t)
    (s : BudgetManager.t * IdGen) (k : string) :
  exists extra,
    getAlerts (fst (recordLoop cal now st bs s)) k
    = getAlerts (fst s) k ++ extra.
Proof.
  destruct (recordLoop_appends cal now st bs s) as [new [Hget _]].
  exists (alertsFor k new). apply Hget.
Qed.

Lemma recordLoop_saturates (cal : Calendar.t) (now : Z)
    (st : InMemoryCostStorage.t) (bs : list BudgetConfig.t) :
  forall (s : BudgetManager.t * IdGen) (b : BudgetConfig.t),
    In b bs -> BudgetConfig.enabled b = true ->
    saturated cal now st (fst (recordLoop cal now st bs s)) b.
Proof.
  induction bs as [|b0 rest IH]; intros s b Hin Hen; [destruct Hin|].
  rewrite recordLoop_cons. destruct Hin as [->|Hin].
  - apply (saturated_grows (m := fst (recordBudget cal now st b s))).
    + apply recordLoop_budgets.
    + intros k. apply recordLoop_grows.
    + now apply recordBudget_saturates.
  - now apply IH.
Qed.

Lemma recordThresholds_noop (now : Z) (budget : BudgetConfig.t)
    (status : BudgetStatus.t) (ex ts : list Q) (s : BudgetManager.t * IdGen) :
  (forall t, In t ts ->
     jsGe (BudgetStatus.percentageUsed status) t = true ->
     hasThreshold ex t = true) ->
  recordThresholds now budget status ex ts s = s.
Proof.
  induction ts as [|t rest IH]; intros Hex; destruct s as [m g]; simpl; auto.
  assert (Hc : jsGe (BudgetStatus.percentageUsed status) t
               && negb (hasThreshold ex t) = false).
  { destruct (jsGe (BudgetStatus.percentageUsed status) t) eqn:E; auto.
    now rewrite (Hex t (or_introl eq_refl) E). }
  rewrite Hc. apply IH. intros t' Ht'. apply Hex. now right.
Qed.

Lemma recordLoop_fixpoint (cal : Calendar.t) (now : Z)
    (st : InMemoryCostStorage.t) (bs : list BudgetConfig.t)
    (s : BudgetManager.t * IdGen) :
  (forall b, In b bs -> BudgetConfig.enabled b = true ->
             saturated cal now st (fst s) b) ->
  recordLoop cal now st bs s = s.
Proof.
  induction bs as [|b rest IH]; intros Hsat; [reflexivity|].
  rewrite recordLoop_cons.
  assert (Hb : recordBudget cal now st b s = s).
  { unfold recordBudget.
    destruct (BudgetConfig.enabled b) eqn:En; simpl; auto.
    destruct (getBudgetStatus cal now (fst s) st (BudgetConfig.id b))
      as [status|] eqn:Es; auto.
    apply recordThresholds_noop. intros t Ht Hge.
    exact (Hsat b (or_introl eq_refl) En status t Es Ht Hge). }
  rewrite Hb. apply IH. intros b' Hb'. apply Hsat. now right.
Qed.

(** X24.  [recordCost] is idempotent: called again at the same instant on
    the same ledger, right after a first call, it adds no alert, changes
    nothing in the manager and allocates no id.  This holds for every
    manager, ledger and record, whatever the thresholds. *)
Theorem recordCost_idempotent
    (cal : Calendar.t) (now : Z) (g g2 : IdGen) (m : BudgetManager.t)
    (st : InMemoryCostStorage.t) (record : CostRecord.t) :
  let m1 := fst (recordCost cal now g m st record) in
  recordCost cal now g2 m1 st record = (m1, g2).
Proof.
  cbv zeta. unfold recordCost.
  set (bs := getRelevantBudgets m (CostRecord.agentId record)).
  assert (Hrel : getRelevantBudgets (fst (recordLoop cal now st bs (m, g)))
                   (CostRecord.agentId record) = bs).
  { unfold getRelevantBudgets.
    now rewrite (recordLoop_budgets cal now st bs (m, g)). }
  rewrite Hrel. apply recordLoop_fixpoint.
  intros b Hin Hen. simpl. now apply recordLoop_saturates.
Qed.

Lemma ackFirst_Some_iff (alertId : string) (l : list CostAlert.t) :
  ackFirst alertId l <> None <->
  exists a, In a l /\ CostAlert.id a = alertId.
Proof.
  induction l as [|a rest IH]; simpl.
  - split; [intros H; now destruct H | intros [a [[] _]]].
  - destruct (String.eqb (CostAlert.id a) alertId) eqn:E.
    + apply String.eqb_eq in E. split; [|discriminate].
      intros _. exists a. auto.
    + apply String.eqb_neq in E.
      destruct (ackFirst alertId rest) as [rest'|].
      * split; [|discriminate]. intros _.
        destruct (proj1 IH) as [a' [Hin Hid]]; [discriminate|].
        exists a'. auto.
      * split; [intros H; now destruct H|].
        intros [a' [[->|Hin] Hid]]; [contradiction|].
        apply IH. exists a'. auto.
Qed.

Lemma ackFirst_acknowledges (alertId : string) (l l' : list CostAlert.t) :
  ackFirst alertId l = Some l' ->
  exists a, In a l' /\ CostAlert.id a = alertId
            /\ CostAlert.acknowledged a = true.
Proof.
  revert l'. induction l as [|a rest IH]; simpl; intros l'; [discriminate|].
  destruct (String.eqb (CostAlert.id a) alertId) eqn:E.
  - apply String.eqb_eq in E. intros H. inversion H.
    exists (acknowledge a). simpl. auto.
  - destruct (ackFirst alertId rest) as [rest'|]; [|discriminate].
    intros H. inversion H. destruct (IH rest' eq_refl) as [a' [Hin Ha']].
    exists a'. simpl. auto.
Qed.

Lemma ackInLists_Some_iff (alertId : string) (ls : JsMap.t (list CostAlert.t)) :
  ackInLists alertId ls <> None <->
  exists k l a, In (k, l) ls /\ In a l /\ CostAlert.id a = alertId.
Proof.
  induction ls as [|[k l] rest IH]; simpl.
  - split; [intros H; now destruct H | intros [k [l [a [[] _]]]]].
  - destruct (ackFirst alertId l) as [l'|] eqn:E.
    + split; [|discriminate]. intros _.
      destruct (proj1 (ackFirst_Some_iff alertId l)) as [a [Hin Hid]].
      { rewrite E. discriminate. }
      exists k, l, a. auto.
    + destruct (ackInLists alertId rest) as [rest'|].
      * split; [|discriminate]. intros _.
        destruct (proj1 IH) as [k' [l' [a [Hin Ha]]]]; [discriminate|].
        exists k', l', a. auto.
      * split; [intros H; now destruct H|].
        intros [k' [l' [a [[Heq|Hin] [Ha Hid]]]]].
        -- inversion Heq; subst k' l'.
           assert (ackFirst alertId l <> None)
             by (apply ackFirst_Some_iff; exists a; auto).
           congruence.
        -- apply IH. exists k', l', a. auto.
Qed.

Lemma ackInLists_acknowledges (alertId : string)
    (ls ls' : JsMap.t (list CostAlert.t)) :
  ackInLists alertId ls = Some ls' ->
  exists k l a, In (k, l) ls' /\ In a l /\ CostAlert.id a = alertId
                /\ CostAlert.acknowledged a = true.
Proof.
  revert ls'. induction ls as [|[k l] rest IH]; simpl; intros ls';
    [discriminate|].
  destruct (ackFirst alertId l) as [l'|] eqn:E.
  - intros H. inversion H.
    destruct (@ackFirst_acknowledges _ _ _ E) as [a Ha].
    exists k, l', a. simpl. tauto.
  - destruct (ackInLists alertId rest) as [rest'|]; [|discriminate].
    intros H. inversion H.
    destruct (IH rest' eq_refl) as [k' [l' [a Ha]]].
    exists k', l', a. simpl. tauto.
Qed.

Lemma ackInLists_cores (alertId : string)
    (ls ls' : JsMap.t (list CostAlert.t)) (k : string) :
  ackInLists alertId ls = Some ls' ->
  map alertCore (match JsMap.get k ls' with Some l => l | None => [] end)
  = map alertCore (match JsMap.get k ls with Some l => l | None => [] end).
Proof.
  revert ls'. induction ls as [|[k0 l0] rest IH]; simpl; intros ls';
    [discriminate|].
  destruct (ackFirst alertId l0) as [l0'|] eqn:E.
  - intros H. inversion H. simpl.
    destruct (String.eqb k k0); auto. exact (@ackFirst_cores _ _ _ E).
  - destruct (ackInLists alertId rest) as [rest'|]; [|discriminate].
    intros H. inversion H. simpl.
    destruct (String.eqb k k0); auto.
Qed.

(** X25.  [acknowledgeAlert] answers true exactly when some alert list
    holds an alert with the given id, and then an alert with that id is
    acknowledged.  It never adds, removes, reorders or otherwise alters
    an alert: apart from the flag every alert list is as before, and so
    are the budgets; when it answers false nothing changes. *)
Theorem acknowledgeAlert_only_sets_flag
    (m : BudgetManager.t) (alertId : string) :
  let (ok, m') := acknowledgeAlert m alertId in
  BudgetManager.budgets m' = BudgetManager.budgets m
  /\ (forall k, map alertCore (getAlerts m' k) = map alertCore (getAlerts m k))
  /\ (ok = true <->
      exists k l a, In (k, l) (BudgetManager.alerts m) /\ In a l
                    /\ CostAlert.id a = alertId)
  /\ (ok = true ->
      exists k l a, In (k, l) (BudgetManager.alerts m') /\ In a l
                    /\ CostAlert.id a = alertId
                    /\ CostAlert.acknowledged a = true)
  /\ (ok = false -> m' = m).
Proof.
  unfold acknowledgeAlert.
  pose proof (ackInLists_Some_iff alertId (BudgetManager.alerts m)) as Hiff.
  destruct (ackInLists alertId (BudgetManager.alerts m)) as [ls|] eqn:E.
  - split; [reflexivity|]. split; [|split; [|split]].
    + intros k. unfold getAlerts. simpl. exact (@ackInLists_cores _ _ _ k E).
    + split; [intros _; apply Hiff; discriminate | reflexivity].
    + intros _. exact (@ackInLists_acknowledges _ _ _ E).
    + discriminate.
  - split; [reflexivity|]. split; [|split; [|split]]; auto.
    + split; [discriminate|]. intros H. apply Hiff in H. now destruct H.
    + discriminate.
Qed.

Lemma acknowledgeAlert_only_sets_flag_witness :
  exists k l a,
    In (k, l) (BudgetManager.alerts
                 (snd (acknowledgeAlert (snd (fst checkedOnce)) "1")))
    /\ In a l /\ CostAlert.id a = "1" /\ CostAlert.acknowledged a = true.
Proof.
  pose proof (acknowledgeAlert_only_sets_flag (snd (fst checkedOnce)) "1") as H.
  destruct (acknowledgeAlert (snd (fst checkedOnce)) "1") as [ok m'] eqn:E.
  assert (Hok : ok = true).
  { vm_compute in E. inversion E. reflexivity. }
  destruct H as [_ [_ [_ [H _]]]]. exact (H Hok).
Defined.

(** X26.  With no relevant budget (every budget is disabled, or scoped to
    something other than this agent) [checkBudget] allows the request,
    reports no alert and no status, and leaves the manager and the id
    generator untouched; [recordCost] does nothing either. *)
Theorem no_relevant_budget_allows
    (cal : Calendar.t) (now : Z) (g : IdGen) (m : BudgetManager.t)
    (st : InMemoryCostStorage.t) (record : CostRecord.t) (cost : Q) :
  (forall b, In b (getAllBudgets m) ->
     BudgetConfig.enabled b = false
     \/ exists sc, BudgetConfig.scope b = Some sc
                   /\ (Scope.type sc <> agent
                       \/ Scope.id sc <> CostRecord.agentId record)) ->
  checkBudget cal now g m st (CostRecord.agentId record) cost
  = (BudgetEnforcementResult.mk true None [] None, m, g)
  /\ recordCost cal now g m st record = (m, g).
Proof.
  intros Hnone.
  assert (Hrel : getRelevantBudgets m (CostRecord.agentId record) = []).
  { unfold getRelevantBudgets. apply filter_none. intros b Hb.
    unfold isRelevant.
    destruct (Hnone b Hb) as [Hd|[sc [Hsc Hother]]].
    - now rewrite Hd.
    - rewrite Hsc. destruct (BudgetConfig.enabled b); simpl; auto.
      destruct Hother as [Ht|Hi].
      + destruct (Scope.type sc); simpl; auto. contradiction.
      + apply String.eqb_neq in Hi. rewrite Hi. now rewrite andb_false_r. }
  unfold checkBudget, recordCost. rewrite Hrel. split; reflexivity.
Qed.

Lemma no_relevant_budget_allows_witness :
  checkBudget utc (t0 + 2000)%Z (snd agentBudget) (fst agentBudget) ledgerAB
    "agent-2" 100
  = (BudgetEnforcementResult.mk true None [] None,
     fst agentBudget, snd agentBudget).
Proof.
  refine (proj1 (@no_relevant_budget_allows utc (t0 + 2000)%Z (snd agentBudget)
                   (fst agentBudget) ledgerAB
                   (mockRecord "r0" "agent-2" 5 (t0 + 500)%Z) 100 _)).
  intros b [<-|[]]. right. exists (Scope.mk agent "agent-1").
  split; [reflexivity|]. right. discriminate.
Defined.

Lemma relevant_enabled (agentId : string) (b : BudgetConfig.t) :
  isRelevant agentId b = true -> BudgetConfig.enabled b = true.
Proof.
  unfold isRelevant. destruct (BudgetConfig.enabled b); auto.
Qed.

Lemma checkBudget_allowed_find (cal : Calendar.t) (now : Z) (g : IdGen)
    (m : BudgetManager.t) (st : InMemoryCostStorage.t) (agentId : string)
    (cost : Q) :
  BudgetEnforcementResult.allowed
    (fst (fst (checkBudget cal now g m st agentId cost))) = true
  <-> find (blocksAt cal now m st cost) (getRelevantBudgets m agentId) = None.
Proof.
  pose proof (checkLoop_find cal now st cost (getRelevantBudgets m agentId)
                ([], m, g)) as Hfind.
  unfold checkBudget.
  destruct (checkLoop cal now st cost (getRelevantBudgets m agentId) ([], m, g))
    as [blk [[al m'] g']].
  simpl in *. rewrite <- Hfind.
  destruct blk; split; intros H; try discriminate; auto.
Qed.

(** X28.  The decision is monotone in the estimate: if a request is
    allowed, the same request with a smaller or equal estimated cost is
    allowed too, whatever alerts either call emits. *)
Theorem allowed_is_monotone_in_cost
    (cal : Calendar.t) (now : Z) (g g2 : IdGen) (m : BudgetManager.t)
    (st : InMemoryCostStorage.t) (agentId : string) (cost cost' : Q) :
  cost' <= cost ->
  BudgetEnforcementResult.allowed
    (fst (fst (checkBudget cal now g m st agentId cost))) = true ->
  BudgetEnforcementResult.allowed
    (fst (fst (checkBudget cal now g2 m st agentId cost'))) = true.
Proof.
  intros Hle. rewrite !checkBudget_allowed_find. intros Hnone.
  apply find_all_false. intros b Hin.
  pose proof (find_none _ _ Hnone b Hin) as Hb.
  destruct (blocksAt cal now m st cost' b) eqn:E; auto.
  apply blocksAt_spec in E. destruct E as [En [status [Hs [Hlt Hact]]]].
  assert (blocksAt cal now m st cost b = true); [|congruence].
  apply blocksAt_spec. split; auto. exists status. repeat split; auto.
  eapply Qlt_le_trans; [exact Hlt|].
  apply Qplus_le_compat; [apply Qle_refl | exact Hle].
Qed.

Lemma allowed_is_monotone_in_cost_witness :
  BudgetEnforcementResult.allowed
    (fst (fst (checkBudget utc (t0 + 2000)%Z (snd threeBudgets)
                 (fst threeBudgets) ledger095 "agent-123" (1 # 100)))) = true.
Proof.
  apply (@allowed_is_monotone_in_cost utc (t0 + 2000)%Z (snd threeBudgets)
           (snd threeBudgets) (fst threeBudgets) ledger095 "agent-123"
           (5 # 100) (1 # 100)).
  - vm_compute. discriminate.
  - reflexivity.
Defined.

Lemma values_filter (V : Type) (p : V -> bool) (m : JsMap.t V) :
  JsMap.values (filter (fun kv => p (snd kv)) m)
  = filter p (JsMap.values m).
Proof.
  unfold JsMap.values.
  induction m as [|[k v] rest IH]; simpl; auto.
  destruct (p v); simpl; now rewrite IH.
Qed.

Lemma filter_filter_implied (A : Type) (p q : A -> bool) (l : list A) :
  (forall x, p x = true -> q x = true) ->
  filter p (filter q l) = filter p l.
Proof.
  intros H. induction l as [|x l IH]; simpl; auto.
  destruct (q x) eqn:Eq; simpl.
  - now rewrite IH.
  - destruct (p x) eqn:Ep; auto.
    rewrite (H x Ep) in Eq. discriminate.
Qed.

(** X29.  Purging the ledger of records older than a date that is not
    after the start of a budget's current window does not change the
    status of that budget. *)
Theorem purge_before_window_keeps_status
    (cal : Calendar.t) (now : Z) (m : BudgetManager.t)
    (st : InMemoryCostStorage.t) (id : string) (b : BudgetConfig.t)
    (beforeDate : Z) :
  getBudget m id = Some b ->
  (beforeDate <= fst (getPeriodDates cal now (BudgetConfig.period b)))%Z ->
  getBudgetStatus cal now m (snd (deleteOlderThan st beforeDate)) id
  = getBudgetStatus cal now m st id.
Proof.
  intros Hb Hbefore. unfold getBudget in Hb.
  unfold getBudgetStatus. rewrite Hb.
  destruct (getPeriodDates cal now (BudgetConfig.period b)) as [start end_]
    eqn:Ep.
  simpl in Hbefore.
  assert (Hsame : getByDateRange (snd (deleteOlderThan st beforeDate)) start end_
                  = getByDateRange st start end_).
  { unfold getByDateRange, deleteOlderThan. simpl.
    rewrite (values_filter
               (fun r => negb (CostRecord.timestamp r <? beforeDate)%Z)).
    apply filter_filter_implied. intros r Hr.
    apply inDateRange_true in Hr.
    apply negb_true_iff, Z.ltb_ge. lia. }
  now rewrite Hsame.
Qed.

Lemma purge_before_window_keeps_status_witness :
  getBudgetStatus utc (t0 + 2000)%Z (fst agentBudget)
    (snd (deleteOlderThan ledgerOld t0)) "0"
  = getBudgetStatus utc (t0 + 2000)%Z (fst agentBudget) ledgerOld "0".
Proof.
  apply (@purge_before_window_keeps_status utc (t0 + 2000)%Z (fst agentBudget)
           ledgerOld "0" agentScoped t0).
  - reflexivity.
  - vm_compute. discriminate.
Defined.

(** X30.  The budgets relevant for an agent are exactly the enabled
    budgets that have no scope or that [getBudgetsByScope] returns for
    that agent; the budgets it returns for a project or an organization
    are never relevant. *)
Theorem relevant_budgets_by_scope
    (m : BudgetManager.t) (agentId scopeId : string) (b : BudgetConfig.t) :
  (In b (getRelevantBudgets m agentId) <->
   In b (getAllBudgets m)
   /\ BudgetConfig.enabled b = true
   /\ (BudgetConfig.scope b = None
       \/ In b (getBudgetsByScope m agent agentId)))
  /\ (In b (getBudgetsByScope m project scopeId)
      \/ In b (getBudgetsByScope m organization scopeId) ->
      ~ In b (getRelevantBudgets m agentId)).
Proof.
  unfold getRelevantBudgets, getBudgetsByScope, getAllBudgets.
  split; [split|].
  - intros H. apply filter_In in H. destruct H as [Hin Hrel].
    split; auto. split; [exact (relevant_enabled _ _ Hrel)|].
    unfold isRelevant in Hrel.
    destruct (BudgetConfig.enabled b); [|discriminate]. simpl in Hrel.
    destruct (BudgetConfig.scope b) as [sc|] eqn:Es; auto.
    right. apply filter_In. split; auto. rewrite Es.
    destruct (ScopeType_eqb (Scope.type sc) agent
              && String.eqb (Scope.id sc) agentId); auto.
  - intros [Hin [Hen Hsc]]. apply filter_In. split; auto.
    unfold isRelevant. rewrite Hen. simpl.
    destruct Hsc as [Hnone|Hby]; [now rewrite Hnone|].
    apply filter_In in Hby. destruct Hby as [_ Hby].
    destruct (BudgetConfig.scope b) as [sc|]; auto. now rewrite Hby.
  - intros Hby Hrel. apply filter_In in Hrel. destruct Hrel as [_ Hrel].
    rewrite projectOrOrganization_not_relevant in Hrel; [discriminate|].
    unfold projectOrOrganization.
    destruct Hby as [Hby|Hby]; apply filter_In in Hby;
      destruct Hby as [_ Hby];
      destruct (BudgetConfig.scope b) as [sc|]; try discriminate;
      destruct (Scope.type sc); simpl in Hby; try discriminate; reflexivity.
Qed.

Lemma relevant_budgets_by_scope_witness :
  ~ In projBudget (getRelevantBudgets (fst projectBudget) "agent-123").
Proof.
  apply (proj2 (@relevant_budgets_by_scope (fst projectBudget) "agent-123"
                  "agent-123" projBudget)).
  left. simpl. left. reflexivity.
Defined.

(* ================================================================== *)
(** * The projected check on doubles *)

(** With no rounding the definitions of [Rounded] are those of the exact
    model. *)
Lemma exact_getBudgetStatus (cal : Calendar.t) (now : Z)
    (m : BudgetManager.t) (st : InMemoryCostStorage.t) (k : string) :
  Rounded.getBudgetStatus (fun q => q) cal now m st k
  = getBudgetStatus cal now m st k.
Proof. reflexivity. Qed.

Lemma exact_checkLoop (cal : Calendar.t) (now : Z)
    (st : InMemoryCostStorage.t) (cost : Q) (bs : list BudgetConfig.t) :
  forall s : CheckState,
    Rounded.checkLoop (fun q => q) cal now st cost bs s
    = checkLoop cal now st cost bs s.
Proof.
  induction bs as [|b rest IH]; intros s; [reflexivity|].
  simpl. rewrite !IH. reflexivity.
Qed.

Lemma exact_checkBudget (cal : Calendar.t) (now : Z) (g : IdGen)
    (m : BudgetManager.t) (st : InMemoryCostStorage.t) (agentId : string)
    (cost : Q) :
  Rounded.checkBudget (fun q => q) cal now g m st agentId cost
  = checkBudget cal now g m st agentId cost.
Proof.
  unfold Rounded.checkBudget, checkBudget. now rewrite exact_checkLoop.
Qed.

Section RoundedLoop.

Variable rnd : Q -> Q.

Lemma rounded_getBudgetStatus_budgets (cal : Calendar.t) (now : Z)
    (m m' : BudgetManager.t) (st : InMemoryCostStorage.t) (k : string) :
  BudgetManager.budgets m = BudgetManager.budgets m' ->
  Rounded.getBudgetStatus rnd cal now m st k
  = Rounded.getBudgetStatus rnd cal now m' st k.
Proof. intros H. unfold Rounded.getBudgetStatus. now rewrite H. Qed.

Lemma rounded_blocksAt_budgets (cal : Calendar.t) (now : Z)
    (m m' : BudgetManager.t) (st : InMemoryCostStorage.t) (cost : Q)
    (b : BudgetConfig.t) :
  BudgetManager.budgets m = BudgetManager.budgets m' ->
  Rounded.blocksAt rnd cal now m st cost b
  = Rounded.blocksAt rnd cal now m' st cost b.
Proof.
  intros H. unfold Rounded.blocksAt.
  now rewrite (rounded_getBudgetStatus_budgets cal now m m' st _ H).
Qed.

Lemma rounded_evalBudget_budgets (cal : Calendar.t) (now : Z)
    (st : InMemoryCostStorage.t) (cost : Q) (b : BudgetConfig.t)
    (s : CheckState) :
  BudgetManager.budgets (snd (fst (Rounded.evalBudget rnd cal now st cost b s)))
  = BudgetManager.budgets (snd (fst s)).
Proof.
  unfold Rounded.evalBudget.
  destruct (negb (BudgetConfig.enabled b)); auto.
  destruct (Rounded.getBudgetStatus rnd cal now (snd (fst s)) st
              (BudgetConfig.id b)); auto.
  apply checkThresholds_budgets.
Qed.

(** The loop of [checkBudget], one budget at a time. *)
Lemma rounded_checkLoop_cons (cal : Calendar.t) (now : Z)
    (st : InMemoryCostStorage.t) (cost : Q) (b : BudgetConfig.t)
    (rest : list BudgetConfig.t) (s : CheckState) :
  Rounded.checkLoop rnd cal now st cost (b :: rest) s
  = if Rounded.blocksAt rnd cal now (snd (fst s)) st cost b
    then (Some b, Rounded.evalBudget rnd cal now st cost b s)
    else Rounded.checkLoop rnd cal now st cost rest
           (Rounded.evalBudget rnd cal now st cost b s).
Proof.
  simpl. unfold Rounded.blocksAt, Rounded.evalBudget.
  destruct (BudgetConfig.enabled b); simpl; auto.
  destruct (Rounded.getBudgetStatus rnd cal now (snd (fst s)) st
              (BudgetConfig.id b)); auto.
  destruct (Qlt_bool _ _); simpl; auto.
  destruct (BudgetConfig.action b); reflexivity.
Qed.

Lemma rounded_checkLoop_find (cal : Calendar.t) (now : Z)
    (st : InMemoryCostStorage.t) (cost : Q) (bs : list BudgetConfig.t) :
  forall s : CheckState,
    fst (Rounded.checkLoop rnd cal now st cost bs s)
    = find (Rounded.blocksAt rnd cal now (snd (fst s)) st cost) bs.
Proof.
  induction bs as [|b rest IH]; intros s; [reflexivity|].
  rewrite rounded_checkLoop_cons. cbn [find].
  destruct (Rounded.blocksAt rnd cal now (snd (fst s)) st cost b);
    [reflexivity|].
  rewrite IH. apply find_pointwise. intros x.
  apply rounded_blocksAt_budgets, rounded_evalBudget_budgets.
Qed.

Lemma rounded_checkLoop_stops (cal : Calendar.t) (now : Z)
    (st : InMemoryCostStorage.t) (cost : Q) (b : BudgetConfig.t)
    (pre post : list BudgetConfig.t) :
  forall s : CheckState,
    (forall x, In x pre ->
               Rounded.blocksAt rnd cal now (snd (fst s)) st cost x = false) ->
    Rounded.blocksAt rnd cal now (snd (fst s)) st cost b = true ->
    Rounded.checkLoop rnd cal now st cost (pre ++ b :: post) s
    = Rounded.checkLoop rnd cal now st cost (pre ++ [b]) s.
Proof.
  induction pre as [|x pre IH]; intros s Hpre Hb.
  - simpl app. rewrite !rounded_checkLoop_cons, Hb. reflexivity.
  - simpl app. rewrite !rounded_checkLoop_cons.
    rewrite (Hpre x (or_introl eq_refl)).
    apply IH.
    + intros y Hy.
      rewrite (rounded_blocksAt_budgets cal now _ (snd (fst s)) st cost y
                 (rounded_evalBudget_budgets cal now st cost x s)).
      apply Hpre. now right.
    + now rewrite (rounded_blocksAt_budgets cal now _ (snd (fst s)) st cost b
                     (rounded_evalBudget_budgets cal now st cost x s)).
Qed.

Lemma rounded_checkLoop_budgets (cal : Calendar.t) (now : Z)
    (st : InMemoryCostStorage.t) (cost : Q) (bs : list BudgetConfig.t) :
  forall s : CheckState,
    BudgetManager.budgets
      (snd (fst (snd (Rounded.checkLoop rnd cal now st cost bs s))))
    = BudgetManager.budgets (snd (fst s)).
Proof.
  induction bs as [|b rest IH]; intros s; [reflexivity|].
  rewrite rounded_checkLoop_cons.
  destruct (Rounded.blocksAt rnd cal now (snd (fst s)) st cost b); simpl.
  - apply rounded_evalBudget_budgets.
  - rewrite IH. apply rounded_evalBudget_budgets.
Qed.

Lemma rounded_blocksAt_spec (cal : Calendar.t) (now : Z)
    (m : BudgetManager.t) (st : InMemoryCostStorage.t) (cost : Q)
    (b : BudgetConfig.t) :
  Rounded.blocksAt rnd cal now m st cost b = true <->
  BudgetConfig.enabled b = true
  /\ exists status,
       Rounded.getBudgetStatus rnd cal now m st (BudgetConfig.id b)
       = Some status
       /\ BudgetConfig.limit b
          < rnd (BudgetStatus.currentSpending status + cost)
       /\ BudgetConfig.action b = block.
Proof.
  unfold Rounded.blocksAt. rewrite andb_true_iff. split.
  - intros [En H]. split; auto.
    destruct (Rounded.getBudgetStatus rnd cal now m st (BudgetConfig.id b))
      as [status|]; [|discriminate].
    apply andb_true_iff in H. destruct H as [Hlt Hact].
    exists status. repeat split.
    + now apply Qlt_bool_iff.
    + destruct (BudgetConfig.action b); try discriminate; reflexivity.
  - intros [En [status [Hs [Hlt Hact]]]]. split; auto.
    rewrite Hs, Hact. apply andb_true_iff. split; auto.
    now apply Qlt_bool_iff.
Qed.

Lemma rounded_checkBudget_allowed_find (cal : Calendar.t) (now : Z)
    (g : IdGen) (m : BudgetManager.t) (st : InMemoryCostStorage.t)
    (agentId : string) (cost : Q) :
  BudgetEnforcementResult.allowed
    (fst (fst (Rounded.checkBudget rnd cal now g m st agentId cost))) = true
  <-> find (Rounded.blocksAt rnd cal now m st cost)
           (getRelevantBudgets m agentId) = None.
Proof.
  pose proof (rounded_checkLoop_find cal now st cost
                (getRelevantBudgets m agentId) ([], m, g)) as Hfind.
  unfold Rounded.checkBudget.
  destruct (Rounded.checkLoop rnd cal now st cost
              (getRelevantBudgets m agentId) ([], m, g))
    as [blk [[al m'] g']].
  simpl in *. rewrite <- Hfind.
  destruct blk; split; intros H; try discriminate; auto.
Qed.

Lemma rounded_getBudgetStatus_fields (cal : Calendar.t) (now : Z)
    (m : BudgetManager.t) (st : InMemoryCostStorage.t) (id : string)
    (s : BudgetStatus.t) :
  Rounded.getBudgetStatus rnd cal now m st id = Some s ->
  getBudget m id = Some (BudgetStatus.budget s)
  /\ BudgetStatus.percentageUsed s
     = Rounded.jsScale rnd
         (Rounded.jsDiv rnd (BudgetStatus.currentSpending s)
            (BudgetConfig.limit (BudgetStatus.budget s))) 100
  /\ BudgetStatus.activeAlerts s
     = filter (fun t => jsGe (BudgetStatus.percentageUsed s) t)
              (BudgetConfig.alertThresholds (BudgetStatus.budget s)).
Proof.
  unfold Rounded.getBudgetStatus, getBudget.
  destruct (JsMap.get id (BudgetManager.budgets m)) as [b|]; [|discriminate].
  simpl. intros H. inversion H. simpl. repeat split.
Qed.

End RoundedLoop.

(** C2.  Let the budget map hold, in insertion order, the budgets [pre],
    then [b], then [post].  If [b] is enabled and matches the agent, its
    projected spending, which is the current spending plus the estimated
    cost as the addition of doubles rounds it, is strictly above its
    limit and its action is [block], and no matching budget of [pre] is
    in that situation, then [checkBudget] answers [allowed = false] with
    [blockedBy = b] and the status of [b], and its loop does exactly what
    it does on the budgets up to [b]: nothing of [post] is evaluated.
    This holds whatever the rounding [rnd] of the arithmetic is, in
    particular for [binary64]. *)
Theorem first_blocking_budget_wins
    (rnd : Q -> Q) (cal : Calendar.t) (now : Z) (g : IdGen)
    (m : BudgetManager.t) (st : InMemoryCostStorage.t) (agentId : string)
    (cost : Q) (pre post : list BudgetConfig.t) (b : BudgetConfig.t)
    (status : BudgetStatus.t) :
  getAllBudgets m = pre ++ b :: post ->
  isRelevant agentId b = true ->
  Rounded.getBudgetStatus rnd cal now m st (BudgetConfig.id b) = Some status ->
  BudgetConfig.limit b < rnd (BudgetStatus.currentSpending status + cost) ->
  BudgetConfig.action b = block ->
  (forall x, In x pre -> isRelevant agentId x = true ->
             Rounded.blocksAt rnd cal now m st cost x = false) ->
  let '(r, m', g') := Rounded.checkBudget rnd cal now g m st agentId cost in
  BudgetEnforcementResult.allowed r = false
  /\ BudgetEnforcementResult.blockedBy r = Some b
  /\ BudgetEnforcementResult.status r = Some status
  /\ Rounded.checkLoop rnd cal now st cost (getRelevantBudgets m agentId)
       ([], m, g)
     = Rounded.checkLoop rnd cal now st cost
         (filter (isRelevant agentId) (pre ++ [b])) ([], m, g).
Proof.
  intros Hall Hrel Hst Hlt Hact Hpre.
  assert (Hen : BudgetConfig.enabled b = true).
  { unfold isRelevant in Hrel.
    destruct (BudgetConfig.enabled b); [reflexivity|discriminate]. }
  assert (Hb : Rounded.blocksAt rnd cal now m st cost b = true).
  { apply rounded_blocksAt_spec. split; auto. exists status. auto. }
  assert (Hpre' : forall x, In x (filter (isRelevant agentId) pre) ->
                            Rounded.blocksAt rnd cal now m st cost x = false).
  { intros x Hx. apply filter_In in Hx. destruct Hx. auto. }
  assert (Hrelv : getRelevantBudgets m agentId
                  = filter (isRelevant agentId) pre
                    ++ b :: filter (isRelevant agentId) post).
  { unfold getRelevantBudgets. unfold getAllBudgets in Hall. rewrite Hall.
    rewrite filter_app. simpl. now rewrite Hrel. }
  assert (Hcut : filter (isRelevant agentId) (pre ++ [b])
                 = filter (isRelevant agentId) pre ++ [b]).
  { rewrite filter_app. simpl. now rewrite Hrel. }
  pose proof (rounded_checkLoop_find rnd cal now st cost
                (getRelevantBudgets m agentId) ([], m, g)) as Hfind.
  pose proof (rounded_checkLoop_budgets rnd cal now st cost
                (getRelevantBudgets m agentId) ([], m, g)) as Hbud.
  unfold Rounded.checkBudget.
  destruct (Rounded.checkLoop rnd cal now st cost
              (getRelevantBudgets m agentId) ([], m, g))
    as [blk [[al m'] g']] eqn:E.
  simpl in Hfind, Hbud.
  rewrite Hrelv in Hfind.
  rewrite (find_first _ _ _ _ Hpre' Hb) in Hfind. subst blk. simpl.
  repeat split.
  - rewrite (rounded_getBudgetStatus_budgets rnd cal now m' m st _ Hbud).
    exact Hst.
  - rewrite Hcut, <- E, Hrelv.
    apply rounded_checkLoop_stops; simpl; auto.
Qed.

(** On doubles, with 0.1 spent and 0.2 estimated, the budget of limit 0.3
    blocks (0.1 + 0.2 is 0.30000000000000004): the budget of limit 1
    before it does not, and the budget of limit 0.25 created after it is
    not evaluated. *)
Lemma first_blocking_budget_wins_witness :
  let '(r, m', g') :=
    Rounded.checkBudget binary64 utc (t0 + 2000)%Z (snd tightBudgets)
      (fst tightBudgets) ledger01 "agent-123" (binary64 (2 # 10)) in
  BudgetEnforcementResult.allowed r = false
  /\ BudgetEnforcementResult.blockedBy r = Some tightBudget
  /\ BudgetEnforcementResult.status r = Some tightStatus
  /\ Rounded.checkLoop binary64 utc (t0 + 2000)%Z ledger01 (binary64 (2 # 10))
       (getRelevantBudgets (fst tightBudgets) "agent-123")
       ([], fst tightBudgets, snd tightBudgets)
     = Rounded.checkLoop binary64 utc (t0 + 2000)%Z ledger01
         (binary64 (2 # 10))
         (filter (isRelevant "agent-123") ([roomyBudget] ++ [tightBudget]))
         ([], fst tightBudgets, snd tightBudgets).
Proof.
  apply (@first_blocking_budget_wins binary64 utc (t0 + 2000)%Z
           (snd tightBudgets) (fst tightBudgets) ledger01 "agent-123"
           (binary64 (2 # 10)) [roomyBudget] [tighterBudget] tightBudget
           tightStatus).
  - reflexivity.
  - reflexivity.
  - vm_compute. reflexivity.
  - vm_compute. reflexivity.
  - reflexivity.
  - intros x [<-|[]] _. vm_compute. reflexivity.
Defined.

(** The same scenario without rounding: 0.1 + 0.2 is not above 0.3, and
    the budget of limit 0.25 is the one that blocks. *)
Example exact_sum_reaches_later_budget :
  BudgetEnforcementResult.blockedBy
    (fst (fst (checkBudget utc (t0 + 2000)%Z 3%nat
                 (BudgetManager.mk
                    [("0", roomyBudget);
                     ("1", BudgetConfig.mk "1" "Tight" (3 # 10) daily [100]
                             block None true t0 t0);
                     ("2", BudgetConfig.mk "2" "Tighter" (25 # 100) daily [100]
                             block None true t0 t0)]
                    [("0", []); ("1", []); ("2", [])])
                 (store newStorage
                    (mockRecord "r1" "agent-123" (1 # 10) (t0 + 1000)%Z))
                 "agent-123" (2 # 10))))
  = Some (BudgetConfig.mk "2" "Tighter" (25 # 100) daily [100] block None true
            t0 t0).
Proof. reflexivity. Qed.

(** X27.  The decision of [checkBudget], exactly: the request is allowed
    if and only if, for every relevant budget whose action is [block],
    the current spending plus the estimated cost, as the addition of
    doubles rounds it, does not exceed the limit.  Alerts already
    recorded and budgets with other actions play no part.  This holds
    whatever the rounding [rnd] is, in particular for [binary64]. *)
Theorem allowed_iff_no_block_exceeded
    (rnd : Q -> Q) (cal : Calendar.t) (now : Z) (g : IdGen)
    (m : BudgetManager.t) (st : InMemoryCostStorage.t) (agentId : string)
    (cost : Q) :
  BudgetEnforcementResult.allowed
    (fst (fst (Rounded.checkBudget rnd cal now g m st agentId cost))) = true
  <-> forall b status,
        In b (getRelevantBudgets m agentId) ->
        BudgetConfig.action b = block ->
        Rounded.getBudgetStatus rnd cal now m st (BudgetConfig.id b)
        = Some status ->
        rnd (BudgetStatus.currentSpending status + cost)
        <= BudgetConfig.limit b.
Proof.
  rewrite rounded_checkBudget_allowed_find. split.
  - intros Hnone b status Hin Hact Hs.
    pose proof (find_none _ _ Hnone b Hin) as Hb.
    apply Qnot_lt_le. intros Hlt.
    assert (Rounded.blocksAt rnd cal now m st cost b = true); [|congruence].
    apply rounded_blocksAt_spec. split.
    + unfold getRelevantBudgets in Hin. apply filter_In in Hin.
      now apply (relevant_enabled agentId).
    + exists status. auto.
  - intros Hall. apply find_all_false. intros b Hin.
    destruct (Rounded.blocksAt rnd cal now m st cost b) eqn:E; auto.
    apply rounded_blocksAt_spec in E.
    destruct E as [_ [status [Hs [Hlt Hact]]]].
    exfalso. exact (Qlt_not_le _ _ Hlt (Hall b status Hin Hact Hs)).
Qed.

(** On doubles 0.01 + 0.02 is 0.03, so a request estimated at 0.02 is
    allowed by a budget of limit 0.03 with 0.01 spent. *)
Lemma allowed_iff_no_block_exceeded_witness :
  BudgetEnforcementResult.allowed
    (fst (fst (Rounded.checkBudget binary64 utc (t0 + 2000)%Z (snd centBudget)
                 (fst centBudget) ledger001 "agent-123"
                 (binary64 (2 # 100))))) = true.
Proof.
  apply (proj2 (@allowed_iff_no_block_exceeded binary64 utc (t0 + 2000)%Z
                  (snd centBudget) (fst centBudget) ledger001
                  "agent-123" (binary64 (2 # 100)))).
  intros b status Hin Hact Hs.
  destruct Hin as [<-|[]].
  vm_compute in Hs. inversion Hs; subst. vm_compute. discriminate.
Defined.

(** Without rounding the sum of the doubles 0.01 and 0.02 is above the
    double 0.03, and the same request would be refused. *)
Example exact_sum_of_doubles_exceeds :
  BudgetEnforcementResult.allowed
    (fst (fst (checkBudget utc (t0 + 2000)%Z (snd centBudget)
                 (fst centBudget) ledger001 "agent-123"
                 (binary64 (2 # 100))))) = false.
Proof. vm_compute. reflexivity. Qed.

(** X20.  For a budget whose limit is not 0 the percentage used is the
    finite number obtained by dividing the spending by the limit and
    multiplying by 100, each operation rounded; a configured threshold
    is active exactly when it is at most that number, so that with an
    active threshold every smaller configured threshold is active too.
    This holds whatever the rounding [rnd] is, in particular for
    [binary64]. *)
Theorem active_thresholds_by_rounded_percentage
    (rnd : Q -> Q) (cal : Calendar.t) (now : Z) (m : BudgetManager.t)
    (st : InMemoryCostStorage.t) (id : string) (s : BudgetStatus.t) :
  Rounded.getBudgetStatus rnd cal now m st id = Some s ->
  ~ BudgetConfig.limit (BudgetStatus.budget s) == 0 ->
  let pct :=
    rnd (rnd (BudgetStatus.currentSpending s
              / BudgetConfig.limit (BudgetStatus.budget s)) * 100) in
  BudgetStatus.percentageUsed s = Finite pct
  /\ (forall t,
        In t (BudgetStatus.activeAlerts s) <->
        In t (BudgetConfig.alertThresholds (BudgetStatus.budget s))
        /\ t <= pct)
  /\ (forall t t',
        In t (BudgetStatus.activeAlerts s) ->
        In t' (BudgetConfig.alertThresholds (BudgetStatus.budget s)) ->
        t' <= t ->
        In t' (BudgetStatus.activeAlerts s)).
Proof.
  intros Hs Hl pct.
  destruct (rounded_getBudgetStatus_fields _ _ _ _ _ _ Hs)
    as [_ [Hpct Hact]].
  assert (Hfin : BudgetStatus.percentageUsed s = Finite pct).
  { rewrite Hpct. unfold Rounded.jsDiv.
    destruct (Qeq_bool (BudgetConfig.limit (BudgetStatus.budget s)) 0) eqn:E;
      [|reflexivity].
    apply Qeq_bool_iff in E. contradiction. }
  assert (Hiff : forall t,
             In t (BudgetStatus.activeAlerts s) <->
             In t (BudgetConfig.alertThresholds (BudgetStatus.budget s))
             /\ t <= pct).
  { intros t. rewrite Hact, filter_In, Hfin. simpl.
    now rewrite Qle_bool_iff. }
  split; [exact Hfin|]. split; [exact Hiff|].
  intros t t' Ht Ht' Hle. apply Hiff. split; [exact Ht'|].
  apply Hiff in Ht. destruct Ht as [_ Ht].
  exact (Qle_trans _ _ _ Hle Ht).
Qed.

(** On doubles, 0.57 spent on a limit of 1 is 56.99999999999999 percent:
    the threshold 57 is not active, although 57 percent of the limit,
    0.57, is spent. *)
Lemma active_thresholds_by_rounded_percentage_witness :
  ~ In 57 (BudgetStatus.activeAlerts status57)
  /\ binary64 (binary64 (57 / 100)
               * BudgetConfig.limit (BudgetStatus.budget status57))
     <= BudgetStatus.currentSpending status57.
Proof.
  split.
  - intros Hin.
    apply (proj1 (proj2 (@active_thresholds_by_rounded_percentage binary64
                           utc (t0 + 2000)%Z (fst budget57) ledger057 "0"
                           status57 eq_refl Q_apart_0_1))
             57) in Hin.
    destruct Hin as [_ Hle]. vm_compute in Hle. now apply Hle.
  - vm_compute. discriminate.
Defined.

(* ================================================================== *)
(** * The cost calculator on the catalog read as a plain object *)

(** For a name that the object does not inherit, the read is the lookup
    of an own key, and the calculator is the one of the sections above. *)
Lemma plain_read_own (catalog : JsMap.t ModelPricing.t) (key : string) :
  ownName key = true ->
  PlainObject.read catalog key = option_map entry (JsMap.get key catalog).
Proof.
  intros H. unfold PlainObject.read. rewrite H.
  destruct (JsMap.get key catalog); reflexivity.
Qed.

Lemma plain_lookup_own (catalog : JsMap.t ModelPricing.t) (model : string)
    (provider : option ModelProvider) :
  ownName model = true ->
  PlainObject.lookupPricing catalog model provider
  = option_map entry (lookupPricing catalog model provider).
Proof.
  intros H. unfold PlainObject.lookupPricing, lookupPricing.
  rewrite (plain_read_own catalog model H).
  destruct (JsMap.get model catalog); simpl; [reflexivity|].
  destruct (find _ catalog) as [[k p]|]; simpl; [reflexivity|].
  destruct (find _ catalog) as [[k p]|]; reflexivity.
Qed.

Lemma plain_resolve_own (tr : CostTracker.t) (model : string)
    (provider : option ModelProvider) :
  ownName model = true ->
  PlainObject.resolvePricing tr model provider
  = option_map entry (resolvePricing tr model provider).
Proof.
  intros H. unfold PlainObject.resolvePricing, resolvePricing.
  destruct (JsMap.get model (CostTracker.customPricing tr)); [reflexivity|].
  now apply plain_lookup_own.
Qed.

Lemma plain_estimate_own (tr : CostTracker.t) (now : Z) (model : string)
    (usage : TokenUsage.t) (provider : option ModelProvider) :
  ownName model = true ->
  PlainObject.estimateCost tr now model usage provider
  = plainEstimate (estimateCost tr now model usage provider).
Proof.
  intros H. unfold PlainObject.estimateCost, estimateCost.
  rewrite (plain_resolve_own tr model provider H).
  destruct (negb (CostTrackerConfig.enabled (CostTracker.config tr)));
    [reflexivity|].
  destruct (resolvePricing tr model provider); reflexivity.
Qed.

Lemma plain_record_own (tr : CostTracker.t) (g : IdGen) (now : Z)
    (requestId agentId model : string) (usage : TokenUsage.t)
    (provider : option ModelProvider) (metadata : option Metadata) :
  ownName model = true ->
  PlainObject.calculateActualCost tr g now requestId agentId model usage
    provider metadata
  = (plainRecord (fst (calculateActualCost tr g now requestId agentId model
                         usage provider metadata)),
     snd (calculateActualCost tr g now requestId agentId model usage
            provider metadata)).
Proof.
  intros H. unfold PlainObject.calculateActualCost, calculateActualCost.
  rewrite (plain_resolve_own tr model provider H).
  destruct (negb (CostTrackerConfig.enabled (CostTracker.config tr)));
    [reflexivity|].
  destruct (resolvePricing tr model provider); reflexivity.
Qed.

(** When metering is disabled, or when the lookup yields nothing, both
    methods return a total of 0 and the all-zero breakdown. *)
Lemma unresolved_or_disabled_costs_zero
    (tr : CostTracker.t) (g : IdGen) (now : Z)
    (requestId agentId model : string) (usage : TokenUsage.t)
    (provider : option ModelProvider) (metadata : option Metadata) :
  CostTrackerConfig.enabled (CostTracker.config tr) = false
  \/ PlainObject.resolvePricing tr model provider = None ->
  let e := PlainObject.estimateCost tr now model usage provider in
  let r := fst (PlainObject.calculateActualCost tr g now requestId agentId
                  model usage provider metadata) in
  PlainObject.CostEstimate.estimatedCost e = Finite 0
  /\ PlainObject.CostEstimate.breakdown e = plainBreakdown zeroBreakdown
  /\ PlainObject.CostRecord.actualCost r = Finite 0
  /\ PlainObject.CostRecord.breakdown r = plainBreakdown zeroBreakdown.
Proof.
  intros H. cbv zeta.
  unfold PlainObject.estimateCost, PlainObject.calculateActualCost,
    PlainObject.createZeroCostEstimate, PlainObject.createZeroCostRecord,
    generateId, zeroBreakdown, plainBreakdown.
  destruct (CostTrackerConfig.enabled (CostTracker.config tr)) eqn:En; simpl.
  - destruct H as [H|H]; [discriminate|]. rewrite H. simpl. auto.
  - auto.
Qed.

(** Every inherited name resolves, on the catalog, to the inherited
    member. *)
Lemma inherited_name_resolves (name : string)
    (provider : option ModelProvider) :
  In name objectPrototypeNames ->
  PlainObject.getModelPricing name provider = Some (inheritedMember name).
Proof.
  intros Hin. unfold objectPrototypeNames in Hin. simpl in Hin.
  repeat (destruct Hin as [<-|Hin]; [reflexivity|]).
  contradiction.
Qed.

(** With metering enabled and no custom entry for it, a model called by
    an inherited name is priced on the inherited member: the input and
    output costs and the total are NaN, for every usage. *)
Lemma inherited_name_costs_NaN
    (tr : CostTracker.t) (g : IdGen) (now : Z)
    (requestId agentId name : string) (usage : TokenUsage.t)
    (provider : option ModelProvider) (metadata : option Metadata) :
  In name objectPrototypeNames ->
  CostTrackerConfig.enabled (CostTracker.config tr) = true ->
  JsMap.get name (CostTracker.customPricing tr) = None ->
  PlainObject.CostEstimate.estimatedCost
    (PlainObject.estimateCost tr now name usage provider) = NaN
  /\ PlainObject.CostRecord.actualCost
       (fst (PlainObject.calculateActualCost tr g now requestId agentId name
               usage provider metadata)) = NaN.
Proof.
  intros Hin En Hc.
  unfold PlainObject.estimateCost, PlainObject.calculateActualCost,
    PlainObject.resolvePricing.
  rewrite En, Hc, (inherited_name_resolves provider Hin). simpl.
  split; reflexivity.
Qed.

(** C5 fails on the code.  The model name "constructor" has no price
    entry, and metering is enabled: [estimateCost] and
    [calculateActualCost] do not return the zero-cost result.  [MODEL_PRICING["constructor"]] is the member
    that the catalog object inherits, the lookup returns it as if it were
    a price entry, and the input cost, the output cost and the total come
    out as NaN, with no model and no provider in the result.  A name that
    the object does not inherit and the catalog does not resolve, such as
    "unknown-model", gets the total 0. *)
Theorem inherited_member_priced_as_NaN :
  let e := PlainObject.estimateCost defaultTracker t0 "constructor" usage1
             None in
  let r := fst (PlainObject.calculateActualCost defaultTracker 0%nat t0
                  "req-1" "agent-1" "constructor" usage1 None None) in
  JsMap.get "constructor" MODEL_PRICING = None
  /\ PlainObject.getModelPricing "constructor" None
     = Some (inheritedMember "constructor")
  /\ PlainObject.CostEstimate.estimatedCost e = NaN
  /\ PlainObject.CostEstimate.breakdown e
     = PlainObject.Breakdown.mk NaN NaN None None
  /\ PlainObject.CostEstimate.model e = None
  /\ PlainObject.CostRecord.actualCost r = NaN
  /\ PlainObject.CostRecord.breakdown r
     = PlainObject.Breakdown.mk NaN NaN None None
  /\ PlainObject.CostEstimate.estimatedCost
       (PlainObject.estimateCost defaultTracker t0 "unknown-model" usage1 None)
     = Finite 0.
Proof. cbv zeta. repeat split. Qed.

(* ================================================================== *)
(** * The summary over a range *)

Lemma exact_getSummary (st : InMemoryCostStorage.t) (from to : Z)
    (agentId : option string) :
  Rounded.getSummary (fun q => q) st from to agentId
  = getSummary st from to agentId.
Proof. reflexivity. Qed.




